(** * KSCrashMonitor: the monitor registry and the notify/handle protocol

    A shallow embedding of [Sources/KSCrashRecordingCore/KSCrashMonitor.c].
    The file-scope globals of the C file become the fields of one [State]
    record; every C function becomes a computation in a small state monad
    whose only failure is blocking for ever on [g_monitorsLock].

    Monitors are objects living outside the core.  They are addressed by
    pointer, so the embedding keeps a memory of monitor objects next to the
    globals, and records every call that leaves the core (into a monitor or
    into the application callback) in a call log.

    Not modelled: the KSLOG output (and the [hasWarned] flag that only
    guards it), and failure of the [malloc]/[realloc] of the registry
    storage, which the C code does not check either. *)

From stdpp Require Import base list sets strings functions pretty.
From Stdlib Require Import NArith Lia.

(** ** Data *)

(** A non-null [KSCrashMonitorAPI *]. A nullable pointer is an [option addr]. *)
Definition addr := nat.

(** The contents of a [char eventID[40]] buffer, read as a C string. *)
Definition EventID := string.

Record KSCrash_ExceptionHandlingPolicy := {
  isFatal : bool;
  asyncSafety : bool
}.

(** What the core can observe of one monitor: the answers of [monitorId()]
    and [monitorFlags()], and the monitor's private enabled flag
    ([g_isEnabled] in KSCrashMonitor_System.m), read by [isEnabled()]. *)
Record KSCrashMonitorAPI := {
  monitorId : option string;
  monitorFlags : N;
  isEnabled : bool
}.

(** The shared fields of [struct KSCrash_MonitorContext], and the list of
    monitors that wrote their own section into it, in call order. *)
Record KSCrash_MonitorContext := {
  eventID : EventID;
  handlingCrash : bool;
  requiresAsyncSafety : bool;
  crashedDuringCrashHandling : bool;
  contextualInfo : list addr
}.

(** [MonitorList]: [apis] holds the first [count] slots of the C array, so
    [count] is [length apis]. *)
Record MonitorList := {
  apis : list addr;
  capacity : nat
}.

Definition INITIAL_MONITOR_CAPACITY : nat := 15.

(** Calls that leave the core and may have an effect there; the getters
    [monitorId()], [monitorFlags()] and [isEnabled()] are not recorded. *)
Inductive Call :=
| CallInit (m : addr)
| CallSetEnabled (m : addr) (b : bool)
| CallAddContextualInfoToEvent (m : addr)
| CallNotifyPostSystemEnable (m : addr)
| CallOnExceptionEvent (f : nat) (ctx : KSCrash_MonitorContext).

Record State := {
  g_monitors : MonitorList;
  g_monitorsLock : bool;                      (* true: held *)
  g_areMonitorsInitialized : bool;
  g_crashedDuringExceptionHandling : bool;
  g_currentPolicy : KSCrash_ExceptionHandlingPolicy;
  g_eventIds : nat -> EventID;                (* slots 0 and 1 *)
  g_eventIdIdx : nat;
  g_onExceptionEvent : option nat;            (* NULL or a function *)
  ksid_calls : nat;                           (* calls of ksid_generate so far *)
  monitors : addr -> KSCrashMonitorAPI;       (* the monitor objects *)
  calls : list Call                           (* oldest first *)
}.

Definition g_eventIdCount : nat := 2.

(** Field updates. *)
Definition set_g_monitors (v : MonitorList) (s : State) : State :=
  {| g_monitors := v; g_monitorsLock := g_monitorsLock s;
     g_areMonitorsInitialized := g_areMonitorsInitialized s;
     g_crashedDuringExceptionHandling := g_crashedDuringExceptionHandling s;
     g_currentPolicy := g_currentPolicy s; g_eventIds := g_eventIds s;
     g_eventIdIdx := g_eventIdIdx s; g_onExceptionEvent := g_onExceptionEvent s;
     ksid_calls := ksid_calls s; monitors := monitors s; calls := calls s |}.

Definition set_g_monitorsLock (v : bool) (s : State) : State :=
  {| g_monitors := g_monitors s; g_monitorsLock := v;
     g_areMonitorsInitialized := g_areMonitorsInitialized s;
     g_crashedDuringExceptionHandling := g_crashedDuringExceptionHandling s;
     g_currentPolicy := g_currentPolicy s; g_eventIds := g_eventIds s;
     g_eventIdIdx := g_eventIdIdx s; g_onExceptionEvent := g_onExceptionEvent s;
     ksid_calls := ksid_calls s; monitors := monitors s; calls := calls s |}.

Definition set_g_areMonitorsInitialized (v : bool) (s : State) : State :=
  {| g_monitors := g_monitors s; g_monitorsLock := g_monitorsLock s;
     g_areMonitorsInitialized := v;
     g_crashedDuringExceptionHandling := g_crashedDuringExceptionHandling s;
     g_currentPolicy := g_currentPolicy s; g_eventIds := g_eventIds s;
     g_eventIdIdx := g_eventIdIdx s; g_onExceptionEvent := g_onExceptionEvent s;
     ksid_calls := ksid_calls s; monitors := monitors s; calls := calls s |}.

Definition set_g_crashedDuringExceptionHandling (v : bool) (s : State) : State :=
  {| g_monitors := g_monitors s; g_monitorsLock := g_monitorsLock s;
     g_areMonitorsInitialized := g_areMonitorsInitialized s;
     g_crashedDuringExceptionHandling := v;
     g_currentPolicy := g_currentPolicy s; g_eventIds := g_eventIds s;
     g_eventIdIdx := g_eventIdIdx s; g_onExceptionEvent := g_onExceptionEvent s;
     ksid_calls := ksid_calls s; monitors := monitors s; calls := calls s |}.

Definition set_g_currentPolicy (v : KSCrash_ExceptionHandlingPolicy) (s : State) : State :=
  {| g_monitors := g_monitors s; g_monitorsLock := g_monitorsLock s;
     g_areMonitorsInitialized := g_areMonitorsInitialized s;
     g_crashedDuringExceptionHandling := g_crashedDuringExceptionHandling s;
     g_currentPolicy := v; g_eventIds := g_eventIds s;
     g_eventIdIdx := g_eventIdIdx s; g_onExceptionEvent := g_onExceptionEvent s;
     ksid_calls := ksid_calls s; monitors := monitors s; calls := calls s |}.

Definition set_g_eventIds (v : nat -> EventID) (s : State) : State :=
  {| g_monitors := g_monitors s; g_monitorsLock := g_monitorsLock s;
     g_areMonitorsInitialized := g_areMonitorsInitialized s;
     g_crashedDuringExceptionHandling := g_crashedDuringExceptionHandling s;
     g_currentPolicy := g_currentPolicy s; g_eventIds := v;
     g_eventIdIdx := g_eventIdIdx s; g_onExceptionEvent := g_onExceptionEvent s;
     ksid_calls := ksid_calls s; monitors := monitors s; calls := calls s |}.

Definition set_g_eventIdIdx (v : nat) (s : State) : State :=
  {| g_monitors := g_monitors s; g_monitorsLock := g_monitorsLock s;
     g_areMonitorsInitialized := g_areMonitorsInitialized s;
     g_crashedDuringExceptionHandling := g_crashedDuringExceptionHandling s;
     g_currentPolicy := g_currentPolicy s; g_eventIds := g_eventIds s;
     g_eventIdIdx := v; g_onExceptionEvent := g_onExceptionEvent s;
     ksid_calls := ksid_calls s; monitors := monitors s; calls := calls s |}.

Definition set_g_onExceptionEvent (v : option nat) (s : State) : State :=
  {| g_monitors := g_monitors s; g_monitorsLock := g_monitorsLock s;
     g_areMonitorsInitialized := g_areMonitorsInitialized s;
     g_crashedDuringExceptionHandling := g_crashedDuringExceptionHandling s;
     g_currentPolicy := g_currentPolicy s; g_eventIds := g_eventIds s;
     g_eventIdIdx := g_eventIdIdx s; g_onExceptionEvent := v;
     ksid_calls := ksid_calls s; monitors := monitors s; calls := calls s |}.

Definition set_ksid_calls (v : nat) (s : State) : State :=
  {| g_monitors := g_monitors s; g_monitorsLock := g_monitorsLock s;
     g_areMonitorsInitialized := g_areMonitorsInitialized s;
     g_crashedDuringExceptionHandling := g_crashedDuringExceptionHandling s;
     g_currentPolicy := g_currentPolicy s; g_eventIds := g_eventIds s;
     g_eventIdIdx := g_eventIdIdx s; g_onExceptionEvent := g_onExceptionEvent s;
     ksid_calls := v; monitors := monitors s; calls := calls s |}.

Definition set_monitors (v : addr -> KSCrashMonitorAPI) (s : State) : State :=
  {| g_monitors := g_monitors s; g_monitorsLock := g_monitorsLock s;
     g_areMonitorsInitialized := g_areMonitorsInitialized s;
     g_crashedDuringExceptionHandling := g_crashedDuringExceptionHandling s;
     g_currentPolicy := g_currentPolicy s; g_eventIds := g_eventIds s;
     g_eventIdIdx := g_eventIdIdx s; g_onExceptionEvent := g_onExceptionEvent s;
     ksid_calls := ksid_calls s; monitors := v; calls := calls s |}.

Definition set_calls (v : list Call) (s : State) : State :=
  {| g_monitors := g_monitors s; g_monitorsLock := g_monitorsLock s;
     g_areMonitorsInitialized := g_areMonitorsInitialized s;
     g_crashedDuringExceptionHandling := g_crashedDuringExceptionHandling s;
     g_currentPolicy := g_currentPolicy s; g_eventIds := g_eventIds s;
     g_eventIdIdx := g_eventIdIdx s; g_onExceptionEvent := g_onExceptionEvent s;
     ksid_calls := ksid_calls s; monitors := monitors s; calls := v |}.

Definition set_isEnabled (b : bool) (m : KSCrashMonitorAPI) : KSCrashMonitorAPI :=
  {| monitorId := monitorId m; monitorFlags := monitorFlags m; isEnabled := b |}.

Definition set_eventID (v : EventID) (c : KSCrash_MonitorContext) : KSCrash_MonitorContext :=
  {| eventID := v; handlingCrash := handlingCrash c;
     requiresAsyncSafety := requiresAsyncSafety c;
     crashedDuringCrashHandling := crashedDuringCrashHandling c;
     contextualInfo := contextualInfo c |}.

Definition set_handlingCrash (v : bool) (c : KSCrash_MonitorContext) : KSCrash_MonitorContext :=
  {| eventID := eventID c; handlingCrash := v;
     requiresAsyncSafety := requiresAsyncSafety c;
     crashedDuringCrashHandling := crashedDuringCrashHandling c;
     contextualInfo := contextualInfo c |}.

Definition set_requiresAsyncSafety (v : bool) (c : KSCrash_MonitorContext) : KSCrash_MonitorContext :=
  {| eventID := eventID c; handlingCrash := handlingCrash c;
     requiresAsyncSafety := v;
     crashedDuringCrashHandling := crashedDuringCrashHandling c;
     contextualInfo := contextualInfo c |}.

Definition set_crashedDuringCrashHandling (v : bool) (c : KSCrash_MonitorContext) : KSCrash_MonitorContext :=
  {| eventID := eventID c; handlingCrash := handlingCrash c;
     requiresAsyncSafety := requiresAsyncSafety c;
     crashedDuringCrashHandling := v;
     contextualInfo := contextualInfo c |}.

Definition add_contextualInfo (m : addr) (c : KSCrash_MonitorContext) : KSCrash_MonitorContext :=
  {| eventID := eventID c; handlingCrash := handlingCrash c;
     requiresAsyncSafety := requiresAsyncSafety c;
     crashedDuringCrashHandling := crashedDuringCrashHandling c;
     contextualInfo := contextualInfo c ++ [m] |}.

(** ** The monad

    A C function either returns, with a value and the state it leaves, or
    it is stuck in [os_unfair_lock_lock] on a lock that nobody in this
    sequential model will release.  [Blocked] keeps the state reached at
    that point: the writes made before blocking are visible to the rest of
    the process. *)
Inductive Outcome (A : Type) :=
| Returned (a : A) (s : State)
| Blocked (s : State).
Arguments Returned {A} a s.
Arguments Blocked {A} s.

Definition M (A : Type) := State -> Outcome A.

Definition ret {A} (a : A) : M A := fun s => Returned a s.

Definition bind {A B} (c : M A) (k : A -> M B) : M B :=
  fun s => match c s with
           | Returned a s' => k a s'
           | Blocked s' => Blocked s'
           end.

Declare Scope ks_scope.
Delimit Scope ks_scope with ks.
Notation "x <- c ;; k" := (bind c (fun x => k))
  (at level 100, c at next level, right associativity) : ks_scope.
Notation "c ;; k" := (bind c (fun _ => k))
  (at level 100, right associativity) : ks_scope.
Open Scope ks_scope.

Definition get : M State := fun s => Returned s s.
Definition modify (f : State -> State) : M unit := fun s => Returned tt (f s).

(** The state in which a computation ends, returned or stuck. *)
Definition final {A} (o : Outcome A) : State :=
  match o with Returned _ s => s | Blocked s => s end.

(** [for (i = 0; i < n; i++) body(xs[i])] over a list read before the loop. *)
Fixpoint forM_ {A} (xs : list A) (body : A -> M unit) : M unit :=
  match xs with
  | [] => ret tt
  | x :: xs' => body x ;; forM_ xs' body
  end.

(** The same loop with a local variable [acc] updated by the body. *)
Fixpoint foldM {A B} (xs : list A) (acc : B) (body : B -> A -> M B) : M B :=
  match xs with
  | [] => ret acc
  | x :: xs' => acc' <- body acc x ;; foldM xs' acc' body
  end.

(** ** os_unfair_lock *)

Definition os_unfair_lock_lock : M unit :=
  fun s => if g_monitorsLock s then Blocked s
           else Returned tt (set_g_monitorsLock true s).

Definition os_unfair_lock_trylock : M bool :=
  fun s => if g_monitorsLock s then Returned false s
           else Returned true (set_g_monitorsLock true s).

Definition os_unfair_lock_unlock : M unit := modify (set_g_monitorsLock false).

(** ** Calls into a monitor and into the application *)

Definition log (c : Call) : M unit := modify (fun s => set_calls (calls s ++ [c]) s).

Definition call_monitorId (m : addr) : M (option string) :=
  s <- get ;; ret (monitorId (monitors s m)).

Definition call_monitorFlags (m : addr) : M N :=
  s <- get ;; ret (monitorFlags (monitors s m)).

Definition call_isEnabled (m : addr) : M bool :=
  s <- get ;; ret (isEnabled (monitors s m)).

(** [api->setEnabled(b)]: the monitor stores [b] in its enabled flag, as
    [setEnabled] of KSCrashMonitor_System.m does. *)
Definition call_setEnabled (m : addr) (b : bool) : M unit :=
  log (CallSetEnabled m b) ;;
  modify (fun s => set_monitors (<[m := set_isEnabled b (monitors s m)]> (monitors s)) s).

Definition call_init (m : addr) : M unit := log (CallInit m).

Definition call_notifyPostSystemEnable (m : addr) : M unit :=
  log (CallNotifyPostSystemEnable m).

(** [api->addContextualInfoToEvent(context)]: the monitor fills its own
    section of the context. *)
Definition call_addContextualInfoToEvent (m : addr) (ctx : KSCrash_MonitorContext)
  : M KSCrash_MonitorContext :=
  log (CallAddContextualInfoToEvent m) ;;
  ret (add_contextualInfo m ctx).

Definition call_onExceptionEvent (f : nat) (ctx : KSCrash_MonitorContext) : M unit :=
  log (CallOnExceptionEvent f ctx).

(** Modelled from the spec: [ksstring_safeStrcmp] (KSString.h is not among
    the sources).  The registry keeps "at most one descriptor per id", and
    [kscm_addMonitor] decides "id already present" by this function
    returning 0; so it is a [strcmp] that accepts NULL: 0 exactly when both
    arguments are NULL or both are the same string, NULL ordered first. *)
Definition ksstring_safeStrcmp (str1 str2 : option string) : Z :=
  match str1, str2 with
  | None, None => 0
  | None, Some _ => -1
  | Some _, None => 1
  | Some a, Some b =>
      match String.compare a b with Eq => 0 | Lt => -1 | Gt => 1 end
  end%Z.

Section Model.

(** What the headers that are not among the sources declare: the
    identifier written by the n-th call of [ksid_generate] (KSID.h), and
    the two bits of [KSCrashMonitorFlag] that the core tests. *)
Variable ksid_nth : nat -> EventID.
Variable KSCrashMonitorFlagAsyncSafe : N.
Variable KSCrashMonitorFlagDebuggerUnsafe : N.

Definition ksid_generate : M EventID :=
  s <- get ;;
  modify (set_ksid_calls (S (ksid_calls s))) ;;
  ret (ksid_nth (ksid_calls s)).

(** [flags & bit] as a C condition. *)
Definition has_flag (flags bit : N) : bool := negb (N.land flags bit =? 0)%N.

(** ** Internal *)

Definition addMonitor (api : addr) : M unit :=
  modify (fun s =>
    let list := g_monitors s in
    let capacity' :=
      if capacity list <=? length (apis list)
      then (if 0 <? capacity list then capacity list * 2 else 2)
      else capacity list in
    set_g_monitors {| apis := apis list ++ [api]; capacity := capacity' |} s).

(** The body of the [if (list->apis[i] == api)] in [removeMonitor], after
    the [setEnabled(false)]: the last monitor takes slot [i], and the list
    is one shorter. *)
Definition replaceWithLast (i : nat) (list : MonitorList) : MonitorList :=
  let count := length (apis list) in
  match apis list !! (count - 1) with
  | Some last =>
      {| apis := take (count - 1) (<[i := last]> (apis list));
         capacity := capacity list |}
  | None => list
  end.

(** The [for] loop of [removeMonitor], [n] iterations left, at index [i];
    the result is [found]. *)
Fixpoint removeMonitor_loop (api : addr) (n i : nat) : M bool :=
  match n with
  | 0 => ret false
  | S n' =>
      s <- get ;;
      match apis (g_monitors s) !! i with
      | Some m =>
          if decide (m = api) then
            call_setEnabled m false ;;
            modify (fun s => set_g_monitors (replaceWithLast i (g_monitors s)) s) ;;
            ret true
          else removeMonitor_loop api n' (S i)
      | None => ret false
      end
  end.

Definition removeMonitor (api : option addr) : M unit :=
  match api with
  | None => ret tt
  | Some api =>
      s <- get ;;
      _ <- removeMonitor_loop api (length (apis (g_monitors s))) 0 ;;
      ret tt
  end.

Definition freeMonitorFuncList : M unit :=
  modify (set_g_monitors {| apis := []; capacity := 0 |}) ;;
  modify (set_g_areMonitorsInitialized false).

Definition regenerateEventIds : M unit :=
  forM_ (seq 0 g_eventIdCount) (fun i =>
    eventId <- ksid_generate ;;
    modify (fun s => set_g_eventIds (<[i := eventId]> (g_eventIds s)) s)) ;;
  modify (set_g_eventIdIdx 0).

Definition init : M unit :=
  s <- get ;;
  if g_areMonitorsInitialized s then ret tt
  else
    modify (set_g_areMonitorsInitialized true) ;;
    modify (set_g_monitors {| apis := []; capacity := INITIAL_MONITOR_CAPACITY |}).

Definition kscm_resetState : M unit :=
  os_unfair_lock_lock ;;
  freeMonitorFuncList ;;
  os_unfair_lock_unlock ;;
  modify (set_g_currentPolicy {| isFatal := false; asyncSafety := false |}) ;;
  modify (set_g_crashedDuringExceptionHandling false) ;;
  modify (set_g_onExceptionEvent None) ;;
  regenerateEventIds.

(** ** API *)

Definition kscm_setEventCallback (onEvent : option nat) : M unit :=
  init ;;
  modify (set_g_onExceptionEvent onEvent).

(** [isBeingTraced] is the answer of [ksdebug_isBeingTraced()] and
    [mallocOk] tells whether the [malloc] of the snapshot array succeeds. *)
Definition kscm_activateMonitors (isBeingTraced mallocOk : bool) : M bool :=
  init ;;
  s0 <- get ;;
  let isDebuggerUnsafe := isBeingTraced in
  let isAsyncSafeRequired := asyncSafety (g_currentPolicy s0) in
  regenerateEventIds ;;
  os_unfair_lock_lock ;;
  regenerateEventIds ;;
  s1 <- get ;;
  forM_ (apis (g_monitors s1)) (fun api =>
    flags <- call_monitorFlags api ;;
    let shouldEnable := true in
    let shouldEnable :=
      if isDebuggerUnsafe && has_flag flags KSCrashMonitorFlagDebuggerUnsafe
      then false else shouldEnable in
    let shouldEnable :=
      if isAsyncSafeRequired && negb (has_flag flags KSCrashMonitorFlagAsyncSafe)
      then false else shouldEnable in
    call_setEnabled api shouldEnable) ;;
  s2 <- get ;;
  let monitorsCount := length (apis (g_monitors s2)) in
  let haveSnapshot := (0 <? monitorsCount) && mallocOk in
  r <- foldM (apis (g_monitors s2)) ([], false) (fun '(enabledMonitors, anyMonitorActive) api =>
    en <- call_isEnabled api ;;
    if en then
      ret (if haveSnapshot then enabledMonitors ++ [api] else enabledMonitors, true)
    else ret (enabledMonitors, anyMonitorActive)) ;;
  let '(enabledMonitors, anyMonitorActive) := r in
  os_unfair_lock_unlock ;;
  forM_ enabledMonitors call_notifyPostSystemEnable ;;
  ret anyMonitorActive.

Definition kscm_disableAllMonitors : M unit :=
  os_unfair_lock_lock ;;
  s <- get ;;
  forM_ (apis (g_monitors s)) (fun api => call_setEnabled api false) ;;
  os_unfair_lock_unlock.

Definition notifyException (recommendations : KSCrash_ExceptionHandlingPolicy) : M bool :=
  modify (fun s =>
    set_g_currentPolicy
      {| isFatal := isFatal (g_currentPolicy s);
         asyncSafety := asyncSafety (g_currentPolicy s) || asyncSafety recommendations |} s) ;;
  if negb (isFatal recommendations) then ret false
  else
    s <- get ;;
    (if isFatal (g_currentPolicy s)
     then modify (set_g_crashedDuringExceptionHandling true) else ret tt) ;;
    modify (fun s =>
      set_g_currentPolicy
        {| isFatal := true; asyncSafety := asyncSafety (g_currentPolicy s) |} s) ;;
    s <- get ;;
    (if g_crashedDuringExceptionHandling s then kscm_disableAllMonitors else ret tt) ;;
    s <- get ;;
    ret (g_crashedDuringExceptionHandling s).

(** [context] is updated in place by the C code; here the updated context
    is the result.  The identifier step yields [None] where the C code
    leaves through the [return] of the exhausted pool. *)
Definition handleException (context : KSCrash_MonitorContext) : M KSCrash_MonitorContext :=
  s <- get ;;
  let context :=
    set_handlingCrash (handlingCrash context || isFatal (g_currentPolicy s)) context in
  let context := set_requiresAsyncSafety (asyncSafety (g_currentPolicy s)) context in
  let context :=
    if g_crashedDuringExceptionHandling s
    then set_crashedDuringCrashHandling true context else context in
  locked <- os_unfair_lock_trylock ;;
  if negb locked then ret context
  else
    s <- get ;;
    r <- (if negb (asyncSafety (g_currentPolicy s)) then
            eventId <- ksid_generate ;;
            ret (Some (set_eventID eventId context))
          else if g_eventIdCount <=? g_eventIdIdx s then ret None
          else
            modify (set_g_eventIdIdx (S (g_eventIdIdx s))) ;;
            ret (Some (set_eventID (g_eventIds s (g_eventIdIdx s)) context))) ;;
    match r with
    | None => ret context
    | Some context =>
        s <- get ;;
        context <- foldM (apis (g_monitors s)) context (fun context api =>
          en <- call_isEnabled api ;;
          if en then call_addContextualInfoToEvent api context else ret context) ;;
        os_unfair_lock_unlock ;;
        s <- get ;;
        match g_onExceptionEvent s with
        | Some f => call_onExceptionEvent f context
        | None => ret tt
        end ;;
        s <- get ;;
        (if isFatal (g_currentPolicy s) && negb (g_crashedDuringExceptionHandling s)
         then kscm_disableAllMonitors else ret tt) ;;
        ret (set_handlingCrash false context)
    end.

(** The duplicate check of [kscm_addMonitor]: true when the loop leaves
    through its [return false]. *)
Fixpoint hasMonitorWithId (existing : list addr) (newMonitorId : option string) : M bool :=
  match existing with
  | [] => ret false
  | existingApi :: rest =>
      existingMonitorId <- call_monitorId existingApi ;;
      if (ksstring_safeStrcmp existingMonitorId newMonitorId =? 0)%Z then ret true
      else hasMonitorWithId rest newMonitorId
  end.

Definition kscm_addMonitor (api : option addr) : M bool :=
  init ;;
  match api with
  | None => ret false
  | Some api =>
      newMonitorId <- call_monitorId api ;;
      match newMonitorId with
      | None => ret false
      | Some _ =>
          os_unfair_lock_lock ;;
          s <- get ;;
          duplicate <- hasMonitorWithId (apis (g_monitors s)) newMonitorId ;;
          if duplicate then
            os_unfair_lock_unlock ;;
            ret false
          else
            call_init api ;;
            addMonitor api ;;
            os_unfair_lock_unlock ;;
            ret true
      end
  end.

Definition kscm_removeMonitor (api : option addr) : M unit :=
  match api with
  | None => ret tt
  | Some _ =>
      os_unfair_lock_lock ;;
      removeMonitor api ;;
      os_unfair_lock_unlock
  end.

(** ** Private API *)

Definition kscm_regenerateEventIDs : M unit :=
  os_unfair_lock_lock ;;
  regenerateEventIds ;;
  os_unfair_lock_unlock.

Definition kscm_clearAsyncSafetyState : M unit :=
  modify (fun s =>
    set_g_currentPolicy
      {| isFatal := isFatal (g_currentPolicy s); asyncSafety := false |} s).

End Model.

(** ** What the claims speak about *)

(** The policy state of the protocol: the two policy bits and the sticky
    crashed-during-handling flag. *)
Definition policy_state (s : State) : bool * bool * bool :=
  (isFatal (g_currentPolicy s), asyncSafety (g_currentPolicy s),
   g_crashedDuringExceptionHandling s).

(** The monitor objects after [setEnabled(f flags)] was called on each
    monitor of [l], first to last. *)
Definition setEnabledAll (f : N -> bool) (l : list addr)
    (mons : addr -> KSCrashMonitorAPI) : addr -> KSCrashMonitorAPI :=
  foldl (fun mons m => <[m := set_isEnabled (f (monitorFlags (mons m))) (mons m)]> mons) mons l.

(** The state a returning [kscm_disableAllMonitors] leaves. *)
Definition disabledAll (s : State) : State :=
  set_g_monitorsLock false
    (set_monitors (setEnabledAll (fun _ => false) (apis (g_monitors s)) (monitors s))
      (set_calls (calls s ++ map (fun m => CallSetEnabled m false) (apis (g_monitors s))) s)).

(** The three stamps [handleException] puts on the context before it tries
    the lock. *)
Definition stamped (s : State) (context : KSCrash_MonitorContext) : KSCrash_MonitorContext :=
  let context :=
    set_handlingCrash (handlingCrash context || isFatal (g_currentPolicy s)) context in
  let context := set_requiresAsyncSafety (asyncSafety (g_currentPolicy s)) context in
  if g_crashedDuringExceptionHandling s
  then set_crashedDuringCrashHandling true context else context.

(** The policy a notification leaves, on the three bits. *)
Definition notify_policy (r : KSCrash_ExceptionHandlingPolicy) (p : bool * bool * bool)
  : bool * bool * bool :=
  let '(fatal, async, crashed) := p in
  if isFatal r then (true, async || asyncSafety r, crashed || fatal)
  else (fatal, async || asyncSafety r, crashed).

(** The globals after the assignments of [notifyException], before it
    decides whether to call [kscm_disableAllMonitors]. *)
Definition notified (r : KSCrash_ExceptionHandlingPolicy) (s : State) : State :=
  let s1 :=
    set_g_currentPolicy
      {| isFatal := isFatal (g_currentPolicy s);
         asyncSafety := asyncSafety (g_currentPolicy s) || asyncSafety r |} s in
  if isFatal r then
    let s2 :=
      if isFatal (g_currentPolicy s1) then set_g_crashedDuringExceptionHandling true s1
      else s1 in
    set_g_currentPolicy {| isFatal := true; asyncSafety := asyncSafety (g_currentPolicy s2) |} s2
  else s1.

(** The monitors of the registry that report enabled, in registry order. *)
Definition enabledMonitors (s : State) : list addr :=
  List.filter (fun m => isEnabled (monitors s m)) (apis (g_monitors s)).

(** Steps 4 to 8 of [handleException], run in a state [s] in which the
    lock has been taken and for a context whose [eventID] is written: the
    context and the globals they leave. *)
Definition completed_context (s : State) (context : KSCrash_MonitorContext)
  : KSCrash_MonitorContext :=
  foldl (fun c m => add_contextualInfo m c) context (enabledMonitors s).

Definition completed_state (s : State) (context : KSCrash_MonitorContext) : State :=
  let s1 :=
    set_g_monitorsLock false
      (set_calls (calls s ++ map CallAddContextualInfoToEvent (enabledMonitors s)) s) in
  let s2 :=
    match g_onExceptionEvent s1 with
    | Some f => set_calls (calls s1 ++ [CallOnExceptionEvent f (completed_context s context)]) s1
    | None => s1
    end in
  if isFatal (g_currentPolicy s2) && negb (g_crashedDuringExceptionHandling s2)
  then disabledAll s2 else s2.

(** The globals after [regenerateEventIds]. *)
Definition regenerated (ksid_nth : nat -> EventID) (s : State) : State :=
  set_g_eventIdIdx 0
    (set_g_eventIds
       (<[1 := ksid_nth (S (ksid_calls s))]> (<[0 := ksid_nth (ksid_calls s)]> (g_eventIds s)))
       (set_ksid_calls (S (S (ksid_calls s))) s)).

(** The globals after [init()]. *)
Definition initialized (s : State) : State :=
  if g_areMonitorsInitialized s then s
  else set_g_monitors {| apis := []; capacity := INITIAL_MONITOR_CAPACITY |}
         (set_g_areMonitorsInitialized true s).

(** The ids of the registered monitors, in registry order. *)
Definition registered_ids (s : State) : list (option string) :=
  map (fun m => monitorId (monitors s m)) (apis (g_monitors s)).

(** The globals after a successful [kscm_addMonitor(api)] on an
    initialised registry. *)
Definition added (api : addr) (s : State) : State :=
  let list := g_monitors s in
  set_g_monitorsLock false
    (set_g_monitors
       {| apis := apis list ++ [api];
          capacity :=
            if capacity list <=? length (apis list)
            then (if 0 <? capacity list then capacity list * 2 else 2)
            else capacity list |}
       (set_calls (calls s ++ [CallInit api]) s)).

(** The globals after [kscm_removeMonitor(api)] found [api] in slot [i]. *)
Definition removed (i : nat) (api : addr) (s : State) : State :=
  set_g_monitorsLock false
    (set_g_monitors (replaceWithLast i (g_monitors s))
       (set_monitors (<[api := set_isEnabled false (monitors s api)]> (monitors s))
          (set_calls (calls s ++ [CallSetEnabled api false]) s))).

(** The decision [kscm_activateMonitors] takes for a monitor with the
    given flags. *)
Definition shouldEnable (KSCrashMonitorFlagAsyncSafe KSCrashMonitorFlagDebuggerUnsafe : N)
    (isDebuggerUnsafe isAsyncSafeRequired : bool) (flags : N) : bool :=
  let shouldEnable := true in
  let shouldEnable :=
    if isDebuggerUnsafe && has_flag flags KSCrashMonitorFlagDebuggerUnsafe
    then false else shouldEnable in
  if isAsyncSafeRequired && negb (has_flag flags KSCrashMonitorFlagAsyncSafe)
  then false else shouldEnable.

(** Running a list of computations one after the other on the contexts of
    a list, collecting the results. *)
Fixpoint mapM {A B} (f : A -> M B) (xs : list A) : M (list B) :=
  match xs with
  | [] => ret []
  | x :: xs' => b <- f x ;; bs <- mapM f xs' ;; ret (b :: bs)
  end.

(** ** The rest of the API as state transformers, and its clients *)

(** The globals after [kscm_resetState]. *)
Definition reset_state (ksid_nth : nat -> EventID) (s : State) : State :=
  regenerated ksid_nth
    (set_g_onExceptionEvent None
       (set_g_crashedDuringExceptionHandling false
          (set_g_currentPolicy {| isFatal := false; asyncSafety := false |}
             (set_g_monitorsLock false
                (set_g_areMonitorsInitialized false
                   (set_g_monitors {| apis := []; capacity := 0 |} s)))))).

(** The globals after a returning [kscm_activateMonitors]. *)
Definition activated (ksid_nth : nat -> EventID)
    (KSCrashMonitorFlagAsyncSafe KSCrashMonitorFlagDebuggerUnsafe : N)
    (isBeingTraced mallocOk : bool) (s : State) : State :=
  let f := shouldEnable KSCrashMonitorFlagAsyncSafe KSCrashMonitorFlagDebuggerUnsafe
             isBeingTraced (asyncSafety (g_currentPolicy s)) in
  let s1 := regenerated ksid_nth (regenerated ksid_nth (initialized s)) in
  let l := apis (g_monitors s1) in
  let mons := setEnabledAll f l (monitors s1) in
  let enabled := List.filter (fun m => isEnabled (mons m)) l in
  set_calls
    ((calls s1 ++ map (fun m => CallSetEnabled m (f (monitorFlags (monitors s1 m)))) l)
     ++ map CallNotifyPostSystemEnable
          (if (0 <? length l) && mallocOk then enabled else []))
    (set_g_monitorsLock false (set_monitors mons s1)).

(** The context and the globals after [handleException]: nothing but the
    stamps when the lock is taken or the pool is used up, a completed
    handling otherwise, with an identifier made on demand or taken from the
    pool. *)
Definition handled_resolution (ksid_nth : nat -> EventID) (s : State)
    (context : KSCrash_MonitorContext) : option (State * KSCrash_MonitorContext) :=
  if g_monitorsLock s then None
  else if negb (asyncSafety (g_currentPolicy s)) then
    Some (set_ksid_calls (S (ksid_calls s)) (set_g_monitorsLock true s),
          set_eventID (ksid_nth (ksid_calls s)) (stamped s context))
  else if g_eventIdCount <=? g_eventIdIdx s then None
  else
    Some (set_g_eventIdIdx (S (g_eventIdIdx s)) (set_g_monitorsLock true s),
          set_eventID (g_eventIds s (g_eventIdIdx s)) (stamped s context)).

Definition handled_context (ksid_nth : nat -> EventID) (s : State)
    (context : KSCrash_MonitorContext) : KSCrash_MonitorContext :=
  match handled_resolution ksid_nth s context with
  | Some (s1, c1) => set_handlingCrash false (completed_context s1 c1)
  | None => stamped s context
  end.

Definition handled_state (ksid_nth : nat -> EventID) (s : State)
    (context : KSCrash_MonitorContext) : State :=
  match handled_resolution ksid_nth s context with
  | Some (s1, c1) => completed_state s1 c1
  | None => if g_monitorsLock s then s else set_g_monitorsLock true s
  end.

(** The entry points of the core: the public and private API and the two
    callbacks handed to every monitor by [init]. *)
Inductive ApiCall :=
| SetEventCallback (onEvent : option nat)
| ActivateMonitors (isBeingTraced mallocOk : bool)
| DisableAllMonitors
| Notify (recommendations : KSCrash_ExceptionHandlingPolicy)
| Handle (context : KSCrash_MonitorContext)
| AddMonitor (api : option addr)
| RemoveMonitor (api : option addr)
| RegenerateEventIDs
| ClearAsyncSafetyState
| ResetState.

Section Client.

Variable ksid_nth : nat -> EventID.
Variable KSCrashMonitorFlagAsyncSafe : N.
Variable KSCrashMonitorFlagDebuggerUnsafe : N.

(** One call of a client, its result dropped. *)
Definition api_call (c : ApiCall) : M unit :=
  match c with
  | SetEventCallback onEvent => kscm_setEventCallback onEvent
  | ActivateMonitors isBeingTraced mallocOk =>
      _ <- kscm_activateMonitors ksid_nth KSCrashMonitorFlagAsyncSafe
             KSCrashMonitorFlagDebuggerUnsafe isBeingTraced mallocOk ;;
      ret tt
  | DisableAllMonitors => kscm_disableAllMonitors
  | Notify recommendations => _ <- notifyException recommendations ;; ret tt
  | Handle context => _ <- handleException ksid_nth context ;; ret tt
  | AddMonitor api => _ <- kscm_addMonitor api ;; ret tt
  | RemoveMonitor api => kscm_removeMonitor api
  | RegenerateEventIDs => kscm_regenerateEventIDs ksid_nth
  | ClearAsyncSafetyState => kscm_clearAsyncSafetyState
  | ResetState => kscm_resetState ksid_nth
  end.

(** A client: any sequence of calls, run until one of them blocks. *)
Definition api_calls (cs : list ApiCall) : M unit := forM_ cs api_call.

End Client.

(** Invariants of the globals. *)
Definition capacity_ok (s : State) : Prop :=
  length (apis (g_monitors s)) <= capacity (g_monitors s).

Definition ids_unique (s : State) : Prop := NoDup (registered_ids s).

Definition cursor_ok (s : State) : Prop := g_eventIdIdx s <= g_eventIdCount.

Definition storage_ok (s : State) : Prop :=
  g_areMonitorsInitialized s = false -> apis (g_monitors s) = [].

(** [s'] has the registry of [s]: the same list and storage, and monitor
    objects that answer the same ids. *)
Definition same_registry (s s' : State) : Prop :=
  g_monitors s' = g_monitors s
  /\ g_areMonitorsInitialized s' = g_areMonitorsInitialized s
  /\ (forall m, monitorId (monitors s' m) = monitorId (monitors s m)).

(** The calls of the application callback in a call log. *)
Definition callback_calls (cs : list Call) : list (nat * KSCrash_MonitorContext) :=
  omap (fun c => match c with CallOnExceptionEvent f ctx => Some (f, ctx) | _ => None end) cs.

(** The [setEnabled] calls in a call log. *)
Definition setEnabled_calls (cs : list Call) : list (addr * bool) :=
  omap (fun c => match c with CallSetEnabled m b => Some (m, b) | _ => None end) cs.

(** ** A monitor behind the interface: KSCrashMonitor_System.m

    The System monitor keeps [g_isEnabled], the [isInitialized] flag local
    to [initialize()], and [g_systemData], filled by [initialize()] from
    what the operating system answers at that moment.  [SystemData] stands
    for the filled struct; [None] is the zeroed static. *)
Module KSCrashMonitor_System.

Section WithSystemData.

Variable SystemData : Type.

Record Globals := {
  g_isEnabled : bool;
  isInitialized : bool;
  g_systemData : option SystemData
}.

(** The statics of a fresh process. *)
Definition startup : Globals :=
  {| g_isEnabled := false; isInitialized := false; g_systemData := None |}.

(** [os] is the data the queries of [initialize()] would collect now. *)
Definition initialize (os : SystemData) (g : Globals) : Globals :=
  if negb (isInitialized g) then
    {| g_isEnabled := g_isEnabled g; isInitialized := true; g_systemData := Some os |}
  else g.

Definition monitorId : option string := Some "System"%string.

Definition setEnabled (os : SystemData) (isEnabled : bool) (g : Globals) : Globals :=
  if negb (Bool.eqb isEnabled (g_isEnabled g)) then
    let g :=
      {| g_isEnabled := isEnabled; isInitialized := isInitialized g;
         g_systemData := g_systemData g |} in
    if isEnabled then initialize os g else g
  else g.

Definition isEnabled (g : Globals) : bool := g_isEnabled g.

(** The [System] section of an event context: [None] while nothing was
    written, else the copied system data with the two memory figures
    measured at the copy. *)
Definition addContextualInfoToEvent (memory : N * N) (g : Globals)
    (section : option (option SystemData * (N * N)))
  : option (option SystemData * (N * N)) :=
  if g_isEnabled g then Some (g_systemData g, memory) else section.

(** The core's calls of [setEnabled], each with the data the system would
    answer at that time. *)
Definition setEnabled_all (cs : list (bool * SystemData)) (g : Globals) : Globals :=
  foldl (fun g c => setEnabled (snd c) (fst c) g) g cs.

End WithSystemData.

End KSCrashMonitor_System.

(** ** Example data: three monitors A, B, C, a second object that also
    answers "B", and an object without an id *)

Definition example_ksid_nth (n : nat) : EventID := ("id-" +:+ pretty n)%string.

Definition example_monitor (id : option string) (flags : N) : KSCrashMonitorAPI :=
  {| monitorId := id; monitorFlags := flags; isEnabled := false |}.

Definition example_monitors (a : addr) : KSCrashMonitorAPI :=
  match a with
  | 1 => example_monitor (Some "A"%string) 1
  | 2 => example_monitor (Some "B"%string) 2
  | 3 => example_monitor (Some "C"%string) 3
  | 4 => example_monitor (Some "B"%string) 0
  | _ => example_monitor None 0
  end.

(** The zero-initialised globals of a fresh process. *)
Definition example_fresh : State :=
  {| g_monitors := {| apis := []; capacity := 0 |};
     g_monitorsLock := false;
     g_areMonitorsInitialized := false;
     g_crashedDuringExceptionHandling := false;
     g_currentPolicy := {| isFatal := false; asyncSafety := false |};
     g_eventIds := fun _ => ""%string;
     g_eventIdIdx := 0;
     g_onExceptionEvent := None;
     ksid_calls := 0;
     monitors := example_monitors;
     calls := [] |}.

(** A, B and C registered, a callback set. *)
Definition example_registered : State :=
  set_g_onExceptionEvent (Some 99)
    (set_g_areMonitorsInitialized true
      (set_g_monitors {| apis := [1; 2; 3]; capacity := 15 |} example_fresh)).

(** The same with async-safety required by the policy, a fatal episode
    under way. *)
Definition example_async : State :=
  set_g_currentPolicy {| isFatal := true; asyncSafety := true |} example_registered.

(** The same while another thread holds the registry lock. *)
Definition example_held : State := set_g_monitorsLock true example_async.

(** The pool used up: both identifiers handed out. *)
Definition example_exhausted : State := set_g_eventIdIdx 2 example_async.

Definition example_context : KSCrash_MonitorContext :=
  {| eventID := ""%string; handlingCrash := false; requiresAsyncSafety := false;
     crashedDuringCrashHandling := false; contextualInfo := [] |}.

(** A client's run: register A, B and the second "B", activate, go
    through a fatal episode with its handling, remove A, reset, register C
    and handle once more. *)
Definition example_calls : list ApiCall :=
  [ AddMonitor (Some 1); AddMonitor (Some 2); AddMonitor (Some 4); AddMonitor None;
    SetEventCallback (Some 99); ActivateMonitors false true;
    Notify {| isFatal := true; asyncSafety := true |}; Handle example_context;
    Notify {| isFatal := true; asyncSafety := false |}; Handle example_context;
    RemoveMonitor (Some 1); RegenerateEventIDs; ClearAsyncSafetyState;
    ResetState; AddMonitor (Some 3); DisableAllMonitors; Handle example_context ].

(** The fatal async-safe episode with monitors A and C enabled. *)
Definition example_armed : State :=
  set_monitors
    (<[1 := set_isEnabled true (example_monitors 1)]>
       (<[3 := set_isEnabled true (example_monitors 3)]> example_monitors))
    example_async.

(** A client's run that never resets. *)
Definition example_episode : list ApiCall :=
  [ Notify {| isFatal := false; asyncSafety := false |}; Handle example_context;
    RemoveMonitor (Some 1); ActivateMonitors true false; AddMonitor (Some 4) ].

(** * Properties *)

Arguments kscm_disableAllMonitors : simpl never.
Arguments notifyException : simpl never.
Arguments handleException : simpl never.
Arguments kscm_addMonitor : simpl never.
Arguments kscm_activateMonitors : simpl never.
Arguments kscm_removeMonitor : simpl never.
Arguments kscm_resetState : simpl never.
Arguments kscm_regenerateEventIDs : simpl never.
Arguments kscm_setEventCallback : simpl never.

Section Properties.

Variable ksid_nth : nat -> EventID.
Variable KSCrashMonitorFlagAsyncSafe : N.
Variable KSCrashMonitorFlagDebuggerUnsafe : N.

Lemma bind_eq {A B} (c : M A) (k : A -> M B) s :
  bind c k s = match c s with Returned a s' => k a s' | Blocked s' => Blocked s' end.
Proof. reflexivity. Qed.

(** ** The loop that calls [setEnabled] on every monitor *)

Lemma setEnabledAll_snoc f l m mons :
  setEnabledAll f (l ++ [m]) mons =
  <[m := set_isEnabled (f (monitorFlags (setEnabledAll f l mons m))) (setEnabledAll f l mons m)]>
    (setEnabledAll f l mons).
Proof. unfold setEnabledAll. by rewrite foldl_app. Qed.

Lemma setEnabledAll_monitorFlags f l mons a :
  monitorFlags (setEnabledAll f l mons a) = monitorFlags (mons a).
Proof.
  induction l as [|m l IH] using rev_ind; [done|].
  rewrite setEnabledAll_snoc.
  destruct (decide (m = a)) as [->|Hne].
  - by rewrite fn_lookup_insert.
  - by rewrite fn_lookup_insert_ne.
Qed.

Lemma setEnabledAll_monitorId f l mons a :
  monitorId (setEnabledAll f l mons a) = monitorId (mons a).
Proof.
  induction l as [|m l IH] using rev_ind; [done|].
  rewrite setEnabledAll_snoc.
  destruct (decide (m = a)) as [->|Hne].
  - by rewrite fn_lookup_insert.
  - by rewrite fn_lookup_insert_ne.
Qed.

Lemma setEnabledAll_isEnabled_in f l mons a :
  a ∈ l -> isEnabled (setEnabledAll f l mons a) = f (monitorFlags (mons a)).
Proof.
  induction l as [|m l IH] using rev_ind; [by intros ?%elem_of_nil|].
  intros Hin. rewrite setEnabledAll_snoc.
  destruct (decide (m = a)) as [->|Hne].
  - rewrite fn_lookup_insert. simpl. by rewrite setEnabledAll_monitorFlags.
  - rewrite fn_lookup_insert_ne by done. apply IH.
    apply elem_of_app in Hin as [Hin|Hin%list_elem_of_singleton]; [done|congruence].
Qed.

Lemma setEnabledAll_notin f l mons a :
  a ∉ l -> setEnabledAll f l mons a = mons a.
Proof.
  induction l as [|m l IH] using rev_ind; [done|].
  intros [Hl Hm%not_elem_of_cons]%not_elem_of_app. rewrite setEnabledAll_snoc.
  rewrite fn_lookup_insert_ne by (intros ->; by destruct Hm). by apply IH.
Qed.

Lemma setEnabled_loop (body : addr -> M unit) (f : N -> bool) :
  (forall api s, body api s = call_setEnabled api (f (monitorFlags (monitors s api))) s) ->
  forall l s,
  forM_ l body s =
  Returned tt
    (set_monitors (setEnabledAll f l (monitors s))
      (set_calls (calls s ++ map (fun m => CallSetEnabled m (f (monitorFlags (monitors s m)))) l) s)).
Proof.
  intros Hbody l. induction l as [|m l IH]; intros s.
  - cbn. unfold ret, set_monitors, set_calls. cbn. rewrite app_nil_r. by destruct s.
  - cbn [forM_]. unfold bind at 1. rewrite Hbody.
    unfold call_setEnabled, log, bind, modify. cbn. rewrite IH. cbn.
    unfold set_monitors, set_calls. cbn. f_equal. f_equal.
    rewrite <- app_assoc. cbn. f_equal. f_equal.
    apply map_ext_in. intros a _.
    destruct (decide (m = a)) as [->|Hne].
    + by rewrite fn_lookup_insert.
    + by rewrite fn_lookup_insert_ne.
Qed.

(** ** [kscm_disableAllMonitors] *)

Lemma kscm_disableAllMonitors_free s :
  g_monitorsLock s = false ->
  kscm_disableAllMonitors s = Returned tt (disabledAll s).
Proof.
  intros Hfree. unfold kscm_disableAllMonitors, os_unfair_lock_lock, bind at 1.
  rewrite Hfree. unfold bind at 1, get. unfold bind at 1.
  rewrite (setEnabled_loop _ (fun _ => false)) by done.
  reflexivity.
Qed.

Lemma kscm_disableAllMonitors_held s :
  g_monitorsLock s = true -> kscm_disableAllMonitors s = Blocked s.
Proof.
  intros Hheld. unfold kscm_disableAllMonitors, os_unfair_lock_lock, bind at 1.
  by rewrite Hheld.
Qed.

Lemma disabledAll_isEnabled s m :
  m ∈ apis (g_monitors (disabledAll s)) -> isEnabled (monitors (disabledAll s) m) = false.
Proof. cbn. intros Hin. by rewrite setEnabledAll_isEnabled_in. Qed.

(** ** [notifyException] *)

Lemma notifyException_unfold r s :
  notifyException r s =
  if isFatal r && g_crashedDuringExceptionHandling (notified r s) then
    if g_monitorsLock s then Blocked (notified r s)
    else Returned true (disabledAll (notified r s))
  else Returned false (notified r s).
Proof.
  unfold notifyException, notified.
  destruct r as [rf ra], s as [ml lk ini cr [pf pa] ids idx cb kc mons cs].
  destruct rf; [|reflexivity].
  destruct pf, cr, lk; cbn; try reflexivity;
    unfold bind, modify, get, ret; cbn;
    first [ rewrite kscm_disableAllMonitors_held by reflexivity; reflexivity
          | rewrite kscm_disableAllMonitors_free by reflexivity; reflexivity
          | reflexivity ].
Qed.

Lemma policy_state_notified r s :
  policy_state (notified r s) = notify_policy r (policy_state s).
Proof.
  destruct r as [rf ra], s as [ml lk ini cr [pf pa] ids idx cb kc mons cs].
  by destruct rf, pf, cr.
Qed.

Lemma policy_state_disabledAll s : policy_state (disabledAll s) = policy_state s.
Proof. reflexivity. Qed.

Lemma asyncSafety_notified r s :
  asyncSafety (g_currentPolicy (notified r s)) =
  asyncSafety (g_currentPolicy s) || asyncSafety r.
Proof.
  pose proof (policy_state_notified r s) as H. unfold policy_state, notify_policy in H.
  destruct (isFatal r); congruence.
Qed.

Lemma policy_state_final_notify r s :
  policy_state (final (notifyException r s)) = notify_policy r (policy_state s).
Proof.
  rewrite notifyException_unfold.
  destruct (isFatal r && _), (g_monitorsLock s); cbn [final];
    rewrite ?policy_state_disabledAll; apply policy_state_notified.
Qed.

(** C8: a notification ORs its [asyncSafety] into the policy and never
    clears it, whether the call returns or not; a non-fatal notification
    returns false and changes nothing but that bit: [isFatal] and the
    crashed flag keep their values, the lock is not touched and no call
    leaves the core, so no handling takes place. *)
Theorem notifyException_asyncSafety_or_and_nonfatal_return :
  (forall r s,
     asyncSafety (g_currentPolicy (final (notifyException r s))) =
     asyncSafety (g_currentPolicy s) || asyncSafety r)
  /\ (forall a s,
        let s' :=
          set_g_currentPolicy
            {| isFatal := isFatal (g_currentPolicy s);
               asyncSafety := asyncSafety (g_currentPolicy s) || a |} s in
        notifyException {| isFatal := false; asyncSafety := a |} s = Returned false s'
        /\ isFatal (g_currentPolicy s') = isFatal (g_currentPolicy s)
        /\ g_crashedDuringExceptionHandling s' = g_crashedDuringExceptionHandling s
        /\ calls s' = calls s
        /\ monitors s' = monitors s).
Proof.
  split.
  - intros r s. pose proof (policy_state_final_notify r s) as H.
    unfold policy_state, notify_policy in H. destruct (isFatal r); congruence.
  - intros a s. by rewrite notifyException_unfold.
Qed.


(** C5, as the code has it: the merges commute, on all three bits: the two
    orders either both return, with the same policy state, or both block on
    the lock.  Repeating a notification leaves [isFatal] and [asyncSafety]
    as after one notification, but not the crashed flag: after the repeat
    it is the flag after one notification OR [isFatal] of the
    recommendation. *)
Theorem notifyException_commutes_and_repeats :
  forall r1 r2 s,
    match (notifyException r1 ;; notifyException r2) s,
          (notifyException r2 ;; notifyException r1) s with
    | Returned _ s12, Returned _ s21 => policy_state s12 = policy_state s21
    | Blocked _, Blocked _ => True
    | _, _ => False
    end
    /\ (let once := final (notifyException r1 s) in
        let twice := final ((notifyException r1 ;; notifyException r1) s) in
        isFatal (g_currentPolicy twice) = isFatal (g_currentPolicy once)
        /\ asyncSafety (g_currentPolicy twice) = asyncSafety (g_currentPolicy once)
        /\ g_crashedDuringExceptionHandling twice =
           g_crashedDuringExceptionHandling once || isFatal r1).
Proof.
  intros r1 r2 s. split.
  - unfold bind. rewrite !(notifyException_unfold _ s).
    destruct r1 as [f1 a1], r2 as [f2 a2],
      s as [ml lk ini cr [pf pa] ids idx cb kc mons cs].
    destruct f1, f2, pf, cr, lk; cbn;
      rewrite ?notifyException_unfold; cbn; try exact I;
      unfold policy_state; cbn; by rewrite <- ?orb_assoc, (orb_comm a1 a2).
  - unfold bind. rewrite !(notifyException_unfold _ s).
    destruct r1 as [f1 a1],
      s as [ml lk ini cr [pf pa] ids idx cb kc mons cs].
    destruct f1, pf, cr, lk; cbn;
      rewrite ?notifyException_unfold; cbn;
      by rewrite <- ?orb_assoc, ?orb_diag.
Qed.

(** ** [handleException] *)

Lemma handleException_held context s :
  g_monitorsLock s = true ->
  handleException ksid_nth context s = Returned (stamped s context) s.
Proof.
  intros Hheld. unfold handleException, bind, get, os_unfair_lock_trylock.
  by rewrite Hheld.
Qed.

Lemma handleException_exhausted context s :
  g_monitorsLock s = false ->
  asyncSafety (g_currentPolicy s) = true ->
  g_eventIdCount <= g_eventIdIdx s ->
  handleException ksid_nth context s =
  Returned (stamped s context) (set_g_monitorsLock true s).
Proof.
  intros Hfree Hasync Hidx.
  unfold handleException, bind, get, os_unfair_lock_trylock.
  rewrite Hfree. cbn [negb g_currentPolicy set_g_monitorsLock g_eventIdIdx].
  unfold stamped. rewrite Hasync. cbn [negb].
  apply Nat.leb_le in Hidx. unfold g_eventIdCount in *. by rewrite Hidx.
Qed.

Lemma annotate_loop l context s :
  foldM l context (fun context api =>
    en <- call_isEnabled api ;;
    if en then call_addContextualInfoToEvent api context else ret context) s =
  Returned
    (foldl (fun c m => add_contextualInfo m c) context
       (List.filter (fun m => isEnabled (monitors s m)) l))
    (set_calls
       (calls s ++ map CallAddContextualInfoToEvent
                     (List.filter (fun m => isEnabled (monitors s m)) l)) s).
Proof.
  revert context s. induction l as [|m l IH]; intros context s.
  - cbn. unfold ret, set_calls. rewrite app_nil_r. by destruct s.
  - cbn [foldM List.filter]. rewrite bind_eq. rewrite bind_eq.
    unfold call_isEnabled at 1. rewrite bind_eq. unfold get at 1, ret at 1.
    destruct (isEnabled (monitors s m)) eqn:Hen.
    + unfold call_addContextualInfoToEvent at 1. rewrite bind_eq. unfold log at 1, modify at 1, ret at 1.
      rewrite IH.
      cbn. unfold set_calls. cbn. by rewrite <- app_assoc.
    + unfold ret at 1. by rewrite IH.
Qed.

Lemma handleException_pool context s :
  g_monitorsLock s = false ->
  asyncSafety (g_currentPolicy s) = true ->
  g_eventIdIdx s < g_eventIdCount ->
  let s1 := set_g_eventIdIdx (S (g_eventIdIdx s)) (set_g_monitorsLock true s) in
  let c1 := set_eventID (g_eventIds s (g_eventIdIdx s)) (stamped s context) in
  handleException ksid_nth context s =
  Returned (set_handlingCrash false (completed_context s1 c1)) (completed_state s1 c1).
Proof.
  intros Hfree Hasync Hidx s1 c1.
  apply Nat.leb_gt in Hidx. unfold g_eventIdCount in Hidx.
  unfold handleException. rewrite bind_eq. unfold get at 1.
  rewrite bind_eq. unfold os_unfair_lock_trylock at 1. rewrite Hfree. cbn [negb].
  rewrite bind_eq. unfold get at 1. rewrite bind_eq.
  cbn [g_currentPolicy set_g_monitorsLock g_eventIdIdx g_eventIds]. rewrite Hasync. cbn [negb].
  unfold g_eventIdCount. rewrite Hidx.
  rewrite bind_eq. unfold modify at 1. unfold ret at 1.
  rewrite bind_eq. unfold get at 1. rewrite bind_eq.
  rewrite annotate_loop.
  rewrite bind_eq. unfold os_unfair_lock_unlock at 1, modify at 1.
  rewrite bind_eq. unfold get at 1. rewrite bind_eq.
  cbn [g_onExceptionEvent set_g_monitorsLock set_calls set_g_eventIdIdx].
  subst s1 c1. unfold completed_state, completed_context, enabledMonitors, stamped.
  cbn [g_onExceptionEvent set_g_monitorsLock set_calls set_g_eventIdIdx].
  rewrite Hasync.
  destruct (g_onExceptionEvent s) as [f|].
  - unfold call_onExceptionEvent, log, modify at 1.
    rewrite bind_eq. unfold get at 1. rewrite bind_eq.
    match goal with |- context [if ?b then kscm_disableAllMonitors else _] =>
      destruct b end.
    + by rewrite kscm_disableAllMonitors_free.
    + reflexivity.
  - unfold ret at 1.
    rewrite bind_eq. unfold get at 1. rewrite bind_eq.
    match goal with |- context [if ?b then kscm_disableAllMonitors else _] =>
      destruct b end.
    + by rewrite kscm_disableAllMonitors_free.
    + reflexivity.
Qed.

Lemma completed_state_globals s context :
  g_monitorsLock (completed_state s context) = false
  /\ g_currentPolicy (completed_state s context) = g_currentPolicy s
  /\ g_eventIds (completed_state s context) = g_eventIds s
  /\ g_eventIdIdx (completed_state s context) = g_eventIdIdx s
  /\ g_crashedDuringExceptionHandling (completed_state s context)
     = g_crashedDuringExceptionHandling s
  /\ apis (g_monitors (completed_state s context)) = apis (g_monitors s).
Proof.
  unfold completed_state. cbn.
  destruct (g_onExceptionEvent s); cbn;
    destruct (isFatal (g_currentPolicy s) && negb (g_crashedDuringExceptionHandling s));
    done.
Qed.

Lemma completed_context_eventID s context :
  eventID (completed_context s context) = eventID context.
Proof.
  unfold completed_context. generalize (enabledMonitors s) as l. intros l. revert context.
  induction l as [|m l IH]; intros context; [done|]. cbn. by rewrite IH.
Qed.

Lemma regenerateEventIds_regenerated s :
  regenerateEventIds ksid_nth s = Returned tt (regenerated ksid_nth s).
Proof. reflexivity. Qed.

Lemma mapM_handleException_held later s :
  g_monitorsLock s = true ->
  mapM (handleException ksid_nth) later s = Returned (map (stamped s) later) s.
Proof.
  intros Hheld. induction later as [|c later IH]; [done|].
  cbn [mapM map]. rewrite bind_eq, handleException_held by done.
  rewrite bind_eq, IH. reflexivity.
Qed.

Lemma stamped_keeps context s :
  eventID (stamped s context) = eventID context
  /\ contextualInfo (stamped s context) = contextualInfo context.
Proof. unfold stamped. by destruct (g_crashedDuringExceptionHandling s). Qed.

(** C1, as the code has it: when the non-blocking lock attempt fails,
    [handleException] returns having written the three stamps of its
    first lines into the context ([handlingCrash |= isFatal],
    [requiresAsyncSafety = asyncSafety], [crashedDuringCrashHandling] set
    when the sticky flag is set) and nothing else: [eventID] and the
    monitors' sections are untouched and the globals are unchanged, so no
    monitor and no application callback was called. *)
Theorem handleException_lock_held_stamps_only :
  forall context s,
    g_monitorsLock s = true ->
    handleException ksid_nth context s = Returned (stamped s context) s
    /\ eventID (stamped s context) = eventID context
    /\ contextualInfo (stamped s context) = contextualInfo context
    /\ handlingCrash (stamped s context)
       = handlingCrash context || isFatal (g_currentPolicy s)
    /\ requiresAsyncSafety (stamped s context) = asyncSafety (g_currentPolicy s)
    /\ crashedDuringCrashHandling (stamped s context)
       = crashedDuringCrashHandling context || g_crashedDuringExceptionHandling s.
Proof.
  intros context s Hheld. split; [by apply handleException_held|].
  unfold stamped. destruct (g_crashedDuringExceptionHandling s); cbn;
    rewrite ?orb_true_r, ?orb_false_r; done.
Qed.

(** C3: with the lock free, async-safety required and both pre-built
    identifiers used, [handleException] returns with the lock still held;
    every later call then finds the lock taken and returns with the context
    only stamped, the globals unchanged (the lock stays held) and no monitor
    or callback called. *)
Theorem handleException_exhausted_pool_leaves_lock_held :
  forall context s later,
    g_monitorsLock s = false ->
    asyncSafety (g_currentPolicy s) = true ->
    g_eventIdCount <= g_eventIdIdx s ->
    let s' := set_g_monitorsLock true s in
    handleException ksid_nth context s = Returned (stamped s context) s'
    /\ g_monitorsLock s' = true
    /\ calls s' = calls s
    /\ mapM (handleException ksid_nth) later s' = Returned (map (stamped s') later) s'
    /\ (forall c, eventID (stamped s' c) = eventID c
                  /\ contextualInfo (stamped s' c) = contextualInfo c).
Proof.
  intros context s later Hfree Hasync Hidx s'.
  split; [by apply handleException_exhausted|].
  split; [done|]. split; [done|].
  split; [by apply mapM_handleException_held|].
  intros c. apply stamped_keeps.
Qed.

(** C4: after [regenerateEventIds] both slots hold the identifiers of two
    new calls of [ksid_generate] and the cursor is 0; with async-safety
    required, the next two calls of [handleException] complete and take the
    identifiers of slot 0 and slot 1, which differ when [ksid_generate]
    never repeats an identifier; the cursor is then at the capacity, and a
    third call aborts: it returns the context with its [eventID] as it was,
    and calls neither a monitor nor the callback. *)
Theorem regenerated_pool_serves_exactly_two :
  forall s c1 c2 c3,
    (forall i j, ksid_nth i = ksid_nth j -> i = j) ->
    g_monitorsLock s = false ->
    asyncSafety (g_currentPolicy s) = true ->
    exists s0 s1 s2 c1' c2',
      regenerateEventIds ksid_nth s = Returned tt s0
      /\ g_eventIds s0 0 = ksid_nth (ksid_calls s)
      /\ g_eventIds s0 1 = ksid_nth (S (ksid_calls s))
      /\ g_eventIdIdx s0 = 0
      /\ handleException ksid_nth c1 s0 = Returned c1' s1
      /\ handleException ksid_nth c2 s1 = Returned c2' s2
      /\ eventID c1' = g_eventIds s0 0
      /\ eventID c2' = g_eventIds s0 1
      /\ eventID c1' <> eventID c2'
      /\ handlingCrash c1' = false /\ handlingCrash c2' = false
      /\ g_eventIdIdx s2 = g_eventIdCount
      /\ handleException ksid_nth c3 s2
         = Returned (stamped s2 c3) (set_g_monitorsLock true s2)
      /\ eventID (stamped s2 c3) = eventID c3.
Proof.
  intros s c1 c2 c3 Hinj Hfree Hasync.
  set (s0 := regenerated ksid_nth s).
  assert (H0 : g_monitorsLock s0 = false /\ asyncSafety (g_currentPolicy s0) = true
               /\ g_eventIdIdx s0 = 0) by done.
  destruct H0 as (Hf0 & Ha0 & Hi0).
  pose proof (handleException_pool c1 s0 Hf0 Ha0) as Hh1. cbn zeta in Hh1.
  rewrite Hi0 in Hh1. specialize (Hh1 ltac:(unfold g_eventIdCount; lia)).
  match type of Hh1 with _ = Returned ?c ?t => set (c1' := c) in *; set (s1 := t) in * end.
  destruct (completed_state_globals
              (set_g_eventIdIdx 1 (set_g_monitorsLock true s0))
              (set_eventID (g_eventIds s0 0) (stamped s0 c1)))
    as (Hf1 & Hp1 & Hids1 & Hi1 & _).
  fold s1 in Hf1, Hp1, Hids1, Hi1. cbn in Hp1, Hids1, Hi1.
  assert (Ha1 : asyncSafety (g_currentPolicy s1) = true) by (by rewrite Hp1).
  pose proof (handleException_pool c2 s1 Hf1 Ha1) as Hh2. cbn zeta in Hh2.
  rewrite Hi1 in Hh2. specialize (Hh2 ltac:(unfold g_eventIdCount; lia)).
  match type of Hh2 with _ = Returned ?c ?t => set (c2' := c) in *; set (s2 := t) in * end.
  destruct (completed_state_globals
              (set_g_eventIdIdx 2 (set_g_monitorsLock true s1))
              (set_eventID (g_eventIds s1 1) (stamped s1 c2)))
    as (Hf2 & Hp2 & Hids2 & Hi2 & _).
  fold s2 in Hf2, Hp2, Hids2, Hi2. cbn in Hp2, Hids2, Hi2.
  assert (Ha2 : asyncSafety (g_currentPolicy s2) = true) by (by rewrite Hp2, Hp1).
  assert (He1 : eventID c1' = g_eventIds s0 0).
  { subst c1'. cbn. by rewrite completed_context_eventID. }
  assert (He2 : eventID c2' = g_eventIds s0 1).
  { subst c2'. cbn. rewrite completed_context_eventID. cbn. by rewrite Hids1. }
  exists s0, s1, s2, c1', c2'.
  split; [apply regenerateEventIds_regenerated|].
  split; [done|]. split; [done|].
  split; [done|]. split; [done|]. split; [done|].
  split; [done|]. split; [done|].
  split.
  { rewrite He1, He2. subst s0. cbn.
    rewrite fn_lookup_insert, fn_lookup_insert_ne, fn_lookup_insert by done.
    intros Heq%Hinj. lia. }
  split; [done|]. split; [done|].
  split; [by rewrite Hi2|].
  split; [apply handleException_exhausted; [done|done|rewrite Hi2; done]|].
  apply stamped_keeps.
Qed.

(** ** Registration *)

Lemma unlock_lock_free s :
  g_monitorsLock s = false -> set_g_monitorsLock false (set_g_monitorsLock true s) = s.
Proof. destruct s. cbn. by intros ->. Qed.

Lemma init_initialized s : init s = Returned tt (initialized s).
Proof.
  unfold init, initialized. rewrite bind_eq. unfold get at 1.
  by destruct (g_areMonitorsInitialized s).
Qed.

Lemma initialized_id s : g_areMonitorsInitialized s = true -> initialized s = s.
Proof. unfold initialized. by intros ->. Qed.

Lemma initialized_frame s :
  g_monitorsLock (initialized s) = g_monitorsLock s
  /\ monitors (initialized s) = monitors s
  /\ calls (initialized s) = calls s
  /\ g_areMonitorsInitialized (initialized s) = true
  /\ (apis (g_monitors s) = [] -> apis (g_monitors (initialized s)) = []).
Proof. unfold initialized. by destruct (g_areMonitorsInitialized s) eqn:E. Qed.

Lemma string_compare_refl (a : string) : String.compare a a = Eq.
Proof.
  pose proof (String.compare_antisym a a) as H.
  destruct (String.compare a a); done.
Qed.

Lemma ksstring_safeStrcmp_0 a b :
  (ksstring_safeStrcmp a b =? 0)%Z = true <-> a = b.
Proof.
  destruct a as [a|], b as [b|]; cbn; try (split; [discriminate|congruence]); [|done].
  destruct (String.compare a b) eqn:E; cbn.
  - apply String.compare_eq_iff in E. by subst.
  - split; [discriminate|]. intros [= ->]. by rewrite string_compare_refl in E.
  - split; [discriminate|]. intros [= ->]. by rewrite string_compare_refl in E.
Qed.

Lemma hasMonitorWithId_spec l newId s :
  hasMonitorWithId l newId s =
  Returned
    (existsb (fun m => (ksstring_safeStrcmp (monitorId (monitors s m)) newId =? 0)%Z) l) s.
Proof.
  induction l as [|m l IH]; [done|].
  cbn [hasMonitorWithId existsb]. rewrite bind_eq. unfold call_monitorId at 1.
  rewrite bind_eq. unfold get at 1, ret at 1.
  destruct (ksstring_safeStrcmp _ _ =? 0)%Z; [done|]. by rewrite IH.
Qed.

Lemma existsb_id_in l newId (mons : addr -> KSCrashMonitorAPI) :
  existsb (fun m => (ksstring_safeStrcmp (monitorId (mons m)) newId =? 0)%Z) l = true
  <-> newId ∈ map (fun m => monitorId (mons m)) l.
Proof.
  rewrite existsb_exists, list_elem_of_fmap. split.
  - intros (m & Hin & Heq). exists m. apply ksstring_safeStrcmp_0 in Heq.
    split; [done|]. by apply list_elem_of_In.
  - intros (m & Heq & Hin). exists m. split; [by apply list_elem_of_In|].
    by apply ksstring_safeStrcmp_0.
Qed.

Lemma kscm_addMonitor_null s : kscm_addMonitor None s = Returned false (initialized s).
Proof. unfold kscm_addMonitor. by rewrite bind_eq, init_initialized. Qed.

Lemma kscm_addMonitor_null_id s p :
  monitorId (monitors s p) = None ->
  kscm_addMonitor (Some p) s = Returned false (initialized s).
Proof.
  intros Hid. unfold kscm_addMonitor. rewrite bind_eq, init_initialized.
  rewrite bind_eq. unfold call_monitorId at 1. rewrite bind_eq. unfold get at 1, ret at 1.
  destruct (initialized_frame s) as (_ & -> & _). by rewrite Hid.
Qed.

Lemma kscm_addMonitor_duplicate s p :
  g_monitorsLock s = false ->
  monitorId (monitors s p) <> None ->
  monitorId (monitors s p) ∈ registered_ids (initialized s) ->
  kscm_addMonitor (Some p) s = Returned false (initialized s).
Proof.
  intros Hfree Hid Hdup. unfold kscm_addMonitor. rewrite bind_eq, init_initialized.
  rewrite bind_eq. unfold call_monitorId at 1. rewrite bind_eq. unfold get at 1, ret at 1.
  destruct (initialized_frame s) as (Hlk & Hmons & _). rewrite Hmons.
  destruct (monitorId (monitors s p)) as [i|] eqn:Ei; [|done].
  rewrite bind_eq. unfold os_unfair_lock_lock at 1. rewrite Hlk, Hfree.
  rewrite bind_eq. unfold get at 1. rewrite bind_eq, hasMonitorWithId_spec.
  cbn [monitors g_monitors set_g_monitorsLock].
  unfold registered_ids in Hdup.
  apply existsb_id_in in Hdup. rewrite Hmons in Hdup. rewrite Hmons, Hdup.
  rewrite bind_eq. unfold os_unfair_lock_unlock, modify, ret.
  by rewrite unlock_lock_free by (by rewrite Hlk).
Qed.

Lemma kscm_addMonitor_fresh s p :
  g_monitorsLock s = false ->
  monitorId (monitors s p) <> None ->
  monitorId (monitors s p) ∉ registered_ids (initialized s) ->
  kscm_addMonitor (Some p) s = Returned true (added p (initialized s)).
Proof.
  intros Hfree Hid Hdup. unfold kscm_addMonitor. rewrite bind_eq, init_initialized.
  rewrite bind_eq. unfold call_monitorId at 1. rewrite bind_eq. unfold get at 1, ret at 1.
  destruct (initialized_frame s) as (Hlk & Hmons & _). rewrite Hmons.
  destruct (monitorId (monitors s p)) as [i|] eqn:Ei; [|done].
  rewrite bind_eq. unfold os_unfair_lock_lock at 1. rewrite Hlk, Hfree.
  rewrite bind_eq. unfold get at 1. rewrite bind_eq, hasMonitorWithId_spec.
  cbn [monitors g_monitors set_g_monitorsLock].
  unfold registered_ids in Hdup.
  rewrite <- existsb_id_in, Hmons in Hdup. apply not_true_is_false in Hdup.
  rewrite Hmons, Hdup. reflexivity.
Qed.

Lemma kscm_addMonitor_sequence ps :
  forall s,
    g_monitorsLock s = false ->
    g_areMonitorsInitialized s = true ->
    NoDup (map (fun m => monitorId (monitors s m)) ps) ->
    (forall m, m ∈ ps -> monitorId (monitors s m) <> None) ->
    (forall m, m ∈ ps -> monitorId (monitors s m) ∉ registered_ids s) ->
    exists s',
      mapM kscm_addMonitor (map Some ps) s = Returned (map (fun _ => true) ps) s'
      /\ apis (g_monitors s') = apis (g_monitors s) ++ ps
      /\ calls s' = calls s ++ map CallInit ps
      /\ monitors s' = monitors s
      /\ g_monitorsLock s' = false.
Proof.
  induction ps as [|p ps IH]; intros s Hfree Hinit Hnodup Hids Hfresh.
  - exists s. cbn. by rewrite !app_nil_r.
  - apply NoDup_cons in Hnodup as [Hp Hnodup].
    assert (Hadd : kscm_addMonitor (Some p) s = Returned true (added p s)).
    { rewrite <- (initialized_id s Hinit) at 2. apply kscm_addMonitor_fresh; [done| |].
      - apply Hids. by left.
      - rewrite initialized_id by done. apply Hfresh. by left. }
    destruct (IH (added p s)) as (s' & Hrun & Hapis & Hcalls & Hmons & Hlk); try done.
    + intros m Hm. apply Hids. by right.
    + intros m Hm. unfold registered_ids. cbn. rewrite map_app. cbn.
      rewrite elem_of_app, list_elem_of_singleton. intros [Hin|Heq].
      * by apply (Hfresh m); [right|].
      * apply Hp. rewrite <- Heq. apply list_elem_of_fmap. by exists m.
    + exists s'. cbn [mapM map]. rewrite bind_eq, Hadd, bind_eq, Hrun.
      split; [done|]. rewrite Hapis, Hcalls, Hmons. cbn.
      by rewrite <- !app_assoc.
Qed.

Lemma kscm_addMonitor_sequence_empty s ps :
  g_monitorsLock s = false ->
  apis (g_monitors s) = [] ->
  NoDup (map (fun m => monitorId (monitors s m)) ps) ->
  (forall m, m ∈ ps -> monitorId (monitors s m) <> None) ->
  exists s',
    mapM kscm_addMonitor (map Some ps) s = Returned (map (fun _ => true) ps) s'
    /\ apis (g_monitors s') = ps
    /\ calls s' = calls s ++ map CallInit ps
    /\ monitors s' = monitors s
    /\ g_monitorsLock s' = false.
Proof.
  revert ps. intros [|p ps] Hfree Hempty Hnodup Hids.
  + exists s. cbn. by rewrite app_nil_r, Hempty.
  + destruct (initialized_frame s) as (Hlk & Hmons & Hcalls & Hinit & Hnil).
    apply NoDup_cons in Hnodup as [Hp Hnodup].
    assert (Hadd : kscm_addMonitor (Some p) s = Returned true (added p (initialized s))).
    { apply kscm_addMonitor_fresh; [done| |].
      - apply Hids. by left.
      - unfold registered_ids. rewrite Hnil by done. apply not_elem_of_nil. }
    destruct (kscm_addMonitor_sequence ps (added p (initialized s)))
      as (s' & Hrun & Hapis & Hcalls' & Hmons' & Hlk'); try done.
    * cbn. by rewrite Hmons.
    * cbn. rewrite Hmons. intros m Hm. apply Hids. by right.
    * cbn. rewrite Hmons. intros m Hm. unfold registered_ids. cbn.
      rewrite Hnil by done. cbn. rewrite list_elem_of_singleton. intros Heq.
      apply Hp. rewrite <- Heq. apply list_elem_of_fmap. by exists m.
    * exists s'. cbn [mapM map]. rewrite bind_eq, Hadd, bind_eq, Hrun.
      split; [done|]. rewrite Hapis, Hcalls', Hmons'. cbn. rewrite Hnil, Hcalls by done.
      cbn. by rewrite <- app_assoc.
Qed.

(** C7: from an empty registry, adding monitors whose ids are non-null
    and pairwise distinct succeeds every time, calls each [init] once, in
    order, and leaves as many monitors registered as there are ids.  An add
    with a NULL descriptor, a NULL id or an id already registered returns
    false, calls nothing and leaves the globals as the [init()] at its
    start leaves them: unchanged once the registry is initialised; in a
    process where it is not, the initialised flag is set and an empty
    storage of [INITIAL_MONITOR_CAPACITY] slots is allocated, and nothing
    else changes.  A successful add appends the monitor and calls its
    [init] exactly once. *)
Theorem kscm_addMonitor_distinct_ids_and_rejections :
  (forall s ps,
     g_monitorsLock s = false ->
     apis (g_monitors s) = [] ->
     NoDup (map (fun m => monitorId (monitors s m)) ps) ->
     (forall m, m ∈ ps -> monitorId (monitors s m) <> None) ->
     exists s',
       mapM kscm_addMonitor (map Some ps) s = Returned (map (fun _ => true) ps) s'
       /\ apis (g_monitors s') = ps
       /\ length (apis (g_monitors s')) = length (map (fun m => monitorId (monitors s m)) ps)
       /\ calls s' = calls s ++ map CallInit ps)
  /\ (forall s, kscm_addMonitor None s = Returned false (initialized s))
  /\ (forall s p,
        monitorId (monitors s p) = None ->
        kscm_addMonitor (Some p) s = Returned false (initialized s))
  /\ (forall s p,
        g_monitorsLock s = false ->
        monitorId (monitors s p) <> None ->
        monitorId (monitors s p) ∈ registered_ids (initialized s) ->
        kscm_addMonitor (Some p) s = Returned false (initialized s))
  /\ (forall s,
        (g_areMonitorsInitialized s = true -> initialized s = s)
        /\ (g_areMonitorsInitialized s = false ->
            initialized s
            = set_g_monitors {| apis := []; capacity := INITIAL_MONITOR_CAPACITY |}
                (set_g_areMonitorsInitialized true s))
        /\ calls (initialized s) = calls s
        /\ monitors (initialized s) = monitors s
        /\ (apis (g_monitors s) = [] -> apis (g_monitors (initialized s)) = []))
  /\ (forall s p,
        g_monitorsLock s = false ->
        monitorId (monitors s p) <> None ->
        monitorId (monitors s p) ∉ registered_ids (initialized s) ->
        exists s',
          kscm_addMonitor (Some p) s = Returned true s'
          /\ apis (g_monitors s') = apis (g_monitors (initialized s)) ++ [p]
          /\ calls s' = calls s ++ [CallInit p]
          /\ monitors s' = monitors s).
Proof.
  split; [|split; [|split; [|split; [|split]]]].
  - intros s ps Hfree Hempty Hnodup Hids.
    destruct (kscm_addMonitor_sequence_empty s ps) as (s' & Hrun & Hapis & Hcalls & _); try done.
    exists s'. by rewrite Hapis, length_map.
  - apply kscm_addMonitor_null.
  - apply kscm_addMonitor_null_id.
  - apply kscm_addMonitor_duplicate.
  - intros s. destruct (initialized_frame s) as (Hlk & Hmons & Hcalls & Hinit & Hnil).
    split; [apply initialized_id|].
    split; [|done]. intros Hno. unfold initialized. by rewrite Hno.
  - intros s p Hfree Hid Hfresh. exists (added p (initialized s)).
    destruct (initialized_frame s) as (Hlk & Hmons & Hcalls & Hinit & Hnil).
    split; [by apply kscm_addMonitor_fresh|]. cbn. by rewrite Hcalls, Hmons.
Qed.

(** ** Removal *)

Lemma removeMonitor_loop_absent api n : forall i s,
  (forall j, i <= j -> apis (g_monitors s) !! j <> Some api) ->
  removeMonitor_loop api n i s = Returned false s.
Proof.
  induction n as [|n IH]; intros i s Habs; [done|].
  cbn [removeMonitor_loop]. rewrite bind_eq. unfold get at 1.
  destruct (apis (g_monitors s) !! i) as [m|] eqn:Hi; [|done].
  destruct (decide (m = api)) as [->|Hne].
  - by destruct (Habs i).
  - apply IH. intros j Hj. apply Habs. lia.
Qed.

Lemma removeMonitor_loop_found api n : forall i k s,
  apis (g_monitors s) !! k = Some api ->
  i <= k < i + n ->
  (forall j, i <= j < k -> apis (g_monitors s) !! j <> Some api) ->
  removeMonitor_loop api n i s =
  Returned true
    (set_g_monitors (replaceWithLast k (g_monitors s))
       (set_monitors (<[api := set_isEnabled false (monitors s api)]> (monitors s))
          (set_calls (calls s ++ [CallSetEnabled api false]) s))).
Proof.
  induction n as [|n IH]; intros i k s Hk Hrange Hfirst; [lia|].
  cbn [removeMonitor_loop]. rewrite bind_eq. unfold get at 1.
  destruct (decide (i = k)) as [->|Hik].
  - rewrite Hk. by rewrite decide_True.
  - destruct (apis (g_monitors s) !! i) as [m|] eqn:Hi.
    + rewrite decide_False.
      * apply IH; [done|lia|]. intros j Hj. apply Hfirst. lia.
      * intros ->. apply (Hfirst i); [lia|done].
    + apply lookup_ge_None in Hi. apply lookup_lt_Some in Hk. lia.
Qed.

Lemma kscm_removeMonitor_absent s q :
  g_monitorsLock s = false ->
  q ∉ apis (g_monitors s) ->
  kscm_removeMonitor (Some q) s = Returned tt s.
Proof.
  intros Hfree Hq. unfold kscm_removeMonitor.
  rewrite bind_eq. unfold os_unfair_lock_lock at 1. rewrite Hfree.
  rewrite bind_eq. unfold removeMonitor. rewrite bind_eq. unfold get at 1.
  rewrite bind_eq, removeMonitor_loop_absent.
  - unfold ret at 1, os_unfair_lock_unlock, modify. by rewrite unlock_lock_free.
  - intros j _ Hj. apply Hq. cbn in Hj. by apply list_elem_of_lookup_2 in Hj.
Qed.

Lemma kscm_removeMonitor_found s m k :
  g_monitorsLock s = false ->
  apis (g_monitors s) !! k = Some m ->
  (forall j, j < k -> apis (g_monitors s) !! j <> Some m) ->
  kscm_removeMonitor (Some m) s = Returned tt (removed k m s).
Proof.
  intros Hfree Hk Hfirst. unfold kscm_removeMonitor.
  rewrite bind_eq. unfold os_unfair_lock_lock at 1. rewrite Hfree.
  rewrite bind_eq. unfold removeMonitor. rewrite bind_eq. unfold get at 1.
  rewrite bind_eq, (removeMonitor_loop_found m _ 0 k); [done|done| |].
  - apply lookup_lt_Some in Hk. cbn. cbn in Hk. lia.
  - intros j Hj. apply Hfirst. lia.
Qed.

Lemma removed_spec s m k :
  apis (g_monitors s) !! k = Some m ->
  exists last,
    apis (g_monitors s) !! (length (apis (g_monitors s)) - 1) = Some last
    /\ apis (g_monitors (removed k m s)) =
         take (length (apis (g_monitors s)) - 1) (<[k := last]> (apis (g_monitors s)))
    /\ length (apis (g_monitors (removed k m s))) = length (apis (g_monitors s)) - 1
    /\ isEnabled (monitors (removed k m s) m) = false
    /\ calls (removed k m s) = calls s ++ [CallSetEnabled m false]
    /\ (forall a, a <> m -> monitors (removed k m s) a = monitors s a).
Proof.
  intros Hk. pose proof (lookup_lt_Some _ _ _ Hk) as Hlt.
  destruct (lookup_lt_is_Some_2 (apis (g_monitors s)) (length (apis (g_monitors s)) - 1))
    as [last Hlast]; [lia|].
  exists last. split; [done|]. unfold removed, replaceWithLast. cbn. rewrite Hlast. cbn.
  split; [done|]. split; [rewrite length_take, length_insert; lia|].
  split; [by rewrite fn_lookup_insert|]. split; [done|].
  intros a Ha. by rewrite fn_lookup_insert_ne.
Qed.

(** C9: with A, B and C registered in this order on an empty registry,
    removing B leaves exactly A and C registered and B not enabled, after
    one [setEnabled(false)] on B.  In general the removal of a registered
    monitor found in slot [k] calls its [setEnabled(false)], writes the last
    monitor into slot [k] and drops the last slot; removing a monitor that
    is not registered, or NULL, changes nothing. *)
Theorem kscm_removeMonitor_swaps_with_last :
  (forall s a b c,
     g_monitorsLock s = false ->
     apis (g_monitors s) = [] ->
     monitorId (monitors s a) = Some "A"%string ->
     monitorId (monitors s b) = Some "B"%string ->
     monitorId (monitors s c) = Some "C"%string ->
     exists s',
       (mapM kscm_addMonitor [Some a; Some b; Some c] ;; kscm_removeMonitor (Some b)) s
         = Returned tt s'
       /\ apis (g_monitors s') = [a; c]
       /\ isEnabled (monitors s' b) = false
       /\ calls s' = calls s ++ [CallInit a; CallInit b; CallInit c; CallSetEnabled b false])
  /\ (forall s m k,
        g_monitorsLock s = false ->
        apis (g_monitors s) !! k = Some m ->
        (forall j, j < k -> apis (g_monitors s) !! j <> Some m) ->
        exists last s',
          kscm_removeMonitor (Some m) s = Returned tt s'
          /\ apis (g_monitors s) !! (length (apis (g_monitors s)) - 1) = Some last
          /\ apis (g_monitors s') =
               take (length (apis (g_monitors s)) - 1) (<[k := last]> (apis (g_monitors s)))
          /\ isEnabled (monitors s' m) = false
          /\ calls s' = calls s ++ [CallSetEnabled m false]
          /\ (forall a, a <> m -> monitors s' a = monitors s a))
  /\ (forall s q,
        g_monitorsLock s = false ->
        q ∉ apis (g_monitors s) ->
        kscm_removeMonitor (Some q) s = Returned tt s)
  /\ (forall s, kscm_removeMonitor None s = Returned tt s).
Proof.
  split; [|split; [|split]].
  - intros s a b c Hfree Hempty Ha Hb Hc.
    destruct (kscm_addMonitor_sequence_empty s [a; b; c])
      as (s1 & Hrun & Hapis & Hcalls & Hmons & Hlk); [done|done| | |].
    { cbn. rewrite Ha, Hb, Hc. compute_done. }
    { intros m Hm. apply elem_of_cons in Hm as [->|Hm]; [congruence|].
      apply elem_of_cons in Hm as [->|Hm]; [congruence|].
      apply list_elem_of_singleton in Hm as ->. congruence. }
    assert (Hab : a <> b) by (intros ->; congruence).
    exists (removed 1 b s1). rewrite bind_eq. cbn [map] in Hrun. rewrite Hrun.
    split.
    { apply kscm_removeMonitor_found; [done|by rewrite Hapis|].
      intros j Hj. assert (j = 0) as -> by lia. rewrite Hapis. cbn. congruence. }
    unfold removed, replaceWithLast. cbn. rewrite Hapis, Hcalls. cbn.
    split; [done|]. split; [by rewrite fn_lookup_insert|]. by rewrite <- app_assoc.
  - intros s m k Hfree Hk Hfirst.
    destruct (removed_spec s m k Hk) as (last & Hlast & Hapis & _ & Hen & Hcalls & Hothers).
    exists last, (removed k m s). split; [by apply kscm_removeMonitor_found|done].
  - apply kscm_removeMonitor_absent.
  - done.
Qed.

(** C10: [kscm_removeMonitor] compares pointers.  A descriptor that is not
    one of the registered objects is not removed, whatever its [id()]
    answers, so also when a registered monitor has the same id: the call
    returns with the globals and every monitor object as they were, and no
    call left the core, so no [setEnabled(false)] was made. *)
Theorem kscm_removeMonitor_compares_pointers :
  forall s q,
    g_monitorsLock s = false ->
    (q ∉ apis (g_monitors s) -> kscm_removeMonitor (Some q) s = Returned tt s)
    /\ (forall s',
          kscm_removeMonitor (Some q) s = Returned tt s' ->
          s' <> s -> q ∈ apis (g_monitors s)).
Proof.
  intros s q Hfree. split; [by apply kscm_removeMonitor_absent|].
  intros s' Hrun Hchanged.
  destruct (decide (q ∈ apis (g_monitors s))) as [Hin|Hout]; [done|].
  rewrite kscm_removeMonitor_absent in Hrun by done. by injection Hrun as <-.
Qed.

(** ** Activation *)

Lemma snapshot_loop (haveSnapshot : bool) l : forall acc any s,
  foldM l (acc, any) (fun '(enabledMonitors, anyMonitorActive) api =>
    en <- call_isEnabled api ;;
    if en then
      ret (if haveSnapshot then enabledMonitors ++ [api] else enabledMonitors, true)
    else ret (enabledMonitors, anyMonitorActive)) s =
  Returned
    (acc ++ (if haveSnapshot then List.filter (fun m => isEnabled (monitors s m)) l else []),
     any || existsb (fun m => isEnabled (monitors s m)) l) s.
Proof.
  induction l as [|m l IH]; intros acc any s.
  - cbn. unfold ret. rewrite orb_false_r. by destruct haveSnapshot; rewrite app_nil_r.
  - cbn [foldM List.filter existsb]. rewrite bind_eq. rewrite bind_eq.
    unfold call_isEnabled at 1. rewrite bind_eq. unfold get at 1, ret at 1.
    destruct (isEnabled (monitors s m)) eqn:Hen.
    + unfold ret at 1. rewrite IH. rewrite orb_true_r. cbn.
      by destruct haveSnapshot; rewrite <- ?app_assoc.
    + unfold ret at 1. by rewrite IH.
Qed.

Lemma notifyPostSystemEnable_loop l : forall s,
  forM_ l call_notifyPostSystemEnable s =
  Returned tt (set_calls (calls s ++ map CallNotifyPostSystemEnable l) s).
Proof.
  induction l as [|m l IH]; intros s.
  - cbn. unfold ret, set_calls. rewrite app_nil_r. by destruct s.
  - cbn [forM_]. rewrite bind_eq. unfold call_notifyPostSystemEnable at 1, log, modify.
    rewrite IH. unfold set_calls. cbn. by rewrite <- app_assoc.
Qed.

Lemma kscm_activateMonitors_returns isBeingTraced mallocOk s :
  g_monitorsLock s = false ->
  let f := shouldEnable KSCrashMonitorFlagAsyncSafe KSCrashMonitorFlagDebuggerUnsafe
             isBeingTraced (asyncSafety (g_currentPolicy s)) in
  let l := apis (g_monitors (initialized s)) in
  exists s',
    kscm_activateMonitors ksid_nth KSCrashMonitorFlagAsyncSafe
      KSCrashMonitorFlagDebuggerUnsafe isBeingTraced mallocOk s =
    Returned (existsb (fun m => isEnabled (setEnabledAll f l (monitors s) m)) l) s'
    /\ apis (g_monitors s') = l
    /\ monitors s' = setEnabledAll f l (monitors s)
    /\ g_currentPolicy s' = g_currentPolicy s
    /\ g_monitorsLock s' = false
    /\ g_eventIdIdx s' = 0.
Proof.
  intros Hfree f l. unfold kscm_activateMonitors.
  destruct (initialized_frame s) as (Hlk & Hmons & Hcalls & Hinit & Hnil).
  assert (Hpol : g_currentPolicy (initialized s) = g_currentPolicy s).
  { unfold initialized. by destruct (g_areMonitorsInitialized s). }
  rewrite bind_eq, init_initialized. rewrite bind_eq. unfold get at 1.
  rewrite bind_eq, regenerateEventIds_regenerated.
  rewrite bind_eq. unfold os_unfair_lock_lock at 1.
  cbn [g_monitorsLock regenerated set_g_eventIdIdx set_g_eventIds set_ksid_calls].
  rewrite Hlk, Hfree.
  rewrite bind_eq, regenerateEventIds_regenerated.
  rewrite bind_eq. unfold get at 1. rewrite bind_eq.
  rewrite (setEnabled_loop _ f).
  2:{ intros api t. rewrite bind_eq. unfold call_monitorFlags at 1.
      rewrite bind_eq. unfold get at 1, ret at 1. subst f. by rewrite Hpol. }
  rewrite bind_eq. unfold get at 1. rewrite bind_eq, snapshot_loop.
  rewrite bind_eq. unfold os_unfair_lock_unlock at 1, modify at 1.
  rewrite bind_eq, notifyPostSystemEnable_loop. unfold ret.
  eexists. split.
  - cbn. rewrite Hmons. reflexivity.
  - cbn. by rewrite Hpol.
Qed.

(** C6: with the registry lock free, [kscm_activateMonitors] returns, and
    among the registered monitors: none flagged DebuggerUnsafe is enabled
    when the debugger probe is true; none lacking AsyncSafe is enabled when
    the policy requires async-safety; every other one is enabled; and the
    result is true exactly when some registered monitor is enabled. *)
Theorem kscm_activateMonitors_masks_unsafe_monitors :
  forall isBeingTraced mallocOk s,
    g_monitorsLock s = false ->
    exists anyMonitorActive s',
      kscm_activateMonitors ksid_nth KSCrashMonitorFlagAsyncSafe
        KSCrashMonitorFlagDebuggerUnsafe isBeingTraced mallocOk s =
      Returned anyMonitorActive s'
      /\ apis (g_monitors s') = apis (g_monitors (initialized s))
      /\ (forall m,
            m ∈ apis (g_monitors s') ->
            let flags := monitorFlags (monitors s' m) in
            let debuggerUnsafe :=
              isBeingTraced && has_flag flags KSCrashMonitorFlagDebuggerUnsafe in
            let asyncUnsafe :=
              asyncSafety (g_currentPolicy s')
              && negb (has_flag flags KSCrashMonitorFlagAsyncSafe) in
            (debuggerUnsafe = true -> isEnabled (monitors s' m) = false)
            /\ (asyncUnsafe = true -> isEnabled (monitors s' m) = false)
            /\ (debuggerUnsafe = false -> asyncUnsafe = false ->
                isEnabled (monitors s' m) = true))
      /\ (anyMonitorActive = true <->
          exists m, m ∈ apis (g_monitors s') /\ isEnabled (monitors s' m) = true).
Proof.
  intros isBeingTraced mallocOk s Hfree.
  destruct (kscm_activateMonitors_returns isBeingTraced mallocOk s Hfree)
    as (s' & Hrun & Hapis & Hmons & Hpol & _).
  eexists _, s'. split; [exact Hrun|]. split; [done|]. split.
  - intros m Hm. rewrite Hapis in Hm. rewrite Hmons, Hpol.
    rewrite setEnabledAll_monitorFlags, setEnabledAll_isEnabled_in by done.
    unfold shouldEnable. cbn zeta.
    destruct (isBeingTraced && _), (asyncSafety (g_currentPolicy s) && _); done.
  - rewrite existsb_exists, Hapis, Hmons. split.
    + intros (m & Hin & Hen). exists m. by rewrite list_elem_of_In.
    + intros (m & Hin & Hen). exists m. by rewrite <- list_elem_of_In.
Qed.

End Properties.

(** * The theorems at the example data *)

Lemma example_ksid_nth_inj i j : example_ksid_nth i = example_ksid_nth j -> i = j.
Proof. unfold example_ksid_nth. cbn. intros [= H]. by apply (inj pretty). Qed.

(** The lock is held, the policy is fatal and requires async-safety:
    [handleException] returns with [handlingCrash] and
    [requiresAsyncSafety] of the context changed. *)
Lemma handleException_lock_held_mutates_context :
  g_monitorsLock example_held = true
  /\ handleException example_ksid_nth example_context example_held
     = Returned (set_requiresAsyncSafety true (set_handlingCrash true example_context))
         example_held
  /\ set_requiresAsyncSafety true (set_handlingCrash true example_context)
     <> example_context.
Proof. split; [reflexivity|]. split; [reflexivity|discriminate]. Qed.

Lemma handleException_lock_held_stamps_only_witness :
  handleException example_ksid_nth example_context example_held
  = Returned (stamped example_held example_context) example_held
  /\ eventID (stamped example_held example_context) = eventID example_context
  /\ contextualInfo (stamped example_held example_context) = contextualInfo example_context
  /\ handlingCrash (stamped example_held example_context)
     = handlingCrash example_context || isFatal (g_currentPolicy example_held)
  /\ requiresAsyncSafety (stamped example_held example_context)
     = asyncSafety (g_currentPolicy example_held)
  /\ crashedDuringCrashHandling (stamped example_held example_context)
     = crashedDuringCrashHandling example_context
       || g_crashedDuringExceptionHandling example_held.
Proof.
  apply (handleException_lock_held_stamps_only example_ksid_nth example_context example_held).
  reflexivity.
Defined.


(** C5 as stated fails: one fatal notification in a reset state leaves the
    crashed flag clear, the same notification made twice sets it. *)
Lemma notifyException_repeat_not_idempotent :
  policy_state
    (final ((notifyException {| isFatal := true; asyncSafety := false |} ;;
             notifyException {| isFatal := true; asyncSafety := false |}) example_registered))
  <> policy_state
       (final (notifyException {| isFatal := true; asyncSafety := false |} example_registered)).
Proof. vm_compute. discriminate. Qed.

Lemma handleException_exhausted_pool_leaves_lock_held_witness :
  let later := [example_context; set_eventID "x"%string example_context] in
  let s' := set_g_monitorsLock true example_exhausted in
  handleException example_ksid_nth example_context example_exhausted
  = Returned (stamped example_exhausted example_context) s'
  /\ g_monitorsLock s' = true
  /\ calls s' = calls example_exhausted
  /\ mapM (handleException example_ksid_nth) later s' = Returned (map (stamped s') later) s'
  /\ (forall c, eventID (stamped s' c) = eventID c
                /\ contextualInfo (stamped s' c) = contextualInfo c).
Proof.
  intros later.
  apply (handleException_exhausted_pool_leaves_lock_held example_ksid_nth
           example_context example_exhausted later).
  - reflexivity.
  - reflexivity.
  - unfold g_eventIdCount. cbn. lia.
Defined.

Lemma regenerated_pool_serves_exactly_two_witness :
  exists s0 s1 s2 c1' c2',
    regenerateEventIds example_ksid_nth example_async = Returned tt s0
    /\ g_eventIds s0 0 = example_ksid_nth (ksid_calls example_async)
    /\ g_eventIds s0 1 = example_ksid_nth (S (ksid_calls example_async))
    /\ g_eventIdIdx s0 = 0
    /\ handleException example_ksid_nth example_context s0 = Returned c1' s1
    /\ handleException example_ksid_nth example_context s1 = Returned c2' s2
    /\ eventID c1' = g_eventIds s0 0
    /\ eventID c2' = g_eventIds s0 1
    /\ eventID c1' <> eventID c2'
    /\ handlingCrash c1' = false /\ handlingCrash c2' = false
    /\ g_eventIdIdx s2 = g_eventIdCount
    /\ handleException example_ksid_nth example_context s2
       = Returned (stamped s2 example_context) (set_g_monitorsLock true s2)
    /\ eventID (stamped s2 example_context) = eventID example_context.
Proof.
  apply (regenerated_pool_serves_exactly_two example_ksid_nth example_async
           example_context example_context example_context).
  - exact example_ksid_nth_inj.
  - reflexivity.
  - reflexivity.
Defined.

Lemma kscm_activateMonitors_masks_unsafe_monitors_witness :
  exists anyMonitorActive s',
    kscm_activateMonitors example_ksid_nth 1 2 true true example_registered =
    Returned anyMonitorActive s'
    /\ apis (g_monitors s') = apis (g_monitors (initialized example_registered))
    /\ (forall m,
          m ∈ apis (g_monitors s') ->
          let flags := monitorFlags (monitors s' m) in
          let debuggerUnsafe := true && has_flag flags 2 in
          let asyncUnsafe :=
            asyncSafety (g_currentPolicy s') && negb (has_flag flags 1) in
          (debuggerUnsafe = true -> isEnabled (monitors s' m) = false)
          /\ (asyncUnsafe = true -> isEnabled (monitors s' m) = false)
          /\ (debuggerUnsafe = false -> asyncUnsafe = false ->
              isEnabled (monitors s' m) = true))
    /\ (anyMonitorActive = true <->
        exists m, m ∈ apis (g_monitors s') /\ isEnabled (monitors s' m) = true).
Proof.
  apply (kscm_activateMonitors_masks_unsafe_monitors example_ksid_nth 1 2 true true
           example_registered).
  reflexivity.
Defined.

(** C7 as stated fails: in a fresh process an add with a NULL descriptor,
    and an add of a monitor with a NULL id, return false and have changed
    the globals, because [init()] ran first: the initialised flag went from
    false to true and the storage from no slots to
    [INITIAL_MONITOR_CAPACITY]. *)
Lemma kscm_addMonitor_rejected_add_initializes :
  g_areMonitorsInitialized example_fresh = false
  /\ capacity (g_monitors example_fresh) = 0
  /\ monitorId (monitors example_fresh 7) = None
  /\ (exists s',
        kscm_addMonitor None example_fresh = Returned false s'
        /\ g_areMonitorsInitialized s' = true
        /\ capacity (g_monitors s') = 15
        /\ s' <> example_fresh)
  /\ (exists s',
        kscm_addMonitor (Some 7) example_fresh = Returned false s'
        /\ g_areMonitorsInitialized s' = true
        /\ capacity (g_monitors s') = 15
        /\ s' <> example_fresh).
Proof.
  split; [reflexivity|]. split; [reflexivity|]. split; [reflexivity|].
  split; eexists; (split; [reflexivity|]);
    (split; [reflexivity|]); (split; [reflexivity|discriminate]).
Qed.

Lemma kscm_addMonitor_distinct_ids_and_rejections_witness :
  (exists s',
     mapM kscm_addMonitor (map Some [1; 2; 3]) example_fresh
     = Returned (map (fun _ => true) [1; 2; 3]) s'
     /\ apis (g_monitors s') = [1; 2; 3]
     /\ length (apis (g_monitors s'))
        = length (map (fun m => monitorId (monitors example_fresh m)) [1; 2; 3])
     /\ calls s' = calls example_fresh ++ map CallInit [1; 2; 3])
  /\ kscm_addMonitor None example_registered = Returned false (initialized example_registered)
  /\ kscm_addMonitor (Some 7) example_registered
     = Returned false (initialized example_registered)
  /\ kscm_addMonitor (Some 4) example_registered
     = Returned false (initialized example_registered)
  /\ initialized example_registered = example_registered
  /\ kscm_addMonitor (Some 7) example_fresh = Returned false (initialized example_fresh)
  /\ initialized example_fresh
     = set_g_monitors {| apis := []; capacity := INITIAL_MONITOR_CAPACITY |}
         (set_g_areMonitorsInitialized true example_fresh)
  /\ (exists s',
        kscm_addMonitor (Some 1) example_fresh = Returned true s'
        /\ apis (g_monitors s') = apis (g_monitors (initialized example_fresh)) ++ [1]
        /\ calls s' = calls example_fresh ++ [CallInit 1]
        /\ monitors s' = monitors example_fresh).
Proof.
  destruct kscm_addMonitor_distinct_ids_and_rejections
    as (Hseq & Hnull & Hnullid & Hdup & Hinit & Hfresh).
  split.
  { apply Hseq; [reflexivity|reflexivity|compute_done|].
    intros m Hm. apply list_elem_of_In in Hm. cbn in Hm.
    destruct Hm as [<-|[<-|[<-|[]]]]; discriminate. }
  split; [apply Hnull|].
  split; [apply Hnullid; reflexivity|].
  split; [apply Hdup; [reflexivity|discriminate|compute_done]|].
  split; [apply Hinit; reflexivity|].
  split; [apply Hnullid; reflexivity|].
  split; [apply Hinit; reflexivity|].
  apply Hfresh; [reflexivity|discriminate|compute_done].
Defined.

Lemma kscm_removeMonitor_swaps_with_last_witness :
  (exists s',
     (mapM kscm_addMonitor [Some 1; Some 2; Some 3] ;; kscm_removeMonitor (Some 2))
       example_fresh = Returned tt s'
     /\ apis (g_monitors s') = [1; 3]
     /\ isEnabled (monitors s' 2) = false
     /\ calls s' = calls example_fresh
                   ++ [CallInit 1; CallInit 2; CallInit 3; CallSetEnabled 2 false])
  /\ (exists last s',
        kscm_removeMonitor (Some 1) example_registered = Returned tt s'
        /\ apis (g_monitors example_registered)
             !! (length (apis (g_monitors example_registered)) - 1) = Some last
        /\ apis (g_monitors s') =
             take (length (apis (g_monitors example_registered)) - 1)
               (<[0 := last]> (apis (g_monitors example_registered)))
        /\ isEnabled (monitors s' 1) = false
        /\ calls s' = calls example_registered ++ [CallSetEnabled 1 false]
        /\ (forall a, a <> 1 -> monitors s' a = monitors example_registered a))
  /\ kscm_removeMonitor (Some 4) example_registered = Returned tt example_registered
  /\ kscm_removeMonitor None example_registered = Returned tt example_registered.
Proof.
  destruct kscm_removeMonitor_swaps_with_last as (Hscenario & Hswap & Habsent & Hnull).
  split; [apply Hscenario; reflexivity|].
  split; [apply Hswap; [reflexivity|reflexivity|intros j Hj; lia]|].
  split; [apply Habsent; [reflexivity|compute_done]|].
  apply Hnull.
Defined.

(** Object 4 answers "B" like the registered object 2, and is not removed. *)
Lemma kscm_removeMonitor_compares_pointers_witness :
  monitorId (monitors example_registered 4) = monitorId (monitors example_registered 2)
  /\ 2 ∈ apis (g_monitors example_registered)
  /\ kscm_removeMonitor (Some 4) example_registered = Returned tt example_registered.
Proof.
  split; [reflexivity|]. split; [compute_done|].
  apply (kscm_removeMonitor_compares_pointers example_registered 4); [reflexivity|].
  compute_done.
Defined.

(** * More of the code: the remaining paths and the invariants *)

Section MoreProperties.

Variable ksid_nth : nat -> EventID.
Variable KSCrashMonitorFlagAsyncSafe : N.
Variable KSCrashMonitorFlagDebuggerUnsafe : N.

(** ** [handleException], every path *)

Lemma handleException_on_demand context s :
  g_monitorsLock s = false ->
  asyncSafety (g_currentPolicy s) = false ->
  let s1 := set_ksid_calls (S (ksid_calls s)) (set_g_monitorsLock true s) in
  let c1 := set_eventID (ksid_nth (ksid_calls s)) (stamped s context) in
  handleException ksid_nth context s =
  Returned (set_handlingCrash false (completed_context s1 c1)) (completed_state s1 c1).
Proof.
  intros Hfree Hasync s1 c1.
  unfold handleException. rewrite bind_eq. unfold get at 1.
  rewrite bind_eq. unfold os_unfair_lock_trylock at 1. rewrite Hfree. cbn [negb].
  rewrite bind_eq. unfold get at 1. rewrite bind_eq.
  cbn [g_currentPolicy set_g_monitorsLock]. rewrite Hasync. cbn [negb].
  rewrite bind_eq. unfold ksid_generate at 1. rewrite bind_eq. unfold get at 1.
  rewrite bind_eq. unfold modify at 1. unfold ret at 1. unfold ret at 1.
  rewrite bind_eq. unfold get at 1. rewrite bind_eq.
  rewrite annotate_loop.
  rewrite bind_eq. unfold os_unfair_lock_unlock at 1, modify at 1.
  rewrite bind_eq. unfold get at 1. rewrite bind_eq.
  cbn [g_onExceptionEvent set_g_monitorsLock set_calls set_ksid_calls ksid_calls].
  subst s1 c1. unfold completed_state, completed_context, enabledMonitors, stamped.
  cbn [g_onExceptionEvent set_g_monitorsLock set_calls set_ksid_calls].
  rewrite Hasync.
  destruct (g_onExceptionEvent s) as [f|].
  - unfold call_onExceptionEvent, log, modify at 1.
    rewrite bind_eq. unfold get at 1. rewrite bind_eq.
    match goal with |- context [if ?b then kscm_disableAllMonitors else _] =>
      destruct b end.
    + by rewrite kscm_disableAllMonitors_free.
    + reflexivity.
  - unfold ret at 1.
    rewrite bind_eq. unfold get at 1. rewrite bind_eq.
    match goal with |- context [if ?b then kscm_disableAllMonitors else _] =>
      destruct b end.
    + by rewrite kscm_disableAllMonitors_free.
    + reflexivity.
Qed.

Lemma handleException_handled context s :
  handleException ksid_nth context s =
  Returned (handled_context ksid_nth s context) (handled_state ksid_nth s context).
Proof.
  unfold handled_context, handled_state, handled_resolution.
  destruct (g_monitorsLock s) eqn:Hlock.
  - by apply handleException_held.
  - destruct (asyncSafety (g_currentPolicy s)) eqn:Hasync; cbn [negb].
    + destruct (g_eventIdCount <=? g_eventIdIdx s) eqn:Hidx.
      * apply handleException_exhausted; [done|done|by apply Nat.leb_le].
      * apply handleException_pool; [done|done|by apply Nat.leb_gt].
    + by apply handleException_on_demand.
Qed.

(** ** The other calls, on a free and on a held lock *)

Lemma kscm_setEventCallback_set onEvent s :
  kscm_setEventCallback onEvent s =
  Returned tt (set_g_onExceptionEvent onEvent (initialized s)).
Proof. unfold kscm_setEventCallback. by rewrite bind_eq, init_initialized. Qed.

Lemma kscm_regenerateEventIDs_free s :
  g_monitorsLock s = false ->
  kscm_regenerateEventIDs ksid_nth s = Returned tt (regenerated ksid_nth s).
Proof.
  intros Hfree. unfold kscm_regenerateEventIDs.
  rewrite bind_eq. unfold os_unfair_lock_lock at 1. rewrite Hfree.
  rewrite bind_eq, regenerateEventIds_regenerated.
  unfold os_unfair_lock_unlock, modify. f_equal.
  destruct s. cbn in *. by subst.
Qed.

Lemma kscm_regenerateEventIDs_held s :
  g_monitorsLock s = true -> kscm_regenerateEventIDs ksid_nth s = Blocked s.
Proof.
  intros Hheld. unfold kscm_regenerateEventIDs.
  rewrite bind_eq. unfold os_unfair_lock_lock at 1. by rewrite Hheld.
Qed.

Lemma kscm_resetState_free s :
  g_monitorsLock s = false ->
  kscm_resetState ksid_nth s = Returned tt (reset_state ksid_nth s).
Proof.
  intros Hfree. unfold kscm_resetState.
  rewrite bind_eq. unfold os_unfair_lock_lock at 1. by rewrite Hfree.
Qed.

Lemma kscm_resetState_held s :
  g_monitorsLock s = true -> kscm_resetState ksid_nth s = Blocked s.
Proof.
  intros Hheld. unfold kscm_resetState.
  rewrite bind_eq. unfold os_unfair_lock_lock at 1. by rewrite Hheld.
Qed.

Lemma kscm_activateMonitors_free isBeingTraced mallocOk s :
  g_monitorsLock s = false ->
  let f := shouldEnable KSCrashMonitorFlagAsyncSafe KSCrashMonitorFlagDebuggerUnsafe
             isBeingTraced (asyncSafety (g_currentPolicy s)) in
  let l := apis (g_monitors (initialized s)) in
  kscm_activateMonitors ksid_nth KSCrashMonitorFlagAsyncSafe
    KSCrashMonitorFlagDebuggerUnsafe isBeingTraced mallocOk s =
  Returned (existsb (fun m => isEnabled (setEnabledAll f l (monitors s) m)) l)
    (activated ksid_nth KSCrashMonitorFlagAsyncSafe KSCrashMonitorFlagDebuggerUnsafe
       isBeingTraced mallocOk s).
Proof.
  intros Hfree f l. unfold kscm_activateMonitors.
  destruct (initialized_frame s) as (Hlk & Hmons & Hcalls & Hinit & Hnil).
  assert (Hpol : g_currentPolicy (initialized s) = g_currentPolicy s).
  { unfold initialized. by destruct (g_areMonitorsInitialized s). }
  rewrite bind_eq, init_initialized. rewrite bind_eq. unfold get at 1.
  rewrite bind_eq, regenerateEventIds_regenerated.
  rewrite bind_eq. unfold os_unfair_lock_lock at 1.
  cbn [g_monitorsLock regenerated set_g_eventIdIdx set_g_eventIds set_ksid_calls].
  rewrite Hlk, Hfree.
  rewrite bind_eq, regenerateEventIds_regenerated.
  rewrite bind_eq. unfold get at 1. rewrite bind_eq.
  rewrite (setEnabled_loop _ f).
  2:{ intros api t. rewrite bind_eq. unfold call_monitorFlags at 1.
      rewrite bind_eq. unfold get at 1, ret at 1. subst f. by rewrite Hpol. }
  rewrite bind_eq. unfold get at 1. rewrite bind_eq, snapshot_loop.
  rewrite bind_eq. unfold os_unfair_lock_unlock at 1, modify at 1.
  rewrite bind_eq, notifyPostSystemEnable_loop. unfold ret.
  subst f l. unfold activated. cbn. by rewrite Hmons.
Qed.

Lemma kscm_activateMonitors_held isBeingTraced mallocOk s :
  g_monitorsLock s = true ->
  kscm_activateMonitors ksid_nth KSCrashMonitorFlagAsyncSafe
    KSCrashMonitorFlagDebuggerUnsafe isBeingTraced mallocOk s =
  Blocked (regenerated ksid_nth (initialized s)).
Proof.
  intros Hheld. unfold kscm_activateMonitors.
  destruct (initialized_frame s) as (Hlk & _).
  rewrite bind_eq, init_initialized. rewrite bind_eq. unfold get at 1.
  rewrite bind_eq, regenerateEventIds_regenerated.
  rewrite bind_eq. unfold os_unfair_lock_lock at 1.
  cbn [g_monitorsLock regenerated set_g_eventIdIdx set_g_eventIds set_ksid_calls].
  by rewrite Hlk, Hheld.
Qed.

Lemma kscm_addMonitor_held s p :
  g_monitorsLock s = true ->
  monitorId (monitors s p) <> None ->
  kscm_addMonitor (Some p) s = Blocked (initialized s).
Proof.
  intros Hheld Hid. unfold kscm_addMonitor. rewrite bind_eq, init_initialized.
  rewrite bind_eq. unfold call_monitorId at 1. rewrite bind_eq. unfold get at 1, ret at 1.
  destruct (initialized_frame s) as (Hlk & Hmons & _). rewrite Hmons.
  destruct (monitorId (monitors s p)) as [i|] eqn:Ei; [|done].
  rewrite bind_eq. unfold os_unfair_lock_lock at 1. by rewrite Hlk, Hheld.
Qed.

Lemma kscm_removeMonitor_held s p :
  g_monitorsLock s = true -> kscm_removeMonitor (Some p) s = Blocked s.
Proof.
  intros Hheld. unfold kscm_removeMonitor.
  rewrite bind_eq. unfold os_unfair_lock_lock at 1. by rewrite Hheld.
Qed.

Lemma first_index (l : list addr) m :
  m ∈ l -> exists k, l !! k = Some m /\ forall j, j < k -> l !! j <> Some m.
Proof.
  intros (l1 & l2 & -> & Hl1)%list_elem_of_split_l.
  exists (length l1). split.
  - by rewrite lookup_app_r, Nat.sub_diag by lia.
  - intros j Hj Hlook. rewrite lookup_app_l in Hlook by done.
    apply Hl1. by apply list_elem_of_lookup_2 in Hlook.
Qed.

Lemma completed_context_fields s context :
  eventID (completed_context s context) = eventID context
  /\ handlingCrash (completed_context s context) = handlingCrash context
  /\ requiresAsyncSafety (completed_context s context) = requiresAsyncSafety context
  /\ crashedDuringCrashHandling (completed_context s context)
     = crashedDuringCrashHandling context
  /\ contextualInfo (completed_context s context)
     = contextualInfo context ++ enabledMonitors s.
Proof.
  unfold completed_context. generalize (enabledMonitors s) as l. intros l. revert context.
  induction l as [|m l IH]; intros context.
  - cbn. by rewrite app_nil_r.
  - cbn [foldl]. destruct (IH (add_contextualInfo m context)) as (-> & -> & -> & -> & ->).
    cbn. by rewrite <- app_assoc.
Qed.

Lemma stamped_fields s context :
  eventID (stamped s context) = eventID context
  /\ contextualInfo (stamped s context) = contextualInfo context
  /\ handlingCrash (stamped s context)
     = handlingCrash context || isFatal (g_currentPolicy s)
  /\ requiresAsyncSafety (stamped s context) = asyncSafety (g_currentPolicy s)
  /\ crashedDuringCrashHandling (stamped s context)
     = crashedDuringCrashHandling context || g_crashedDuringExceptionHandling s.
Proof.
  unfold stamped. destruct (g_crashedDuringExceptionHandling s); cbn;
    rewrite ?orb_true_r, ?orb_false_r; done.
Qed.

Lemma completed_state_frame s context :
  g_monitorsLock (completed_state s context) = false
  /\ g_monitors (completed_state s context) = g_monitors s
  /\ g_areMonitorsInitialized (completed_state s context) = g_areMonitorsInitialized s
  /\ g_currentPolicy (completed_state s context) = g_currentPolicy s
  /\ g_crashedDuringExceptionHandling (completed_state s context)
     = g_crashedDuringExceptionHandling s
  /\ g_eventIds (completed_state s context) = g_eventIds s
  /\ g_eventIdIdx (completed_state s context) = g_eventIdIdx s
  /\ ksid_calls (completed_state s context) = ksid_calls s
  /\ g_onExceptionEvent (completed_state s context) = g_onExceptionEvent s
  /\ (forall m, monitorId (monitors (completed_state s context) m) = monitorId (monitors s m)).
Proof.
  unfold completed_state. cbn.
  destruct (g_onExceptionEvent s) eqn:Hcb; cbn;
    destruct (isFatal (g_currentPolicy s) && negb (g_crashedDuringExceptionHandling s));
    cbn; repeat split; try done; try (intros m; by rewrite ?setEnabledAll_monitorId).
Qed.

Lemma completed_state_calls s context :
  calls (completed_state s context) =
  calls s ++ map CallAddContextualInfoToEvent (enabledMonitors s)
    ++ match g_onExceptionEvent s with
       | Some f => [CallOnExceptionEvent f (completed_context s context)]
       | None => []
       end
    ++ (if isFatal (g_currentPolicy s) && negb (g_crashedDuringExceptionHandling s)
        then map (fun m => CallSetEnabled m false) (apis (g_monitors s)) else []).
Proof.
  unfold completed_state. cbn.
  destruct (g_onExceptionEvent s); cbn;
    destruct (isFatal (g_currentPolicy s) && negb (g_crashedDuringExceptionHandling s));
    cbn; rewrite <- ?app_assoc, ?app_nil_r; done.
Qed.

Lemma completed_state_monitors s context :
  monitors (completed_state s context) =
  if isFatal (g_currentPolicy s) && negb (g_crashedDuringExceptionHandling s)
  then setEnabledAll (fun _ => false) (apis (g_monitors s)) (monitors s)
  else monitors s.
Proof.
  unfold completed_state. cbn.
  destruct (g_onExceptionEvent s); cbn;
    by destruct (isFatal (g_currentPolicy s) && negb (g_crashedDuringExceptionHandling s)).
Qed.

(** X1: when the policy does not require async-safety, [handleException]
    on a free lock makes the identifier on demand: the context gets the
    identifier of a new [ksid_generate] call, the pool and its cursor are
    not touched (so an exhausted pool does not matter), the lock is released
    and [handlingCrash] is cleared. *)
Theorem handleException_on_demand_leaves_pool :
  forall context s,
    g_monitorsLock s = false ->
    asyncSafety (g_currentPolicy s) = false ->
    exists context' s',
      handleException ksid_nth context s = Returned context' s'
      /\ eventID context' = ksid_nth (ksid_calls s)
      /\ ksid_calls s' = S (ksid_calls s)
      /\ g_eventIdIdx s' = g_eventIdIdx s
      /\ g_eventIds s' = g_eventIds s
      /\ g_monitorsLock s' = false
      /\ handlingCrash context' = false
      /\ requiresAsyncSafety context' = false.
Proof.
  intros context s Hfree Hasync.
  eexists _, _. split; [by apply handleException_on_demand|].
  match goal with |- context [completed_state ?t ?c] =>
    destruct (completed_state_frame t c) as (Hl & _ & _ & _ & _ & Hids & Hidx & Hk & _);
    destruct (completed_context_fields t c) as (He & _ & Hr & _)
  end.
  rewrite Hids, Hidx, Hk, Hl. cbn. rewrite He, Hr. cbn.
  destruct (stamped_fields s context) as (_ & _ & _ & Hreq & _).
  by rewrite Hreq.
Qed.

(** X2: a handling that gets its identifier (lock free, and async-safety
    not required or the pool not used up) calls, in this order: the
    [addContextualInfoToEvent] of every enabled monitor in registry order,
    the application callback once if one is set, with [handlingCrash] still
    carrying the fatal bit, and, when the policy is fatal and no crash
    during handling was detected, [setEnabled(false)] on every registered
    monitor.  It returns with the lock released and [handlingCrash]
    cleared; the monitors end disabled in the fatal case and are left alone
    otherwise. *)
Theorem handleException_call_order :
  forall context s,
    g_monitorsLock s = false ->
    (asyncSafety (g_currentPolicy s) = false \/ g_eventIdIdx s < g_eventIdCount) ->
    let shutdown :=
      isFatal (g_currentPolicy s) && negb (g_crashedDuringExceptionHandling s) in
    exists seen context' s',
      handleException ksid_nth context s = Returned context' s'
      /\ context' = set_handlingCrash false seen
      /\ handlingCrash seen = handlingCrash context || isFatal (g_currentPolicy s)
      /\ contextualInfo seen = contextualInfo context ++ enabledMonitors s
      /\ calls s' =
           calls s ++ map CallAddContextualInfoToEvent (enabledMonitors s)
           ++ match g_onExceptionEvent s with
              | Some f => [CallOnExceptionEvent f seen]
              | None => []
              end
           ++ (if shutdown
               then map (fun m => CallSetEnabled m false) (apis (g_monitors s)) else [])
      /\ g_monitorsLock s' = false
      /\ apis (g_monitors s') = apis (g_monitors s)
      /\ (if shutdown
          then forall m, m ∈ apis (g_monitors s) -> isEnabled (monitors s' m) = false
          else monitors s' = monitors s).
Proof.
  intros context s Hfree Hres shutdown.
  assert (exists s1 c1,
    handleException ksid_nth context s =
      Returned (set_handlingCrash false (completed_context s1 c1)) (completed_state s1 c1)
    /\ calls s1 = calls s /\ monitors s1 = monitors s /\ g_monitors s1 = g_monitors s
    /\ g_currentPolicy s1 = g_currentPolicy s
    /\ g_crashedDuringExceptionHandling s1 = g_crashedDuringExceptionHandling s
    /\ g_onExceptionEvent s1 = g_onExceptionEvent s
    /\ handlingCrash c1 = handlingCrash context || isFatal (g_currentPolicy s)
    /\ contextualInfo c1 = contextualInfo context) as (s1 & c1 & Hrun & Hc & Hm & Hg & Hp & Hcr & Hcb & Hh & Hi).
  { destruct (stamped_fields s context) as (_ & Hinfo & Hhc & _).
    destruct (asyncSafety (g_currentPolicy s)) eqn:Hasync.
    - destruct Hres as [?|Hidx]; [done|].
      eexists _, _. split; [by apply handleException_pool|]. cbn. by rewrite Hinfo, Hhc.
    - eexists _, _. split; [by apply handleException_on_demand|]. cbn. by rewrite Hinfo, Hhc. }
  assert (Hen : enabledMonitors s1 = enabledMonitors s).
  { unfold enabledMonitors. by rewrite Hm, Hg. }
  destruct (completed_context_fields s1 c1) as (_ & Hh' & _ & _ & Hi').
  destruct (completed_state_frame s1 c1) as (Hl & Hg' & _).
  exists (completed_context s1 c1). eexists _, _. split; [exact Hrun|].
  split; [done|]. split; [by rewrite Hh'|]. split; [by rewrite Hi', Hi, Hen|].
  split.
  { rewrite completed_state_calls, Hc, Hen, Hcb, Hp, Hcr, Hg. done. }
  split; [done|]. split; [by rewrite Hg', Hg|].
  rewrite completed_state_monitors, Hp, Hcr, Hg, Hm. subst shutdown.
  destruct (isFatal (g_currentPolicy s) && negb (g_crashedDuringExceptionHandling s)); [|done].
  intros m Hin. by rewrite setEnabledAll_isEnabled_in.
Qed.

(** X3: [handleException] returns in every state: it never waits for the
    registry lock, and the [kscm_disableAllMonitors] at its end runs after
    it has released the lock itself.  [notifyException] fails to return
    exactly when the notification is fatal, the policy was already fatal
    or crashed, and the lock is held. *)
Theorem handleException_returns_notifyException_may_block :
  (forall context s,
     exists context' s', handleException ksid_nth context s = Returned context' s')
  /\ (forall r s,
        (exists s', notifyException r s = Blocked s')
        <-> isFatal r = true
            /\ (isFatal (g_currentPolicy s) = true
                \/ g_crashedDuringExceptionHandling s = true)
            /\ g_monitorsLock s = true).
Proof.
  split.
  - intros context s. eexists _, _. apply handleException_handled.
  - intros r s. rewrite notifyException_unfold.
    destruct r as [rf ra], s as [ml lk ini cr [pf pa] ids idx cb kc mons cs].
    destruct rf, pf, cr, lk; cbn; split;
      try (intros [s' Hs']; discriminate);
      try (intros (? & [?|?] & ?); discriminate);
      try (intros (? & ? & ?); discriminate);
      try (intros _; by eexists);
      try (intros _; repeat split; by auto).
Qed.

(** ** Sequences of notifications *)

Lemma notifyException_free r s :
  g_monitorsLock s = false ->
  exists s',
    notifyException r s =
      Returned (isFatal r && (isFatal (g_currentPolicy s)
                              || g_crashedDuringExceptionHandling s)) s'
    /\ policy_state s' = notify_policy r (policy_state s)
    /\ g_monitorsLock s' = false.
Proof.
  intros Hfree. rewrite notifyException_unfold, Hfree.
  destruct r as [rf ra], s as [ml lk ini cr [pf pa] ids idx cb kc mons cs].
  cbn in Hfree. subst lk.
  destruct rf, pf, cr; cbn; eexists; (split; [reflexivity|]); split; reflexivity.
Qed.

(** X4: any sequence of notifications on a free lock returns, and leaves:
    [isFatal] set when it was set or some notification was fatal;
    [asyncSafety] set when it was set or some notification asked for it;
    the crashed flag set when it was set, or a fatal notification met an
    already fatal policy, or two of the notifications were fatal. *)
Theorem notifyException_sequence_closed_form :
  forall rs s,
    g_monitorsLock s = false ->
    let fatal := length (List.filter isFatal rs) in
    exists results s',
      mapM notifyException rs s = Returned results s'
      /\ length results = length rs
      /\ isFatal (g_currentPolicy s') = isFatal (g_currentPolicy s) || (0 <? fatal)
      /\ asyncSafety (g_currentPolicy s')
         = asyncSafety (g_currentPolicy s) || existsb asyncSafety rs
      /\ g_crashedDuringExceptionHandling s'
         = g_crashedDuringExceptionHandling s
           || (isFatal (g_currentPolicy s) && (0 <? fatal)) || (1 <? fatal)
      /\ g_monitorsLock s' = false.
Proof.
  induction rs as [|r rs IH]; intros s Hfree fatal.
  - exists [], s. subst fatal. cbn. rewrite andb_false_r, !orb_false_r. by repeat split.
  - destruct (notifyException_free r s Hfree) as (s1 & Hrun & Hpol & Hfree1).
    destruct (IH s1 Hfree1) as (results & s' & Hrest & Hlen & Hf & Ha & Hc & Hl).
    eexists _, s'. cbn [mapM]. rewrite bind_eq, Hrun, bind_eq, Hrest.
    split; [reflexivity|]. split; [cbn; by rewrite Hlen|].
    unfold policy_state, notify_policy in Hpol.
    rewrite Hf, Ha, Hc. subst fatal. cbn [List.filter existsb].
    destruct (isFatal r); injection Hpol as -> -> ->; cbn [length];
      destruct (length (List.filter isFatal rs)) as [|[|n]]; cbn;
      destruct (isFatal (g_currentPolicy s)), (asyncSafety (g_currentPolicy s)),
        (g_crashedDuringExceptionHandling s), (asyncSafety r),
        (existsb asyncSafety rs); done.
Qed.

(** ** What a call leaves *)

Lemma api_calls_invariant (P : State -> Prop) :
  (forall c s, P s ->
     P (final (api_call ksid_nth KSCrashMonitorFlagAsyncSafe
                 KSCrashMonitorFlagDebuggerUnsafe c s))) ->
  forall cs s, P s ->
    P (final (api_calls ksid_nth KSCrashMonitorFlagAsyncSafe
                KSCrashMonitorFlagDebuggerUnsafe cs s)).
Proof.
  intros Hstep cs. induction cs as [|c cs IH]; intros s HP; [done|].
  unfold api_calls. cbn [forM_]. rewrite bind_eq.
  specialize (Hstep c s HP).
  destruct (api_call _ _ _ c s) as [[] s1|s1]; cbn in Hstep; [|done].
  by apply IH.
Qed.

Lemma kscm_addMonitor_final api s :
  let s' := final (kscm_addMonitor api s) in
  s' = initialized s
  \/ exists p,
       api = Some p /\ g_monitorsLock s = false
       /\ monitorId (monitors s p) <> None
       /\ (monitorId (monitors s p) ∉ registered_ids (initialized s))
       /\ s' = added p (initialized s).
Proof.
  destruct api as [p|]; [|left; by rewrite kscm_addMonitor_null].
  destruct (monitorId (monitors s p)) as [i|] eqn:Hid;
    [|left; by rewrite kscm_addMonitor_null_id].
  destruct (g_monitorsLock s) eqn:Hlock.
  { left. rewrite kscm_addMonitor_held; [done|done|congruence]. }
  destruct (decide (Some i ∈ registered_ids (initialized s))) as [Hin|Hout].
  - left. rewrite kscm_addMonitor_duplicate; [done|done|congruence|by rewrite Hid].
  - right. exists p. rewrite kscm_addMonitor_fresh; [|done|congruence|by rewrite Hid].
    rewrite Hid. repeat split; done.
Qed.

Lemma kscm_removeMonitor_final api s :
  let s' := final (kscm_removeMonitor api s) in
  s' = s
  \/ exists p k,
       api = Some p /\ g_monitorsLock s = false
       /\ apis (g_monitors s) !! k = Some p
       /\ (forall j, j < k -> apis (g_monitors s) !! j <> Some p)
       /\ s' = removed k p s.
Proof.
  destruct api as [p|]; [|by left].
  destruct (g_monitorsLock s) eqn:Hlock.
  { left. by rewrite kscm_removeMonitor_held. }
  destruct (decide (p ∈ apis (g_monitors s))) as [Hin|Hout].
  - right. destruct (first_index _ _ Hin) as (k & Hk & Hfirst).
    exists p, k. by rewrite (kscm_removeMonitor_found s p k).
  - left. by rewrite kscm_removeMonitor_absent.
Qed.

Lemma notifyException_final r s :
  let s' := final (notifyException r s) in
  s' = notified r s \/ (g_monitorsLock s = false /\ s' = disabledAll (notified r s)).
Proof.
  rewrite notifyException_unfold.
  destruct (isFatal r && _); [|by left].
  destruct (g_monitorsLock s); [by left|by right].
Qed.

(** Every call, in every state, leaves one of these states. *)
Lemma api_call_final c s :
  let s' := final (api_call ksid_nth KSCrashMonitorFlagAsyncSafe
                     KSCrashMonitorFlagDebuggerUnsafe c s) in
  match c with
  | SetEventCallback onEvent => s' = set_g_onExceptionEvent onEvent (initialized s)
  | ActivateMonitors isBeingTraced mallocOk =>
      if g_monitorsLock s then s' = regenerated ksid_nth (initialized s)
      else s' = activated ksid_nth KSCrashMonitorFlagAsyncSafe
                  KSCrashMonitorFlagDebuggerUnsafe isBeingTraced mallocOk s
  | DisableAllMonitors => if g_monitorsLock s then s' = s else s' = disabledAll s
  | Notify r => s' = final (notifyException r s)
  | Handle context => s' = handled_state ksid_nth s context
  | AddMonitor api => s' = final (kscm_addMonitor api s)
  | RemoveMonitor api => s' = final (kscm_removeMonitor api s)
  | RegenerateEventIDs => if g_monitorsLock s then s' = s else s' = regenerated ksid_nth s
  | ClearAsyncSafetyState =>
      s' = set_g_currentPolicy
             {| isFatal := isFatal (g_currentPolicy s); asyncSafety := false |} s
  | ResetState => if g_monitorsLock s then s' = s else s' = reset_state ksid_nth s
  end.
Proof.
  destruct c; cbn [api_call].
  - by rewrite kscm_setEventCallback_set.
  - destruct (g_monitorsLock s) eqn:Hlock; rewrite bind_eq.
    + by rewrite kscm_activateMonitors_held.
    + by rewrite kscm_activateMonitors_free.
  - destruct (g_monitorsLock s) eqn:Hlock.
    + by rewrite kscm_disableAllMonitors_held.
    + by rewrite kscm_disableAllMonitors_free.
  - rewrite bind_eq. by destruct (notifyException _ s).
  - by rewrite bind_eq, handleException_handled.
  - rewrite bind_eq. by destruct (kscm_addMonitor _ s).
  - done.
  - destruct (g_monitorsLock s) eqn:Hlock.
    + by rewrite kscm_regenerateEventIDs_held.
    + by rewrite kscm_regenerateEventIDs_free.
  - done.
  - destruct (g_monitorsLock s) eqn:Hlock.
    + by rewrite kscm_resetState_held.
    + by rewrite kscm_resetState_free.
Qed.

(** ** Swap-with-last, as a permutation *)

Lemma replaceWithLast_Permutation (l : list addr) k p last :
  l !! k = Some p ->
  l !! (length l - 1) = Some last ->
  take (length l - 1) (<[k := last]> l) ++ [p] ≡ₚ l.
Proof.
  intros (l1 & l2 & -> & ->)%list_elem_of_split_length Hlast.
  destruct l2 as [|y l2 _] using rev_ind.
  - rewrite length_app in *. cbn [length] in *.
    replace (length l1 + 1 - 1) with (length l1) in * by lia.
    rewrite list_lookup_middle in Hlast by done. injection Hlast as <-.
    rewrite insert_app_r_alt, Nat.sub_diag by lia. cbn.
    by rewrite take_app_length.
  - assert (E : l1 ++ p :: l2 ++ [y] = (l1 ++ p :: l2) ++ [y]) by (by rewrite <- app_assoc).
    assert (En : length (l1 ++ p :: l2 ++ [y]) - 1 = length (l1 ++ p :: l2)).
    { rewrite E, length_app. cbn. lia. }
    rewrite En in *. rewrite E in Hlast.
    rewrite list_lookup_middle in Hlast by done. injection Hlast as <-.
    rewrite insert_app_r_alt, Nat.sub_diag by lia. cbn [insert list_insert].
    assert (E' : l1 ++ y :: l2 ++ [y] = (l1 ++ y :: l2) ++ [y]) by (by rewrite <- app_assoc).
    rewrite E', take_app_length' by (rewrite !length_app; cbn; lia).
    rewrite <- !app_assoc. apply Permutation_app_head. cbn.
    rewrite (Permutation_app_comm l2 [p]), (Permutation_app_comm l2 [y]). cbn.
    apply Permutation_swap.
Qed.

Lemma removed_Permutation s m k :
  apis (g_monitors s) !! k = Some m ->
  apis (g_monitors (removed k m s)) ++ [m] ≡ₚ apis (g_monitors s).
Proof.
  intros Hk. destruct (removed_spec s m k Hk) as (last & Hlast & -> & _).
  by apply replaceWithLast_Permutation.
Qed.

(** ** The registry lock across calls *)

Lemma initialized_other s :
  g_currentPolicy (initialized s) = g_currentPolicy s
  /\ g_crashedDuringExceptionHandling (initialized s) = g_crashedDuringExceptionHandling s
  /\ g_eventIdIdx (initialized s) = g_eventIdIdx s
  /\ g_eventIds (initialized s) = g_eventIds s
  /\ ksid_calls (initialized s) = ksid_calls s
  /\ g_onExceptionEvent (initialized s) = g_onExceptionEvent s.
Proof. unfold initialized. by destruct (g_areMonitorsInitialized s). Qed.

Lemma handled_state_lock s context :
  g_monitorsLock (handled_state ksid_nth s context) =
  g_monitorsLock s
  || asyncSafety (g_currentPolicy s) && (g_eventIdCount <=? g_eventIdIdx s).
Proof.
  unfold handled_state, handled_resolution.
  destruct (g_monitorsLock s) eqn:Hlock; [done|].
  destruct (asyncSafety (g_currentPolicy s)); cbn [negb andb orb].
  - destruct (g_eventIdCount <=? g_eventIdIdx s); [done|].
    by destruct (completed_state_frame
                   (set_g_eventIdIdx (S (g_eventIdIdx s)) (set_g_monitorsLock true s))
                   (set_eventID (g_eventIds s (g_eventIdIdx s)) (stamped s context)))
      as (-> & _).
  - by destruct (completed_state_frame
                   (set_ksid_calls (S (ksid_calls s)) (set_g_monitorsLock true s))
                   (set_eventID (ksid_nth (ksid_calls s)) (stamped s context)))
      as (-> & _).
Qed.

(** X5: whatever the call and the state, the registry lock after the call
    is held exactly when it was held before, or the call is a
    [handleException] that finds async-safety required and the pool used
    up.  So that path is the only way the lock is left held by the API, and
    a held lock is never released: it stays held along every sequence of
    calls. *)
Theorem registry_lock_after_call :
  (forall c s,
     g_monitorsLock (final (api_call ksid_nth KSCrashMonitorFlagAsyncSafe
                              KSCrashMonitorFlagDebuggerUnsafe c s)) =
     g_monitorsLock s
     || match c with
        | Handle _ =>
            asyncSafety (g_currentPolicy s) && (g_eventIdCount <=? g_eventIdIdx s)
        | _ => false
        end)
  /\ (forall cs s,
        g_monitorsLock s = true ->
        g_monitorsLock (final (api_calls ksid_nth KSCrashMonitorFlagAsyncSafe
                                 KSCrashMonitorFlagDebuggerUnsafe cs s)) = true).
Proof.
  assert (Hone : forall c s,
     g_monitorsLock (final (api_call ksid_nth KSCrashMonitorFlagAsyncSafe
                              KSCrashMonitorFlagDebuggerUnsafe c s)) =
     g_monitorsLock s
     || match c with
        | Handle _ =>
            asyncSafety (g_currentPolicy s) && (g_eventIdCount <=? g_eventIdIdx s)
        | _ => false
        end).
  { intros c s. pose proof (api_call_final c s) as Hfin. cbn zeta in Hfin.
    destruct (initialized_frame s) as (Hlk & _).
    destruct c; rewrite ?orb_false_r.
    - by rewrite Hfin.
    - destruct (g_monitorsLock s) eqn:Hlock; by rewrite Hfin.
    - destruct (g_monitorsLock s) eqn:Hlock; by rewrite Hfin.
    - rewrite Hfin. destruct (notifyException_final recommendations s) as [->|[Hfree ->]].
      + unfold notified. by destruct (isFatal recommendations), (isFatal (g_currentPolicy _)).
      + by rewrite Hfree.
    - rewrite Hfin. apply handled_state_lock.
    - rewrite Hfin.
      destruct (kscm_addMonitor_final api s) as [->|(p & _ & Hfree & _ & _ & ->)]; [done|].
      by rewrite Hfree.
    - rewrite Hfin.
      destruct (kscm_removeMonitor_final api s) as [->|(p & k & _ & Hfree & _ & _ & ->)];
        [done|]. by rewrite Hfree.
    - destruct (g_monitorsLock s) eqn:Hlock; by rewrite Hfin.
    - by rewrite Hfin.
    - destruct (g_monitorsLock s) eqn:Hlock; by rewrite Hfin. }
  split; [exact Hone|].
  intros cs s Hheld.
  apply (api_calls_invariant (fun s => g_monitorsLock s = true)); [|done].
  intros c t Ht. by rewrite Hone, Ht.
Qed.

(** X6: on a held lock the calls that take it with a blocking acquire
    never return: [kscm_disableAllMonitors], [kscm_removeMonitor],
    [kscm_regenerateEventIDs] and [kscm_resetState] block with the globals
    untouched, [kscm_addMonitor] of a monitor with an id blocks after
    [init()], and [kscm_activateMonitors] blocks after [init()] and after
    having replaced both pool identifiers once. *)
Theorem held_lock_blocks_registry_calls :
  forall s p isBeingTraced mallocOk,
    g_monitorsLock s = true ->
    kscm_disableAllMonitors s = Blocked s
    /\ kscm_removeMonitor (Some p) s = Blocked s
    /\ kscm_regenerateEventIDs ksid_nth s = Blocked s
    /\ kscm_resetState ksid_nth s = Blocked s
    /\ (monitorId (monitors s p) <> None ->
        kscm_addMonitor (Some p) s = Blocked (initialized s))
    /\ kscm_activateMonitors ksid_nth KSCrashMonitorFlagAsyncSafe
         KSCrashMonitorFlagDebuggerUnsafe isBeingTraced mallocOk s
       = Blocked (regenerated ksid_nth (initialized s))
    /\ g_eventIds (regenerated ksid_nth (initialized s)) 0 = ksid_nth (ksid_calls s)
    /\ g_eventIds (regenerated ksid_nth (initialized s)) 1 = ksid_nth (S (ksid_calls s))
    /\ g_eventIdIdx (regenerated ksid_nth (initialized s)) = 0.
Proof.
  intros s p isBeingTraced mallocOk Hheld.
  split; [by apply kscm_disableAllMonitors_held|].
  split; [by apply kscm_removeMonitor_held|].
  split; [by apply kscm_regenerateEventIDs_held|].
  split; [by apply kscm_resetState_held|].
  split; [by apply kscm_addMonitor_held|].
  split; [by apply kscm_activateMonitors_held|].
  destruct (initialized_other s) as (_ & _ & _ & _ & Hk & _).
  cbn. rewrite Hk. by rewrite fn_lookup_insert_ne, !fn_lookup_insert by done.
Qed.

(** ** Invariants of the registry and of the pool *)

Lemma same_registry_ids s s' : same_registry s s' -> registered_ids s' = registered_ids s.
Proof.
  intros (Hg & _ & Hid). unfold registered_ids. rewrite Hg.
  apply map_ext. intros m. apply Hid.
Qed.

Lemma same_registry_initialized_activated isBeingTraced mallocOk s :
  same_registry (initialized s)
    (activated ksid_nth KSCrashMonitorFlagAsyncSafe KSCrashMonitorFlagDebuggerUnsafe
       isBeingTraced mallocOk s).
Proof.
  unfold same_registry, activated. cbn. repeat split.
  intros m. by rewrite setEnabledAll_monitorId.
Qed.

Lemma same_registry_notified r s : same_registry s (notified r s).
Proof.
  unfold same_registry, notified.
  destruct (isFatal r); [destruct (isFatal (g_currentPolicy _))|]; done.
Qed.

Lemma same_registry_disabledAll s : same_registry s (disabledAll s).
Proof.
  unfold same_registry, disabledAll. cbn. repeat split.
  intros m. by rewrite setEnabledAll_monitorId.
Qed.

Lemma same_registry_trans s1 s2 s3 :
  same_registry s1 s2 -> same_registry s2 s3 -> same_registry s1 s3.
Proof.
  intros (Hg & Hi & Hid) (Hg' & Hi' & Hid'). unfold same_registry.
  rewrite Hg', Hg, Hi', Hi. repeat split. intros m. by rewrite Hid', Hid.
Qed.

Lemma same_registry_handled s context :
  same_registry s (handled_state ksid_nth s context).
Proof.
  unfold handled_state, handled_resolution.
  destruct (g_monitorsLock s); [done|].
  destruct (asyncSafety (g_currentPolicy s)); cbn [negb].
  - destruct (g_eventIdCount <=? g_eventIdIdx s); [done|].
    match goal with |- context [completed_state ?t ?c] =>
      destruct (completed_state_frame t c) as (_ & Hg & Hi & _ & _ & _ & _ & _ & _ & Hid) end.
    unfold same_registry. by rewrite Hg, Hi.
  - match goal with |- context [completed_state ?t ?c] =>
      destruct (completed_state_frame t c) as (_ & Hg & Hi & _ & _ & _ & _ & _ & _ & Hid) end.
    unfold same_registry. by rewrite Hg, Hi.
Qed.

(** The ways a call can change the registry. *)
Lemma api_call_registry c s :
  let s' := final (api_call ksid_nth KSCrashMonitorFlagAsyncSafe
                     KSCrashMonitorFlagDebuggerUnsafe c s) in
  same_registry s s'
  \/ same_registry (initialized s) s'
  \/ (exists p, (monitorId (monitors s p) ∉ registered_ids (initialized s))
                /\ s' = added p (initialized s))
  \/ (exists p k, apis (g_monitors s) !! k = Some p /\ s' = removed k p s)
  \/ s' = reset_state ksid_nth s.
Proof.
  pose proof (api_call_final c s) as Hfin. cbn zeta in Hfin.
  destruct c.
  - right. left. by rewrite Hfin.
  - right. left. destruct (g_monitorsLock s); rewrite Hfin; [done|].
    apply same_registry_initialized_activated.
  - left. destruct (g_monitorsLock s); rewrite Hfin; [done|].
    apply same_registry_disabledAll.
  - left. rewrite Hfin.
    destruct (notifyException_final recommendations s) as [->|[_ ->]].
    + apply same_registry_notified.
    + eapply same_registry_trans; [apply same_registry_notified|].
      apply same_registry_disabledAll.
  - left. rewrite Hfin. apply same_registry_handled.
  - rewrite Hfin.
    destruct (kscm_addMonitor_final api s) as [->|(p & _ & _ & _ & Hfresh & ->)].
    + right. by left.
    + right. right. left. by exists p.
  - rewrite Hfin.
    destruct (kscm_removeMonitor_final api s) as [->|(p & k & _ & _ & Hk & _ & ->)].
    + by left.
    + right. right. right. left. by exists p, k.
  - left. by destruct (g_monitorsLock s); rewrite Hfin.
  - left. by rewrite Hfin.
  - destruct (g_monitorsLock s); rewrite Hfin; [by left|]. by repeat right.
Qed.

Lemma capacity_ok_initialized s : capacity_ok s -> capacity_ok (initialized s).
Proof.
  unfold capacity_ok, initialized.
  destruct (g_areMonitorsInitialized s); [done|]. cbn. unfold INITIAL_MONITOR_CAPACITY. lia.
Qed.

Lemma capacity_ok_added p s :
  capacity_ok s ->
  capacity_ok (added p s)
  /\ length (apis (g_monitors s)) < capacity (g_monitors (added p s)).
Proof.
  unfold capacity_ok, added.
  cbn [g_monitors set_g_monitorsLock set_g_monitors set_calls apis capacity].
  rewrite length_app. cbn [length]. intros Hok.
  destruct (capacity (g_monitors s) <=? length (apis (g_monitors s))) eqn:Hfull.
  - apply Nat.leb_le in Hfull.
    destruct (0 <? capacity (g_monitors s)) eqn:Hpos.
    + apply Nat.ltb_lt in Hpos. lia.
    + apply Nat.ltb_ge in Hpos. lia.
  - apply Nat.leb_gt in Hfull. lia.
Qed.

(** X7: the registry never holds more monitors than its storage has
    slots: this holds after every sequence of calls when it held before
    (as in a fresh process), and the slot written by [addMonitor] is always
    inside the storage it leaves, which is the old one, its double, or 2. *)
Theorem registry_count_within_capacity :
  (forall cs s,
     capacity_ok s ->
     capacity_ok (final (api_calls ksid_nth KSCrashMonitorFlagAsyncSafe
                           KSCrashMonitorFlagDebuggerUnsafe cs s)))
  /\ (forall p s,
        capacity_ok s ->
        let s' := final (addMonitor p s) in
        apis (g_monitors s') = apis (g_monitors s) ++ [p]
        /\ length (apis (g_monitors s)) < capacity (g_monitors s')
        /\ (capacity (g_monitors s') = capacity (g_monitors s)
            \/ capacity (g_monitors s') = capacity (g_monitors s) * 2
            \/ capacity (g_monitors s') = 2)).
Proof.
  split.
  - intros cs s Hok. apply (api_calls_invariant capacity_ok); [|done].
    clear. intros c s Hok.
    destruct (api_call_registry c s)
      as [(Hg & _)|[(Hg & _)|[(p & _ & ->)|[(p & k & Hk & ->)| ->]]]].
    + unfold capacity_ok. by rewrite Hg.
    + apply capacity_ok_initialized in Hok. unfold capacity_ok in *. by rewrite Hg.
    + by apply capacity_ok_added, capacity_ok_initialized.
    + destruct (removed_spec s p k Hk) as (_ & _ & _ & Hlen & _).
      unfold capacity_ok in *. rewrite Hlen.
      unfold removed, replaceWithLast. cbn.
      destruct (apis (g_monitors s) !! (length (apis (g_monitors s)) - 1)); cbn; lia.
    + unfold capacity_ok. cbn. lia.
  - intros p s Hok. unfold addMonitor, modify.
    cbn [final g_monitors set_g_monitors apis capacity]. split; [done|].
    unfold capacity_ok in Hok.
    destruct (capacity (g_monitors s) <=? length (apis (g_monitors s))) eqn:Hfull.
    + apply Nat.leb_le in Hfull.
      destruct (0 <? capacity (g_monitors s)) eqn:Hpos.
      * apply Nat.ltb_lt in Hpos. split; [lia|]. right. by left.
      * apply Nat.ltb_ge in Hpos. split; [lia|]. right. by right.
    + apply Nat.leb_gt in Hfull. split; [lia|]. by left.
Qed.

Lemma ids_unique_initialized s : ids_unique s -> ids_unique (initialized s).
Proof.
  unfold ids_unique, registered_ids, initialized.
  destruct (g_areMonitorsInitialized s); [done|]. intros _. cbn. constructor.
Qed.

Lemma ids_unique_added p s :
  ids_unique s ->
  monitorId (monitors s p) ∉ registered_ids s ->
  ids_unique (added p s).
Proof.
  unfold ids_unique, registered_ids, added. cbn. intros Hu Hfresh.
  rewrite map_app. cbn. apply NoDup_app. split; [done|]. split.
  - intros i Hi ->%list_elem_of_singleton. by apply Hfresh.
  - apply NoDup_singleton.
Qed.

Lemma ids_unique_removed s p k :
  apis (g_monitors s) !! k = Some p ->
  ids_unique s -> ids_unique (removed k p s).
Proof.
  intros Hk Hu. unfold ids_unique, registered_ids in *.
  pose proof (removed_Permutation s p k Hk) as Hperm.
  assert (Hids : forall m,
            monitorId (monitors (removed k p s) m) = monitorId (monitors s m)).
  { intros m. cbn. destruct (decide (p = m)) as [->|Hne].
    - by rewrite fn_lookup_insert.
    - by rewrite fn_lookup_insert_ne. }
  rewrite (map_ext _ (fun m => monitorId (monitors s m))) by done.
  apply (fmap_Permutation (fun m => monitorId (monitors s m))) in Hperm.
  rewrite fmap_app in Hperm. rewrite <- Hperm in Hu.
  by apply NoDup_app in Hu as (Hu & _).
Qed.

(** X8: the registered monitors answer pairwise distinct ids, and so are
    pairwise distinct objects, after every sequence of calls when they did
    before (as in a fresh process): [kscm_addMonitor] refuses an id that is
    registered and the swap of [kscm_removeMonitor] duplicates nothing. *)
Theorem registry_ids_stay_unique :
  forall cs s,
    ids_unique s ->
    let s' := final (api_calls ksid_nth KSCrashMonitorFlagAsyncSafe
                       KSCrashMonitorFlagDebuggerUnsafe cs s) in
    ids_unique s' /\ NoDup (apis (g_monitors s')).
Proof.
  intros cs s Hu s'. assert (Hu' : ids_unique s').
  { apply (api_calls_invariant ids_unique); [|done].
    clear. intros c s Hu.
    destruct (api_call_registry c s)
      as [Hsame|[Hsame|[(p & Hfresh & ->)|[(p & k & Hk & ->)| ->]]]].
    - unfold ids_unique. by rewrite (same_registry_ids _ _ Hsame).
    - unfold ids_unique. rewrite (same_registry_ids _ _ Hsame).
      by apply ids_unique_initialized.
    - apply ids_unique_added; [by apply ids_unique_initialized|].
      by destruct (initialized_frame s) as (_ & -> & _).
    - by apply ids_unique_removed.
    - unfold ids_unique, registered_ids. cbn. constructor. }
  split; [done|]. unfold ids_unique, registered_ids in Hu'.
  by apply NoDup_fmap_1 in Hu'.
Qed.

Lemma handled_state_cursor s context :
  g_eventIdIdx (handled_state ksid_nth s context) = g_eventIdIdx s
  \/ (g_eventIdIdx s < g_eventIdCount
      /\ g_eventIdIdx (handled_state ksid_nth s context) = S (g_eventIdIdx s)).
Proof.
  unfold handled_state, handled_resolution.
  destruct (g_monitorsLock s); [by left|].
  destruct (asyncSafety (g_currentPolicy s)); cbn [negb].
  - destruct (g_eventIdCount <=? g_eventIdIdx s) eqn:Hidx; [by left|].
    apply Nat.leb_gt in Hidx. right. split; [done|].
    match goal with |- context [completed_state ?t ?c] =>
      by destruct (completed_state_frame t c) as (_ & _ & _ & _ & _ & _ & -> & _) end.
  - left.
    match goal with |- context [completed_state ?t ?c] =>
      by destruct (completed_state_frame t c) as (_ & _ & _ & _ & _ & _ & -> & _) end.
Qed.

(** X9: a call leaves the pool cursor where it was, resets it to 0, or
    advances it by one from below the capacity, and only [handleException]
    advances it; so the cursor never passes the capacity 2, along any
    sequence of calls from a state where it does not (as in a fresh
    process). *)
Theorem pool_cursor_never_passes_capacity :
  (forall c s,
     let s' := final (api_call ksid_nth KSCrashMonitorFlagAsyncSafe
                        KSCrashMonitorFlagDebuggerUnsafe c s) in
     g_eventIdIdx s' = g_eventIdIdx s
     \/ g_eventIdIdx s' = 0
     \/ (g_eventIdIdx s < g_eventIdCount /\ g_eventIdIdx s' = S (g_eventIdIdx s)
         /\ exists context, c = Handle context))
  /\ (forall cs s,
        cursor_ok s ->
        cursor_ok (final (api_calls ksid_nth KSCrashMonitorFlagAsyncSafe
                            KSCrashMonitorFlagDebuggerUnsafe cs s))).
Proof.
  assert (Hone : forall c s,
     let s' := final (api_call ksid_nth KSCrashMonitorFlagAsyncSafe
                        KSCrashMonitorFlagDebuggerUnsafe c s) in
     g_eventIdIdx s' = g_eventIdIdx s
     \/ g_eventIdIdx s' = 0
     \/ (g_eventIdIdx s < g_eventIdCount /\ g_eventIdIdx s' = S (g_eventIdIdx s)
         /\ exists context, c = Handle context)).
  { intros c s. pose proof (api_call_final c s) as Hfin. cbn zeta in *.
    destruct (initialized_other s) as (_ & _ & Hidx & _).
    destruct c.
    - left. by rewrite Hfin.
    - right. left. by destruct (g_monitorsLock s); rewrite Hfin.
    - left. by destruct (g_monitorsLock s); rewrite Hfin.
    - left. rewrite Hfin.
      destruct (notifyException_final recommendations s) as [->|[_ ->]];
        unfold notified; by destruct (isFatal recommendations), (isFatal (g_currentPolicy _)).
    - rewrite Hfin. destruct (handled_state_cursor s context) as [->|[Hlt ->]]; [by left|].
      right. right. repeat split; [done|]. by exists context.
    - left. rewrite Hfin.
      by destruct (kscm_addMonitor_final api s) as [->|(p & _ & _ & _ & _ & ->)].
    - left. rewrite Hfin.
      by destruct (kscm_removeMonitor_final api s) as [->|(p & k & _ & _ & _ & _ & ->)].
    - destruct (g_monitorsLock s); rewrite Hfin; [by left|]. right. by left.
    - left. by rewrite Hfin.
    - destruct (g_monitorsLock s); rewrite Hfin; [by left|]. right. by left. }
  split; [exact Hone|].
  intros cs s Hok. apply (api_calls_invariant cursor_ok); [|done].
  clear -Hone. intros c s Hok. unfold cursor_ok in *.
  destruct (Hone c s) as [->|[->|(Hlt & -> & _)]]; [done|lia|lia].
Qed.

(** X10: registry storage that was never allocated, or was freed, holds no
    monitor: this holds after every sequence of calls when it held before
    (as in a fresh process).  In such a state [init()] keeps every
    registered monitor, so a rejected [kscm_addMonitor] leaves the list of
    registered monitors as it was. *)
Theorem unallocated_registry_is_empty :
  (forall cs s,
     storage_ok s ->
     storage_ok (final (api_calls ksid_nth KSCrashMonitorFlagAsyncSafe
                          KSCrashMonitorFlagDebuggerUnsafe cs s)))
  /\ (forall s,
        storage_ok s ->
        apis (g_monitors (final (init s))) = apis (g_monitors s)
        /\ apis (g_monitors (final (kscm_addMonitor None s))) = apis (g_monitors s)
        /\ forall p,
             (monitorId (monitors s p) = None
              \/ monitorId (monitors s p) ∈ registered_ids s) ->
             apis (g_monitors (final (kscm_addMonitor (Some p) s))) = apis (g_monitors s)).
Proof.
  assert (Hinit : forall s, storage_ok s ->
            apis (g_monitors (initialized s)) = apis (g_monitors s)).
  { intros s Hok. unfold initialized.
    destruct (g_areMonitorsInitialized s) eqn:Hi; [done|]. cbn. by rewrite Hok. }
  split.
  - intros cs s Hok. apply (api_calls_invariant storage_ok); [|done].
    clear. intros c s Hok.
    destruct (initialized_frame s) as (_ & _ & _ & Htrue & _).
    destruct (api_call_registry c s)
      as [(Hg & Hi & _)|[(Hg & Hi & _)|[(p & _ & ->)|[(p & k & Hk & ->)| ->]]]].
    + unfold storage_ok in *. by rewrite Hg, Hi.
    + unfold storage_ok. rewrite Hi, Htrue. done.
    + unfold storage_ok. cbn. by rewrite Htrue.
    + unfold storage_ok in *. cbn. intros Hi. rewrite Hok in Hk by done. done.
    + done.
  - intros s Hok. rewrite init_initialized, kscm_addMonitor_null. cbn [final].
    split; [by apply Hinit|]. split; [by apply Hinit|].
    intros p Hp.
    destruct (kscm_addMonitor_final (Some p) s) as [->|(q & [= <-] & _ & Hid & Hfresh & _)];
      [by apply Hinit|].
    destruct Hp as [Hnone|Hin]; [done|].
    exfalso. apply Hfresh. unfold registered_ids in *.
    destruct (initialized_frame s) as (_ & -> & _). by rewrite Hinit.
Qed.

(** ** What only a reset undoes *)

Lemma api_calls_invariant_on (Q : ApiCall -> Prop) (P : State -> Prop) :
  (forall c s, Q c -> P s ->
     P (final (api_call ksid_nth KSCrashMonitorFlagAsyncSafe
                 KSCrashMonitorFlagDebuggerUnsafe c s))) ->
  forall cs s, Forall Q cs -> P s ->
    P (final (api_calls ksid_nth KSCrashMonitorFlagAsyncSafe
                KSCrashMonitorFlagDebuggerUnsafe cs s)).
Proof.
  intros Hstep cs. induction cs as [|c cs IH]; intros s HQ HP; [done|].
  apply Forall_cons in HQ as [Hc Hcs].
  unfold api_calls. cbn [forM_]. rewrite bind_eq.
  specialize (Hstep c s Hc HP).
  destruct (api_call _ _ _ c s) as [[] s1|s1]; cbn in Hstep; [|done].
  by apply IH.
Qed.

Lemma handled_state_policy s context :
  g_currentPolicy (handled_state ksid_nth s context) = g_currentPolicy s
  /\ g_crashedDuringExceptionHandling (handled_state ksid_nth s context)
     = g_crashedDuringExceptionHandling s.
Proof.
  unfold handled_state, handled_resolution.
  destruct (g_monitorsLock s); [done|].
  destruct (asyncSafety (g_currentPolicy s)); cbn [negb].
  - destruct (g_eventIdCount <=? g_eventIdIdx s); [done|].
    match goal with |- context [completed_state ?t ?c] =>
      by destruct (completed_state_frame t c) as (_ & _ & _ & -> & -> & _) end.
  - match goal with |- context [completed_state ?t ?c] =>
      by destruct (completed_state_frame t c) as (_ & _ & _ & -> & -> & _) end.
Qed.

Lemma api_call_policy c s :
  c <> ResetState ->
  let s' := final (api_call ksid_nth KSCrashMonitorFlagAsyncSafe
                     KSCrashMonitorFlagDebuggerUnsafe c s) in
  (isFatal (g_currentPolicy s) = true -> isFatal (g_currentPolicy s') = true)
  /\ (g_crashedDuringExceptionHandling s = true ->
      g_crashedDuringExceptionHandling s' = true)
  /\ (c <> ClearAsyncSafetyState ->
      asyncSafety (g_currentPolicy s) = true -> asyncSafety (g_currentPolicy s') = true).
Proof.
  intros Hreset. pose proof (api_call_final c s) as Hfin. cbn zeta in *.
  destruct (initialized_other s) as (Hp & Hc & _).
  destruct c; try done.
  - rewrite Hfin. cbn. by rewrite Hp, Hc.
  - destruct (g_monitorsLock s); rewrite Hfin; cbn; by rewrite Hp, Hc.
  - destruct (g_monitorsLock s); by rewrite Hfin.
  - rewrite Hfin.
    assert (Hn : policy_state (final (notifyException recommendations s))
                 = notify_policy recommendations (policy_state s))
      by apply policy_state_final_notify.
    unfold policy_state, notify_policy in Hn.
    destruct (isFatal recommendations); injection Hn as -> -> ->;
      repeat split; try done; intros; by rewrite ?H, ?H0, ?orb_true_r.
  - rewrite Hfin. destruct (handled_state_policy s context) as [-> ->]. done.
  - rewrite Hfin.
    destruct (kscm_addMonitor_final api s) as [->|(p & _ & _ & _ & _ & ->)];
      cbn; by rewrite Hp, Hc.
  - rewrite Hfin.
    by destruct (kscm_removeMonitor_final api s) as [->|(p & k & _ & _ & _ & _ & ->)].
  - destruct (g_monitorsLock s); by rewrite Hfin.
Qed.

(** X11: no call other than [kscm_resetState] clears [isFatal] or the
    crashed-during-handling flag, and none other than [kscm_resetState] and
    [kscm_clearAsyncSafetyState] clears [asyncSafety]: along any sequence
    of calls without them, a set bit stays set. *)
Theorem policy_bits_are_sticky :
  forall cs s,
    Forall (fun c => c <> ResetState) cs ->
    let s' := final (api_calls ksid_nth KSCrashMonitorFlagAsyncSafe
                       KSCrashMonitorFlagDebuggerUnsafe cs s) in
    (isFatal (g_currentPolicy s) = true -> isFatal (g_currentPolicy s') = true)
    /\ (g_crashedDuringExceptionHandling s = true ->
        g_crashedDuringExceptionHandling s' = true)
    /\ (Forall (fun c => c <> ClearAsyncSafetyState) cs ->
        asyncSafety (g_currentPolicy s) = true ->
        asyncSafety (g_currentPolicy s') = true).
Proof.
  intros cs s Hcs s'. split; [|split].
  - intros Hf. apply (api_calls_invariant_on (fun c => c <> ResetState)
                        (fun s => isFatal (g_currentPolicy s) = true)); [|done|done].
    intros c t Hc Ht. by apply (api_call_policy c t Hc).
  - intros Hf. apply (api_calls_invariant_on (fun c => c <> ResetState)
                        (fun s => g_crashedDuringExceptionHandling s = true)); [|done|done].
    intros c t Hc Ht. by apply (api_call_policy c t Hc).
  - intros Hclear Ha.
    apply (api_calls_invariant_on
             (fun c => c <> ResetState /\ c <> ClearAsyncSafetyState)
             (fun s => asyncSafety (g_currentPolicy s) = true)); [| |done].
    + intros c t [Hc Hc'] Ht. by apply (api_call_policy c t Hc).
    + apply Forall_forall. intros c Hin. split.
      * by apply (proj1 (Forall_forall _ _) Hcs).
      * by apply (proj1 (Forall_forall _ _) Hclear).
Qed.

(** ** Removal and registration together *)

(** X12: in a registry of pairwise distinct monitors, removing a
    registered monitor on a free lock leaves it unregistered and disabled,
    keeps every other monitor registered and untouched, and makes the
    registry one shorter. *)
Theorem kscm_removeMonitor_unregisters :
  forall s m,
    g_monitorsLock s = false ->
    NoDup (apis (g_monitors s)) ->
    m ∈ apis (g_monitors s) ->
    exists s',
      kscm_removeMonitor (Some m) s = Returned tt s'
      /\ (m ∉ apis (g_monitors s'))
      /\ (forall a, a <> m -> (a ∈ apis (g_monitors s') <-> a ∈ apis (g_monitors s)))
      /\ S (length (apis (g_monitors s'))) = length (apis (g_monitors s))
      /\ isEnabled (monitors s' m) = false
      /\ (forall a, a <> m -> monitors s' a = monitors s a)
      /\ calls s' = calls s ++ [CallSetEnabled m false].
Proof.
  intros s m Hfree Hnodup Hin.
  destruct (first_index _ _ Hin) as (k & Hk & Hfirst).
  exists (removed k m s). split; [by apply kscm_removeMonitor_found|].
  pose proof (removed_Permutation s m k Hk) as Hperm.
  destruct (removed_spec s m k Hk) as (last & _ & _ & Hlen & Hen & Hcalls & Hothers).
  assert (Hnodup' : NoDup (apis (g_monitors (removed k m s)) ++ [m])) by (by rewrite Hperm).
  apply NoDup_app in Hnodup' as (_ & Hdisj & _).
  split. { intros Hm. apply (Hdisj m Hm). by apply list_elem_of_singleton. }
  split.
  { intros a Ha. rewrite <- Hperm, elem_of_app, list_elem_of_singleton.
    split; [by left|]. by intros [?|?]. }
  split. { rewrite Hlen. apply lookup_lt_Some in Hk. lia. }
  done.
Qed.

(** X13: registering a new monitor and removing it again gives back the
    list of registered monitors exactly as [init()] leaves it, in the same
    order; the monitor was initialised, then disabled. *)
Theorem kscm_addMonitor_then_removeMonitor :
  forall s p,
    g_monitorsLock s = false ->
    monitorId (monitors s p) <> None ->
    monitorId (monitors s p) ∉ registered_ids (initialized s) ->
    exists s',
      (kscm_addMonitor (Some p) ;; kscm_removeMonitor (Some p)) s = Returned tt s'
      /\ apis (g_monitors s') = apis (g_monitors (initialized s))
      /\ calls s' = calls s ++ [CallInit p; CallSetEnabled p false]
      /\ isEnabled (monitors s' p) = false
      /\ g_monitorsLock s' = false.
Proof.
  intros s p Hfree Hid Hfresh.
  destruct (initialized_frame s) as (Hlk & Hmons & Hcalls & _).
  set (l := apis (g_monitors (initialized s))).
  assert (Hp : p ∉ l).
  { intros Hin. apply Hfresh. unfold registered_ids. rewrite <- Hmons.
    apply list_elem_of_fmap. by exists p. }
  assert (Hk : apis (g_monitors (added p (initialized s))) !! length l = Some p).
  { cbn. by rewrite list_lookup_middle. }
  exists (removed (length l) p (added p (initialized s))).
  rewrite bind_eq, kscm_addMonitor_fresh by done.
  split.
  { apply kscm_removeMonitor_found; [done|done|].
    intros j Hj Hlook. cbn in Hlook. rewrite lookup_app_l in Hlook by done.
    apply Hp. by apply list_elem_of_lookup_2 in Hlook. }
  unfold removed, replaceWithLast.
  cbn [g_monitors set_g_monitorsLock set_g_monitors set_monitors set_calls apis
       capacity added calls monitors g_monitorsLock].
  fold l. rewrite length_app. cbn [length].
  replace (length l + 1 - 1) with (length l) by lia.
  rewrite list_lookup_middle by done.
  cbn [apis]. rewrite insert_app_r_alt, Nat.sub_diag by lia. cbn [insert list_insert].
  rewrite take_app_length, Hcalls, <- app_assoc, fn_lookup_insert. done.
Qed.

(** X14: a registered monitor that was removed can be registered again:
    in an allocated registry of distinct ids, removing a monitor and adding
    it back succeeds, calls [setEnabled(false)] and then [init] on it once
    more, and leaves the same monitors registered, the re-added one last. *)
Theorem kscm_removeMonitor_then_addMonitor :
  forall s p,
    g_monitorsLock s = false ->
    g_areMonitorsInitialized s = true ->
    ids_unique s ->
    p ∈ apis (g_monitors s) ->
    monitorId (monitors s p) <> None ->
    exists rest s',
      (kscm_removeMonitor (Some p) ;; kscm_addMonitor (Some p)) s = Returned true s'
      /\ apis (g_monitors s') = rest ++ [p]
      /\ rest ++ [p] ≡ₚ apis (g_monitors s)
      /\ calls s' = calls s ++ [CallSetEnabled p false; CallInit p].
Proof.
  intros s p Hfree Hinit Hu Hin Hid.
  destruct (first_index _ _ Hin) as (k & Hk & Hfirst).
  set (s1 := removed k p s).
  assert (Hids1 : forall m, monitorId (monitors s1 m) = monitorId (monitors s m)).
  { intros m. subst s1. cbn. destruct (decide (p = m)) as [->|Hne].
    - by rewrite fn_lookup_insert.
    - by rewrite fn_lookup_insert_ne. }
  assert (Hinit1 : initialized s1 = s1) by (apply initialized_id; by subst s1).
  pose proof (removed_Permutation s p k Hk) as Hperm. fold s1 in Hperm.
  assert (Hfresh : monitorId (monitors s1 p) ∉ registered_ids (initialized s1)).
  { rewrite Hinit1, Hids1. unfold ids_unique, registered_ids in *.
    rewrite (map_ext _ (fun m => monitorId (monitors s m))) by done.
    apply (fmap_Permutation (fun m => monitorId (monitors s m))) in Hperm.
    rewrite fmap_app in Hperm. rewrite <- Hperm in Hu.
    apply NoDup_app in Hu as (_ & Hdisj & _).
    intros Hp. apply (Hdisj _ Hp). by apply list_elem_of_singleton. }
  exists (apis (g_monitors s1)), (added p s1).
  rewrite bind_eq, (kscm_removeMonitor_found s p k) by done. fold s1.
  rewrite kscm_addMonitor_fresh, Hinit1; [|done|by rewrite Hids1|done].
  split; [done|]. split; [done|]. split; [done|].
  subst s1. cbn. by rewrite <- app_assoc.
Qed.

(** ** Reset, callback, and the private API, followed by a handling *)

Lemma handleException_resolved context s :
  g_monitorsLock s = false ->
  (asyncSafety (g_currentPolicy s) = false \/ g_eventIdIdx s < g_eventIdCount) ->
  exists s1 c1,
    handleException ksid_nth context s =
      Returned (set_handlingCrash false (completed_context s1 c1)) (completed_state s1 c1)
    /\ calls s1 = calls s /\ monitors s1 = monitors s /\ g_monitors s1 = g_monitors s
    /\ g_currentPolicy s1 = g_currentPolicy s
    /\ g_crashedDuringExceptionHandling s1 = g_crashedDuringExceptionHandling s
    /\ g_onExceptionEvent s1 = g_onExceptionEvent s
    /\ eventID c1 = (if asyncSafety (g_currentPolicy s)
                     then g_eventIds s (g_eventIdIdx s) else ksid_nth (ksid_calls s))
    /\ g_eventIdIdx s1 = (if asyncSafety (g_currentPolicy s)
                          then S (g_eventIdIdx s) else g_eventIdIdx s)
    /\ ksid_calls s1 = (if asyncSafety (g_currentPolicy s)
                        then ksid_calls s else S (ksid_calls s))
    /\ requiresAsyncSafety c1 = asyncSafety (g_currentPolicy s)
    /\ g_eventIds s1 = g_eventIds s
    /\ crashedDuringCrashHandling c1
       = crashedDuringCrashHandling context || g_crashedDuringExceptionHandling s.
Proof.
  intros Hfree Hres.
  destruct (stamped_fields s context) as (_ & _ & _ & Hreq & Hcd).
  destruct (asyncSafety (g_currentPolicy s)) eqn:Hasync.
  - destruct Hres as [?|Hidx]; [done|].
    eexists _, _. split; [by apply handleException_pool|]. cbn. by rewrite Hreq, Hcd.
  - eexists _, _. split; [by apply handleException_on_demand|]. cbn. by rewrite Hreq, Hcd.
Qed.

Lemma callback_calls_app cs1 cs2 :
  callback_calls (cs1 ++ cs2) = callback_calls cs1 ++ callback_calls cs2.
Proof. apply omap_app. Qed.

Lemma callback_calls_annotations l :
  callback_calls (map CallAddContextualInfoToEvent l) = [].
Proof. by induction l. Qed.

Lemma callback_calls_setEnabled (f : addr -> bool) l :
  callback_calls (map (fun m => CallSetEnabled m (f m)) l) = [].
Proof. by induction l. Qed.

(** X15: [kscm_resetState] on a free lock empties and frees the registry,
    clears the policy, the crashed flag and the callback, and refills the
    pool; it calls no monitor, so monitors that were enabled stay enabled
    though they are no longer registered.  The next fatal notification
    starts a new episode: it returns false. *)
Theorem kscm_resetState_starts_over :
  forall s a,
    g_monitorsLock s = false ->
    exists s' s'',
      kscm_resetState ksid_nth s = Returned tt s'
      /\ g_monitors s' = {| apis := []; capacity := 0 |}
      /\ g_areMonitorsInitialized s' = false
      /\ policy_state s' = (false, false, false)
      /\ g_onExceptionEvent s' = None
      /\ g_eventIdIdx s' = 0
      /\ g_eventIds s' 0 = ksid_nth (ksid_calls s)
      /\ g_eventIds s' 1 = ksid_nth (S (ksid_calls s))
      /\ monitors s' = monitors s
      /\ calls s' = calls s
      /\ g_monitorsLock s' = false
      /\ notifyException {| isFatal := true; asyncSafety := a |} s' = Returned false s''
      /\ g_crashedDuringExceptionHandling s'' = false.
Proof.
  intros s a Hfree. eexists _, _.
  split; [by apply kscm_resetState_free|].
  rewrite notifyException_unfold. cbn.
  rewrite fn_lookup_insert_ne, !fn_lookup_insert by done.
  repeat split.
Qed.

(** X16: the callback that [handleException] calls is the one set last:
    after two [kscm_setEventCallback] calls a completed handling calls the
    second function exactly once, with the context as the monitors left it,
    and calls nothing when the second argument is NULL. *)
Theorem kscm_setEventCallback_last_wins :
  forall onEvent1 onEvent2 context s,
    g_monitorsLock s = false ->
    (asyncSafety (g_currentPolicy s) = false \/ g_eventIdIdx s < g_eventIdCount) ->
    exists seen s',
      (kscm_setEventCallback onEvent1 ;; kscm_setEventCallback onEvent2 ;;
       handleException ksid_nth context) s
      = Returned (set_handlingCrash false seen) s'
      /\ callback_calls (calls s') =
           callback_calls (calls s)
           ++ match onEvent2 with Some f => [(f, seen)] | None => [] end.
Proof.
  intros onEvent1 onEvent2 context s Hfree Hres.
  rewrite bind_eq, kscm_setEventCallback_set, bind_eq, kscm_setEventCallback_set.
  set (s2 := set_g_onExceptionEvent onEvent2
               (initialized (set_g_onExceptionEvent onEvent1 (initialized s)))).
  assert (Hs2 : g_monitorsLock s2 = false /\ g_currentPolicy s2 = g_currentPolicy s
                /\ g_eventIdIdx s2 = g_eventIdIdx s /\ calls s2 = calls s
                /\ g_crashedDuringExceptionHandling s2 = g_crashedDuringExceptionHandling s).
  { subst s2. cbn.
    destruct (initialized_frame (set_g_onExceptionEvent onEvent1 (initialized s)))
      as (-> & _ & -> & _).
    destruct (initialized_other (set_g_onExceptionEvent onEvent1 (initialized s)))
      as (-> & -> & -> & _).
    cbn. destruct (initialized_frame s) as (-> & _ & -> & _).
    by destruct (initialized_other s) as (-> & -> & -> & _). }
  destruct Hs2 as (Hl2 & Hp2 & Hi2 & Hc2 & Hcr2).
  destruct (handleException_resolved context s2) as (s1 & c1 & Hrun & Hc & _ & _ & _ & _ & Hcb & _);
    [done|by rewrite Hp2, Hi2|].
  exists (completed_context s1 c1). eexists. split; [exact Hrun|].
  rewrite completed_state_calls, !callback_calls_app.
  rewrite callback_calls_annotations, Hc, Hc2, Hcb.
  assert (Hoff : callback_calls
            (if isFatal (g_currentPolicy s1) && negb (g_crashedDuringExceptionHandling s1)
             then map (fun m => CallSetEnabled m false) (apis (g_monitors s1)) else []) = []).
  { destruct (_ && _); [|done]. apply (callback_calls_setEnabled (fun _ => false)). }
  rewrite Hoff, app_nil_r. subst s2. cbn. by destruct onEvent2.
Qed.

(** X17: [kscm_clearAsyncSafetyState] clears the async-safety bit and
    nothing else, so a handling that follows on a free lock makes its
    identifier on demand and returns with the lock released, whatever the
    state of the pool; and a notification that follows leaves
    [asyncSafety] equal to its own recommendation. *)
Theorem kscm_clearAsyncSafetyState_then_handle :
  forall context r s,
    g_monitorsLock s = false ->
    exists context' s',
      (kscm_clearAsyncSafetyState ;; handleException ksid_nth context) s
      = Returned context' s'
      /\ eventID context' = ksid_nth (ksid_calls s)
      /\ requiresAsyncSafety context' = false
      /\ g_monitorsLock s' = false
      /\ g_eventIdIdx s' = g_eventIdIdx s
      /\ isFatal (g_currentPolicy s') = isFatal (g_currentPolicy s)
      /\ g_crashedDuringExceptionHandling s' = g_crashedDuringExceptionHandling s
      /\ asyncSafety
           (g_currentPolicy (final ((kscm_clearAsyncSafetyState ;; notifyException r) s)))
         = asyncSafety r.
Proof.
  intros context r s Hfree.
  set (s0 := set_g_currentPolicy
               {| isFatal := isFatal (g_currentPolicy s); asyncSafety := false |} s).
  assert (Hrun0 : kscm_clearAsyncSafetyState s = Returned tt s0) by done.
  destruct (handleException_resolved context s0)
    as (s1 & c1 & Hrun & _ & _ & _ & Hp & Hcr & _ & Hid & Hidx & _ & Hreq & _);
    [done|by left|].
  assert (Hlast : asyncSafety
            (g_currentPolicy (final ((kscm_clearAsyncSafetyState ;; notifyException r) s)))
          = asyncSafety r).
  { rewrite bind_eq, Hrun0.
    pose proof (policy_state_final_notify r s0) as Hn.
    unfold policy_state, notify_policy in Hn. cbn in Hn.
    destruct (isFatal r); by injection Hn as _ -> _. }
  eexists _, _. rewrite bind_eq, Hrun0. split; [exact Hrun|].
  destruct (completed_context_fields s1 c1) as (He & _ & Hr & _).
  destruct (completed_state_frame s1 c1) as (Hl & _ & _ & Hp' & Hcr' & _ & Hidx' & _).
  cbn [eventID requiresAsyncSafety set_handlingCrash].
  rewrite He, Hr, Hid, Hreq, Hl, Hidx', Hidx, Hp', Hp, Hcr', Hcr.
  by repeat split.
Qed.

(** X18: [kscm_regenerateEventIDs] on a free lock refills the pool from two
    new [ksid_generate] calls and resets the cursor, so with async-safety
    required the handling that follows completes with the first new
    identifier even if the pool was used up before. *)
Theorem kscm_regenerateEventIDs_then_handle :
  forall context s,
    g_monitorsLock s = false ->
    asyncSafety (g_currentPolicy s) = true ->
    exists context' s',
      (kscm_regenerateEventIDs ksid_nth ;; handleException ksid_nth context) s
      = Returned context' s'
      /\ eventID context' = ksid_nth (ksid_calls s)
      /\ g_eventIds s' 1 = ksid_nth (S (ksid_calls s))
      /\ ksid_calls s' = S (S (ksid_calls s))
      /\ g_eventIdIdx s' = 1
      /\ g_monitorsLock s' = false.
Proof.
  intros context s Hfree Hasync.
  rewrite bind_eq, kscm_regenerateEventIDs_free by done.
  destruct (handleException_resolved context (regenerated ksid_nth s))
    as (s1 & c1 & Hrun & _ & _ & _ & _ & _ & _ & Hid & Hidx & Hk & _ & Hids1 & _);
    [done|right; cbn; unfold g_eventIdCount; lia|].
  eexists _, _. split; [exact Hrun|].
  destruct (completed_context_fields s1 c1) as (He & _).
  destruct (completed_state_frame s1 c1) as (Hl & _ & _ & _ & _ & Hids & Hidx' & Hk' & _).
  cbn in Hid, Hidx, Hk, Hids1. rewrite Hasync in Hid, Hidx, Hk.
  cbn. rewrite He, Hid, Hids, Hids1, Hidx', Hidx, Hk', Hk, Hl.
  rewrite fn_lookup_insert_ne, !fn_lookup_insert by done.
  repeat split.
Qed.

(** ** Activation, its notifications and what it leaves alone *)

Lemma existsb_ext_in {A} (g h : A -> bool) (l : list A) :
  (forall a, a ∈ l -> g a = h a) -> existsb g l = existsb h l.
Proof.
  induction l as [|a l IH]; intros Hgh; [done|]. cbn.
  rewrite (Hgh a) by (by left). rewrite IH; [done|]. intros b Hb. apply Hgh. by right.
Qed.

(** X19: a returning [kscm_activateMonitors] calls [setEnabled] once on
    every registered monitor, in registry order, with the value the monitor
    reports afterwards; then, if the snapshot array could be allocated,
    [notifyPostSystemEnable] on the monitors that report enabled, in
    registry order, and on no monitor otherwise.  It has replaced the pool
    twice, so the pool holds the third and fourth new identifier, and it
    leaves unregistered monitors alone. *)
Theorem kscm_activateMonitors_calls :
  forall isBeingTraced mallocOk s,
    g_monitorsLock s = false ->
    exists anyMonitorActive s',
      kscm_activateMonitors ksid_nth KSCrashMonitorFlagAsyncSafe
        KSCrashMonitorFlagDebuggerUnsafe isBeingTraced mallocOk s
      = Returned anyMonitorActive s'
      /\ calls s' =
           calls s
           ++ map (fun m => CallSetEnabled m (isEnabled (monitors s' m))) (apis (g_monitors s'))
           ++ map CallNotifyPostSystemEnable (if mallocOk then enabledMonitors s' else [])
      /\ ksid_calls s' = 4 + ksid_calls s
      /\ g_eventIds s' 0 = ksid_nth (2 + ksid_calls s)
      /\ g_eventIds s' 1 = ksid_nth (3 + ksid_calls s)
      /\ g_eventIdIdx s' = 0
      /\ g_monitorsLock s' = false
      /\ (forall m, m ∉ apis (g_monitors s') -> monitors s' m = monitors s m).
Proof.
  intros isBeingTraced mallocOk s Hfree.
  destruct (initialized_frame s) as (_ & Hmons & Hcalls & _).
  destruct (initialized_other s) as (_ & _ & _ & _ & Hk & _).
  eexists _, _. split; [by apply kscm_activateMonitors_free|].
  unfold activated, enabledMonitors.
  cbn [calls set_calls monitors set_monitors set_g_monitorsLock g_monitors regenerated
       set_g_eventIdIdx set_g_eventIds set_ksid_calls ksid_calls g_eventIds g_eventIdIdx
       g_monitorsLock apis].
  rewrite Hmons, Hcalls, Hk. split.
  { rewrite <- app_assoc. f_equal. f_equal.
    - apply map_ext_in. intros m Hm%list_elem_of_In.
      by rewrite setEnabledAll_isEnabled_in.
    - destruct mallocOk; rewrite ?andb_true_r, ?andb_false_r; [|done].
      by destruct (apis (g_monitors (initialized s))). }
  split; [done|].
  rewrite fn_lookup_insert_ne, !fn_lookup_insert by done.
  repeat (split; [done|]).
  intros m Hm. by apply setEnabledAll_notin.
Qed.

(** X20: what activation enables does not depend on what was enabled
    before: in a state whose unallocated storage is empty, activating after
    [kscm_disableAllMonitors] returns the same result and leaves every
    monitor object with the same enabled flag as activating directly. *)
Theorem kscm_activateMonitors_after_disableAll :
  forall isBeingTraced mallocOk s,
    g_monitorsLock s = false ->
    storage_ok s ->
    exists anyMonitorActive s1 s2,
      (kscm_disableAllMonitors ;;
       kscm_activateMonitors ksid_nth KSCrashMonitorFlagAsyncSafe
         KSCrashMonitorFlagDebuggerUnsafe isBeingTraced mallocOk) s
      = Returned anyMonitorActive s1
      /\ kscm_activateMonitors ksid_nth KSCrashMonitorFlagAsyncSafe
           KSCrashMonitorFlagDebuggerUnsafe isBeingTraced mallocOk s
         = Returned anyMonitorActive s2
      /\ apis (g_monitors s1) = apis (g_monitors s2)
      /\ (forall m, isEnabled (monitors s1 m) = isEnabled (monitors s2 m)).
Proof.
  intros isBeingTraced mallocOk s Hfree Hok.
  set (f := shouldEnable KSCrashMonitorFlagAsyncSafe KSCrashMonitorFlagDebuggerUnsafe
              isBeingTraced (asyncSafety (g_currentPolicy s))).
  set (l := apis (g_monitors (initialized s))).
  assert (Hl : apis (g_monitors (initialized (disabledAll s))) = l).
  { subst l. unfold initialized. cbn. by destruct (g_areMonitorsInitialized s). }
  assert (Hls : l = apis (g_monitors s)).
  { subst l. unfold initialized. destruct (g_areMonitorsInitialized s) eqn:Hi; [done|].
    cbn. by rewrite Hok. }
  assert (Hmons : monitors (initialized (disabledAll s)) = monitors (disabledAll s))
    by (by destruct (initialized_frame (disabledAll s)) as (_ & -> & _)).
  assert (Hmons0 : monitors (initialized s) = monitors s)
    by (by destruct (initialized_frame s) as (_ & -> & _)).
  assert (Heq : forall m,
            isEnabled (setEnabledAll f l (monitors (disabledAll s)) m)
            = isEnabled (setEnabledAll f l (monitors s) m)).
  { intros m. destruct (decide (m ∈ l)) as [Hin|Hout].
    - rewrite !setEnabledAll_isEnabled_in by done. cbn.
      by rewrite setEnabledAll_monitorFlags.
    - rewrite !setEnabledAll_notin by done. cbn.
      rewrite setEnabledAll_notin; [done|by rewrite <- Hls]. }
  exists (existsb (fun m => isEnabled (setEnabledAll f l (monitors s) m)) l).
  eexists _, _. rewrite bind_eq, kscm_disableAllMonitors_free by done.
  rewrite !kscm_activateMonitors_free by done.
  change (asyncSafety (g_currentPolicy (disabledAll s)))
    with (asyncSafety (g_currentPolicy s)).
  rewrite Hl. fold f l.
  rewrite (existsb_ext_in _ (fun m => isEnabled (setEnabledAll f l (monitors s) m)) l)
    by (intros m _; apply Heq).
  split; [reflexivity|]. split; [reflexivity|].
  unfold activated.
  cbn [monitors set_calls set_monitors set_g_monitorsLock g_monitors regenerated
       set_g_eventIdIdx set_g_eventIds set_ksid_calls apis g_currentPolicy].
  change (asyncSafety (g_currentPolicy (disabledAll s)))
    with (asyncSafety (g_currentPolicy s)).
  rewrite Hl, Hmons, Hmons0. fold f l. split; [done|]. apply Heq.
Qed.

(** ** The System monitor *)

Lemma default_last_cons {A} (x y : A) (l : list A) :
  default x (last (y :: l)) = default y (last l).
Proof.
  destruct l as [|z l]; [done|].
  change (last (y :: z :: l)) with (last (z :: l)).
  destruct (last (z :: l)) eqn:E; [done|]. by apply last_None in E.
Qed.

Lemma System_setEnabled_all_closed_form (SystemData : Type)
    (cs : list (bool * SystemData)) :
  forall g,
    (KSCrashMonitor_System.g_isEnabled SystemData g = true ->
     KSCrashMonitor_System.isInitialized SystemData g = true) ->
    (KSCrashMonitor_System.isInitialized SystemData g = false ->
     KSCrashMonitor_System.g_systemData SystemData g = None) ->
    let g' := KSCrashMonitor_System.setEnabled_all SystemData cs g in
    KSCrashMonitor_System.g_isEnabled SystemData g'
      = default (KSCrashMonitor_System.g_isEnabled SystemData g) (last (map fst cs))
    /\ KSCrashMonitor_System.isInitialized SystemData g'
       = KSCrashMonitor_System.isInitialized SystemData g || existsb fst cs
    /\ KSCrashMonitor_System.g_systemData SystemData g'
       = (if KSCrashMonitor_System.isInitialized SystemData g
          then KSCrashMonitor_System.g_systemData SystemData g
          else head (map snd (List.filter fst cs))).
Proof.
  induction cs as [|[b os] cs IH]; intros g Hen Hdata.
  - cbn. rewrite orb_false_r. repeat split.
    destruct (KSCrashMonitor_System.isInitialized SystemData g) eqn:Hi; [done|].
    by apply Hdata.
  - cbn zeta. unfold KSCrashMonitor_System.setEnabled_all. cbn [foldl fst snd].
    fold (KSCrashMonitor_System.setEnabled_all SystemData cs
            (KSCrashMonitor_System.setEnabled SystemData os b g)).
    cbn [map fst]. rewrite default_last_cons.
    destruct g as [en ini data]. cbn in Hen, Hdata |- *.
    destruct (IH (KSCrashMonitor_System.setEnabled SystemData os b
                    {| KSCrashMonitor_System.g_isEnabled := en;
                       KSCrashMonitor_System.isInitialized := ini;
                       KSCrashMonitor_System.g_systemData := data |}))
      as (-> & -> & ->).
    + unfold KSCrashMonitor_System.setEnabled, KSCrashMonitor_System.initialize.
      destruct b, en, ini; cbn; auto.
    + unfold KSCrashMonitor_System.setEnabled, KSCrashMonitor_System.initialize.
      destruct b, en, ini; cbn; auto; discriminate.
    + unfold KSCrashMonitor_System.setEnabled, KSCrashMonitor_System.initialize.
      destruct b, en, ini; cbn; try done; by specialize (Hen eq_refl).
Qed.

(** X21: after [setEnabled(b)] the System monitor reports [b]; and after
    any sequence of [setEnabled] calls from process start it reports the
    last value set, it has run [initialize()] exactly when some call
    enabled it, and its system data is what the first enabling call
    collected: [initialize()] fills it once and a later enabling never
    refreshes it. *)
Theorem System_setEnabled_initializes_once :
  forall (SystemData : Type),
    (forall os b g,
       KSCrashMonitor_System.isEnabled SystemData
         (KSCrashMonitor_System.setEnabled SystemData os b g) = b)
    /\ (forall cs : list (bool * SystemData),
          let g := KSCrashMonitor_System.setEnabled_all SystemData cs
                     (KSCrashMonitor_System.startup SystemData) in
          KSCrashMonitor_System.isEnabled SystemData g = default false (last (map fst cs))
          /\ KSCrashMonitor_System.isInitialized SystemData g = existsb fst cs
          /\ KSCrashMonitor_System.g_systemData SystemData g
             = head (map snd (List.filter fst cs))).
Proof.
  intros SystemData. split.
  - intros os b g. unfold KSCrashMonitor_System.setEnabled, KSCrashMonitor_System.isEnabled,
      KSCrashMonitor_System.initialize.
    destruct g as [en ini data]. by destruct b, en, ini.
  - intros cs.
    by destruct (System_setEnabled_all_closed_form SystemData cs
                   (KSCrashMonitor_System.startup SystemData)) as (? & ? & ?).
Qed.

(** X22: the System monitor writes its section of an event exactly when it
    is enabled, and in every state reached from process start by
    [setEnabled] calls what it writes is initialised system data, never the
    zeroed struct; when it is disabled the section is left as it was. *)
Theorem System_addContextualInfoToEvent_copies_initialized_data :
  forall (SystemData : Type) (cs : list (bool * SystemData)) memory section,
    let g := KSCrashMonitor_System.setEnabled_all SystemData cs
               (KSCrashMonitor_System.startup SystemData) in
    if KSCrashMonitor_System.isEnabled SystemData g then
      exists os,
        head (map snd (List.filter fst cs)) = Some os
        /\ KSCrashMonitor_System.addContextualInfoToEvent SystemData memory g section
           = Some (Some os, memory)
    else
      KSCrashMonitor_System.addContextualInfoToEvent SystemData memory g section = section.
Proof.
  intros SystemData cs memory section g.
  destruct (System_setEnabled_all_closed_form SystemData cs
              (KSCrashMonitor_System.startup SystemData)) as (Hen & Hini & Hdata);
    [done|done|].
  fold g in Hen, Hini, Hdata. cbn in Hen, Hini, Hdata.
  unfold KSCrashMonitor_System.isEnabled, KSCrashMonitor_System.addContextualInfoToEvent.
  destruct (KSCrashMonitor_System.g_isEnabled SystemData g) eqn:Hg; [|done].
  rewrite Hdata.
  assert (Hex : existsb fst cs = true).
  { destruct (last (map fst cs)) as [b|] eqn:Hlast; [|done]. cbn in Hen. subst b.
    apply last_Some in Hlast as (l' & Hl'). apply existsb_exists.
    assert (true ∈ map fst cs) as ([b' os'] & Hb & Hin)%list_elem_of_fmap.
    { rewrite Hl'. apply elem_of_app. right. by apply list_elem_of_singleton. }
    exists (b', os'). split; [by apply list_elem_of_In|done]. }
  apply existsb_exists in Hex as ([b os] & Hin & Hb). cbn in Hb. subst b.
  assert (Hf : (true, os) ∈ List.filter fst cs).
  { apply list_elem_of_In, filter_In. by split. }
  destruct (List.filter fst cs) as [|[b1 os1] rest]; [by apply elem_of_nil in Hf|].
  by exists os1.
Qed.

(** ** The two identifiers of an episode *)

Lemma notified_frame r s :
  g_monitorsLock (notified r s) = g_monitorsLock s
  /\ g_eventIdIdx (notified r s) = g_eventIdIdx s
  /\ g_eventIds (notified r s) = g_eventIds s
  /\ ksid_calls (notified r s) = ksid_calls s
  /\ g_monitors (notified r s) = g_monitors s
  /\ calls (notified r s) = calls s.
Proof.
  unfold notified. destruct (isFatal r); [destruct (isFatal (g_currentPolicy _))|]; done.
Qed.

(** X23: when the policy requires async-safety, [handleException] never
    calls [ksid_generate] and never writes the pool: the identifier of the
    context is the one it came with or the pool slot under the cursor. *)
Theorem handleException_async_never_generates :
  forall context s,
    asyncSafety (g_currentPolicy s) = true ->
    exists context' s',
      handleException ksid_nth context s = Returned context' s'
      /\ ksid_calls s' = ksid_calls s
      /\ g_eventIds s' = g_eventIds s
      /\ (eventID context' = eventID context
          \/ (g_eventIdIdx s < g_eventIdCount
              /\ eventID context' = g_eventIds s (g_eventIdIdx s))).
Proof.
  intros context s Hasync. eexists _, _. split; [apply handleException_handled|].
  unfold handled_state, handled_context, handled_resolution. rewrite Hasync. cbn [negb].
  destruct (stamped_fields s context) as (Hid & _).
  destruct (g_monitorsLock s); [by repeat split; try left|].
  destruct (g_eventIdCount <=? g_eventIdIdx s) eqn:Hidx; [by repeat split; try left|].
  apply Nat.leb_gt in Hidx.
  match goal with |- context [completed_state ?t ?c] =>
    destruct (completed_state_frame t c) as (_ & _ & _ & _ & _ & -> & _ & -> & _);
    destruct (completed_context_fields t c) as (He & _)
  end.
  cbn. rewrite He. cbn. split; [done|]. split; [done|]. by right.
Qed.

(** X24: crash and recrash use up the two identifiers.  From a reset
    policy with the lock free and the cursor at 0, a fatal async-safe
    notification and its handling, then a second one: the first
    notification returns false and its handling takes slot 0; the second
    returns true and its handling takes slot 1 and is stamped
    [crashedDuringCrashHandling]; no identifier was generated, the lock
    ends free and the cursor is at the capacity. *)
Theorem crash_and_recrash_take_both_identifiers :
  forall c1 c2 s,
    g_monitorsLock s = false ->
    policy_state s = (false, false, false) ->
    g_eventIdIdx s = 0 ->
    let r := {| isFatal := true; asyncSafety := true |} in
    exists c1' c2' s',
      (b1 <- notifyException r ;; c1' <- handleException ksid_nth c1 ;;
       b2 <- notifyException r ;; c2' <- handleException ksid_nth c2 ;;
       ret (b1, c1', b2, c2')) s
      = Returned (false, c1', true, c2') s'
      /\ eventID c1' = g_eventIds s 0
      /\ eventID c2' = g_eventIds s 1
      /\ crashedDuringCrashHandling c1' = crashedDuringCrashHandling c1
      /\ crashedDuringCrashHandling c2' = true
      /\ requiresAsyncSafety c1' = true /\ requiresAsyncSafety c2' = true
      /\ ksid_calls s' = ksid_calls s
      /\ g_eventIdIdx s' = g_eventIdCount
      /\ g_monitorsLock s' = false
      /\ (forall m, m ∈ apis (g_monitors s') -> isEnabled (monitors s' m) = false).
Proof.
  intros c1 c2 s Hfree Hreset Hidx r.
  (* first notification *)
  set (s1 := notified r s).
  assert (Hps1 : policy_state s1 = (true, true, false))
    by (subst s1; rewrite policy_state_notified, Hreset; reflexivity).
  assert (Hf1 : isFatal (g_currentPolicy s1) = true)
    by exact (f_equal (fun p => fst (fst p)) Hps1).
  assert (Ha1 : asyncSafety (g_currentPolicy s1) = true)
    by exact (f_equal (fun p => snd (fst p)) Hps1).
  assert (Hc1 : g_crashedDuringExceptionHandling s1 = false)
    by exact (f_equal snd Hps1).
  destruct (notified_frame r s) as (Hl1 & Hi1 & Hids1 & Hk1 & _). fold s1 in Hl1, Hi1, Hids1, Hk1.
  assert (Hn1 : notifyException r s = Returned false s1).
  { rewrite notifyException_unfold. fold s1. by rewrite Hc1. }
  (* first handling *)
  destruct (handleException_resolved c1 s1)
    as (t1 & d1 & Hh1 & _ & _ & _ & Hpt1 & Hct1 & _ & Hid1 & Hit1 & Hkt1 & Hreq1 & Hidst1 & Hcd1);
    [by rewrite Hl1|right; rewrite Hi1, Hidx; unfold g_eventIdCount; lia|].
  rewrite Ha1 in Hid1, Hit1, Hkt1, Hreq1. rewrite Hc1, orb_false_r in Hcd1.
  set (s2 := completed_state t1 d1) in *.
  destruct (completed_state_frame t1 d1)
    as (Hl2 & _ & _ & Hp2 & Hc2 & Hids2 & Hi2 & Hk2 & _).
  fold s2 in Hl2, Hp2, Hc2, Hids2, Hi2, Hk2.
  destruct (completed_context_fields t1 d1) as (He1 & _ & Hr1 & Hcdc1 & _).
  (* second notification *)
  set (s3 := notified r s2).
  assert (Hps3 : policy_state s3 = (true, true, true)).
  { subst s3. rewrite policy_state_notified. unfold policy_state.
    by rewrite Hp2, Hc2, Hpt1, Hct1, Hf1, Ha1, Hc1. }
  assert (Hf3 : isFatal (g_currentPolicy s3) = true)
    by exact (f_equal (fun p => fst (fst p)) Hps3).
  assert (Ha3 : asyncSafety (g_currentPolicy s3) = true)
    by exact (f_equal (fun p => snd (fst p)) Hps3).
  assert (Hc3 : g_crashedDuringExceptionHandling s3 = true)
    by exact (f_equal snd Hps3).
  destruct (notified_frame r s2) as (Hl3 & Hi3 & Hids3 & Hk3 & Hg3 & _).
  fold s3 in Hl3, Hi3, Hids3, Hk3, Hg3.
  assert (Hn2 : notifyException r s2 = Returned true (disabledAll s3)).
  { rewrite notifyException_unfold. fold s3. by rewrite Hc3, Hl2. }
  (* second handling *)
  destruct (handleException_resolved c2 (disabledAll s3))
    as (t2 & d2 & Hh2 & _ & Hmt2 & Hgt2 & Hpt2 & Hct2 & _ & Hid2 & Hit2 & Hkt2 & Hreq2 & _ & Hcd2);
    [done|right; change (g_eventIdIdx s3 < g_eventIdCount);
     rewrite Hi3, Hi2, Hit1, Hi1, Hidx; unfold g_eventIdCount; lia|].
  cbn [g_currentPolicy g_eventIds g_eventIdIdx ksid_calls g_crashedDuringExceptionHandling
       disabledAll set_g_monitorsLock set_monitors set_calls] in Hid2, Hit2, Hkt2, Hreq2, Hcd2, Hpt2, Hct2.
  rewrite Ha3 in Hid2, Hit2, Hkt2, Hreq2. rewrite Hc3, orb_true_r in Hcd2.
  destruct (completed_state_frame t2 d2)
    as (Hl4 & Hg4 & _ & Hp4 & Hc4 & _ & Hi4 & Hk4 & _).
  destruct (completed_context_fields t2 d2) as (He2 & _ & Hr2 & Hcdc2 & _).
  exists (set_handlingCrash false (completed_context t1 d1)),
         (set_handlingCrash false (completed_context t2 d2)),
         (completed_state t2 d2).
  rewrite bind_eq, Hn1, bind_eq, Hh1, bind_eq. fold s2. rewrite Hn2, bind_eq, Hh2.
  split; [reflexivity|].
  cbn [eventID crashedDuringCrashHandling requiresAsyncSafety set_handlingCrash].
  rewrite He1, He2, Hr1, Hr2, Hcdc1, Hcdc2, Hid1, Hid2, Hreq1, Hreq2, Hcd1, Hcd2.
  rewrite Hk4, Hkt2, Hk3, Hk2, Hkt1, Hk1, Hi4, Hit2, Hi3, Hi2, Hit1, Hi1, Hidx, Hl4.
  rewrite Hids3, Hids2, Hidst1, Hids1.
  repeat (split; [done|]).
  (* the monitors end disabled: the second notification disabled them *)
  intros m Hm. rewrite completed_state_monitors, Hpt2, Hct2, Hc3. cbn [negb andb].
  rewrite andb_false_r, Hmt2. apply disabledAll_isEnabled.
  by rewrite <- Hgt2, <- Hg4.
Qed.

End MoreProperties.

(** * The further theorems at the example data *)

Lemma handleException_on_demand_leaves_pool_witness :
  exists context' s',
    handleException example_ksid_nth example_context
      (set_g_eventIdIdx 2 example_registered) = Returned context' s'
    /\ eventID context' = example_ksid_nth (ksid_calls (set_g_eventIdIdx 2 example_registered))
    /\ ksid_calls s' = S (ksid_calls (set_g_eventIdIdx 2 example_registered))
    /\ g_eventIdIdx s' = g_eventIdIdx (set_g_eventIdIdx 2 example_registered)
    /\ g_eventIds s' = g_eventIds (set_g_eventIdIdx 2 example_registered)
    /\ g_monitorsLock s' = false
    /\ handlingCrash context' = false
    /\ requiresAsyncSafety context' = false.
Proof.
  apply (handleException_on_demand_leaves_pool example_ksid_nth example_context
           (set_g_eventIdIdx 2 example_registered)); reflexivity.
Defined.

Lemma handleException_call_order_witness :
  let s := example_armed in
  let shutdown :=
    isFatal (g_currentPolicy s) && negb (g_crashedDuringExceptionHandling s) in
  exists seen context' s',
    handleException example_ksid_nth example_context s = Returned context' s'
    /\ context' = set_handlingCrash false seen
    /\ handlingCrash seen = handlingCrash example_context || isFatal (g_currentPolicy s)
    /\ contextualInfo seen = contextualInfo example_context ++ enabledMonitors s
    /\ calls s' =
         calls s ++ map CallAddContextualInfoToEvent (enabledMonitors s)
         ++ match g_onExceptionEvent s with
            | Some f => [CallOnExceptionEvent f seen]
            | None => []
            end
         ++ (if shutdown
             then map (fun m => CallSetEnabled m false) (apis (g_monitors s)) else [])
    /\ g_monitorsLock s' = false
    /\ apis (g_monitors s') = apis (g_monitors s)
    /\ (if shutdown
        then forall m, m ∈ apis (g_monitors s) -> isEnabled (monitors s' m) = false
        else monitors s' = monitors s).
Proof.
  apply (handleException_call_order example_ksid_nth example_context example_armed).
  - reflexivity.
  - right. unfold g_eventIdCount. cbn. lia.
Defined.

Lemma handleException_returns_notifyException_may_block_witness :
  (exists context' s',
     handleException example_ksid_nth example_context example_held = Returned context' s')
  /\ (exists s', notifyException {| isFatal := true; asyncSafety := false |} example_held
                  = Blocked s').
Proof.
  destruct (handleException_returns_notifyException_may_block example_ksid_nth)
    as (Hhandle & Hnotify).
  split; [apply Hhandle|]. apply Hnotify. split; [reflexivity|]. split; [by left|reflexivity].
Defined.

Lemma notifyException_sequence_closed_form_witness :
  let rs := [ {| isFatal := false; asyncSafety := true |};
              {| isFatal := true; asyncSafety := false |};
              {| isFatal := true; asyncSafety := false |} ] in
  let s := example_registered in
  let fatal := length (List.filter isFatal rs) in
  exists results s',
    mapM notifyException rs s = Returned results s'
    /\ length results = length rs
    /\ isFatal (g_currentPolicy s') = isFatal (g_currentPolicy s) || (0 <? fatal)
    /\ asyncSafety (g_currentPolicy s')
       = asyncSafety (g_currentPolicy s) || existsb asyncSafety rs
    /\ g_crashedDuringExceptionHandling s'
       = g_crashedDuringExceptionHandling s
         || (isFatal (g_currentPolicy s) && (0 <? fatal)) || (1 <? fatal)
    /\ g_monitorsLock s' = false.
Proof.
  intros rs s. apply (notifyException_sequence_closed_form rs s). reflexivity.
Defined.

Lemma registry_lock_after_call_witness :
  g_monitorsLock (final (api_call example_ksid_nth 1 2 (Handle example_context)
                           example_exhausted)) = true
  /\ g_monitorsLock (final (api_calls example_ksid_nth 1 2 example_calls example_held))
     = true.
Proof.
  destruct (registry_lock_after_call example_ksid_nth 1 2) as (Hone & Hall).
  split; [by rewrite Hone|]. by apply Hall.
Defined.

Lemma held_lock_blocks_registry_calls_witness :
  let s := example_held in
  kscm_disableAllMonitors s = Blocked s
  /\ kscm_removeMonitor (Some 2) s = Blocked s
  /\ kscm_regenerateEventIDs example_ksid_nth s = Blocked s
  /\ kscm_resetState example_ksid_nth s = Blocked s
  /\ (monitorId (monitors s 2) <> None ->
      kscm_addMonitor (Some 2) s = Blocked (initialized s))
  /\ kscm_activateMonitors example_ksid_nth 1 2 true true s
     = Blocked (regenerated example_ksid_nth (initialized s))
  /\ g_eventIds (regenerated example_ksid_nth (initialized s)) 0
     = example_ksid_nth (ksid_calls s)
  /\ g_eventIds (regenerated example_ksid_nth (initialized s)) 1
     = example_ksid_nth (S (ksid_calls s))
  /\ g_eventIdIdx (regenerated example_ksid_nth (initialized s)) = 0.
Proof.
  apply (held_lock_blocks_registry_calls example_ksid_nth 1 2 example_held 2 true true).
  reflexivity.
Defined.

Lemma registry_count_within_capacity_witness :
  capacity_ok (final (api_calls example_ksid_nth 1 2 example_calls example_fresh))
  /\ (let s' := final (addMonitor 4 example_registered) in
      apis (g_monitors s') = apis (g_monitors example_registered) ++ [4]
      /\ length (apis (g_monitors example_registered)) < capacity (g_monitors s')
      /\ (capacity (g_monitors s') = capacity (g_monitors example_registered)
          \/ capacity (g_monitors s') = capacity (g_monitors example_registered) * 2
          \/ capacity (g_monitors s') = 2)).
Proof.
  destruct (registry_count_within_capacity example_ksid_nth 1 2) as (Hall & Hadd).
  split.
  - apply Hall. unfold capacity_ok. cbn. lia.
  - apply Hadd. unfold capacity_ok. cbn. lia.
Defined.

Lemma registry_ids_stay_unique_witness :
  let s' := final (api_calls example_ksid_nth 1 2 example_calls example_fresh) in
  ids_unique s' /\ NoDup (apis (g_monitors s')).
Proof.
  apply (registry_ids_stay_unique example_ksid_nth 1 2 example_calls example_fresh).
  unfold ids_unique, registered_ids. cbn. constructor.
Defined.

Lemma pool_cursor_never_passes_capacity_witness :
  cursor_ok (final (api_calls example_ksid_nth 1 2 example_calls example_fresh)).
Proof.
  destruct (pool_cursor_never_passes_capacity example_ksid_nth 1 2) as (_ & Hall).
  apply Hall. unfold cursor_ok, g_eventIdCount. cbn. lia.
Defined.

Lemma unallocated_registry_is_empty_witness :
  storage_ok (final (api_calls example_ksid_nth 1 2 example_calls example_fresh))
  /\ apis (g_monitors (final (init example_registered))) = apis (g_monitors example_registered)
  /\ apis (g_monitors (final (kscm_addMonitor None example_registered)))
     = apis (g_monitors example_registered)
  /\ apis (g_monitors (final (kscm_addMonitor (Some 4) example_registered)))
     = apis (g_monitors example_registered).
Proof.
  destruct (unallocated_registry_is_empty example_ksid_nth 1 2) as (Hall & Hinit).
  split; [apply Hall; intros _; reflexivity|].
  destruct (Hinit example_registered) as (H1 & H2 & H3); [intros H; discriminate H|].
  split; [exact H1|]. split; [exact H2|].
  apply H3. right. compute_done.
Defined.

Lemma policy_bits_are_sticky_witness :
  let s' := final (api_calls example_ksid_nth 1 2 example_episode example_async) in
  isFatal (g_currentPolicy s') = true
  /\ g_crashedDuringExceptionHandling
       (final (api_calls example_ksid_nth 1 2 example_episode
                 (set_g_crashedDuringExceptionHandling true example_async))) = true
  /\ asyncSafety (g_currentPolicy s') = true.
Proof.
  assert (Hreset : Forall (fun c => c <> ResetState) example_episode)
    by (repeat (constructor; [discriminate|]); constructor).
  assert (Hclear : Forall (fun c => c <> ClearAsyncSafetyState) example_episode)
    by (repeat (constructor; [discriminate|]); constructor).
  destruct (policy_bits_are_sticky example_ksid_nth 1 2 example_episode example_async Hreset)
    as (Hf & _ & Ha).
  destruct (policy_bits_are_sticky example_ksid_nth 1 2 example_episode
              (set_g_crashedDuringExceptionHandling true example_async) Hreset)
    as (_ & Hc & _).
  split; [apply Hf; reflexivity|]. split; [apply Hc; reflexivity|].
  apply Ha; [exact Hclear|reflexivity].
Defined.

Lemma kscm_removeMonitor_unregisters_witness :
  exists s',
    kscm_removeMonitor (Some 2) example_registered = Returned tt s'
    /\ (2 ∉ apis (g_monitors s'))
    /\ (forall a, a <> 2 ->
          (a ∈ apis (g_monitors s') <-> a ∈ apis (g_monitors example_registered)))
    /\ S (length (apis (g_monitors s'))) = length (apis (g_monitors example_registered))
    /\ isEnabled (monitors s' 2) = false
    /\ (forall a, a <> 2 -> monitors s' a = monitors example_registered a)
    /\ calls s' = calls example_registered ++ [CallSetEnabled 2 false].
Proof.
  apply (kscm_removeMonitor_unregisters example_registered 2);
    [reflexivity|compute_done|compute_done].
Defined.

Lemma kscm_addMonitor_then_removeMonitor_witness :
  exists s',
    (kscm_addMonitor (Some 4) ;; kscm_removeMonitor (Some 4))
      (set_g_monitors {| apis := [1; 3]; capacity := 2 |} example_registered)
    = Returned tt s'
    /\ apis (g_monitors s') = [1; 3]
    /\ calls s' = calls example_registered ++ [CallInit 4; CallSetEnabled 4 false]
    /\ isEnabled (monitors s' 4) = false
    /\ g_monitorsLock s' = false.
Proof.
  apply (kscm_addMonitor_then_removeMonitor
           (set_g_monitors {| apis := [1; 3]; capacity := 2 |} example_registered) 4);
    [reflexivity|discriminate|compute_done].
Defined.

Lemma kscm_removeMonitor_then_addMonitor_witness :
  exists rest s',
    (kscm_removeMonitor (Some 1) ;; kscm_addMonitor (Some 1)) example_registered
    = Returned true s'
    /\ apis (g_monitors s') = rest ++ [1]
    /\ rest ++ [1] ≡ₚ apis (g_monitors example_registered)
    /\ calls s' = calls example_registered ++ [CallSetEnabled 1 false; CallInit 1].
Proof.
  apply (kscm_removeMonitor_then_addMonitor example_registered 1);
    [reflexivity|reflexivity|compute_done|compute_done|discriminate].
Defined.

Lemma kscm_resetState_starts_over_witness :
  exists s' s'',
    kscm_resetState example_ksid_nth example_armed = Returned tt s'
    /\ g_monitors s' = {| apis := []; capacity := 0 |}
    /\ g_areMonitorsInitialized s' = false
    /\ policy_state s' = (false, false, false)
    /\ g_onExceptionEvent s' = None
    /\ g_eventIdIdx s' = 0
    /\ g_eventIds s' 0 = example_ksid_nth (ksid_calls example_armed)
    /\ g_eventIds s' 1 = example_ksid_nth (S (ksid_calls example_armed))
    /\ monitors s' = monitors example_armed
    /\ calls s' = calls example_armed
    /\ g_monitorsLock s' = false
    /\ notifyException {| isFatal := true; asyncSafety := true |} s' = Returned false s''
    /\ g_crashedDuringExceptionHandling s'' = false.
Proof.
  apply (kscm_resetState_starts_over example_ksid_nth example_armed true). reflexivity.
Defined.

Lemma kscm_setEventCallback_last_wins_witness :
  exists seen s',
    (kscm_setEventCallback (Some 7) ;; kscm_setEventCallback (Some 8) ;;
     handleException example_ksid_nth example_context) example_armed
    = Returned (set_handlingCrash false seen) s'
    /\ callback_calls (calls s') =
         callback_calls (calls example_armed) ++ [(8, seen)].
Proof.
  apply (kscm_setEventCallback_last_wins example_ksid_nth (Some 7) (Some 8)
           example_context example_armed).
  - reflexivity.
  - right. unfold g_eventIdCount. cbn. lia.
Defined.

Lemma kscm_clearAsyncSafetyState_then_handle_witness :
  let s := example_exhausted in
  let r := {| isFatal := false; asyncSafety := false |} in
  exists context' s',
    (kscm_clearAsyncSafetyState ;; handleException example_ksid_nth example_context) s
    = Returned context' s'
    /\ eventID context' = example_ksid_nth (ksid_calls s)
    /\ requiresAsyncSafety context' = false
    /\ g_monitorsLock s' = false
    /\ g_eventIdIdx s' = g_eventIdIdx s
    /\ isFatal (g_currentPolicy s') = isFatal (g_currentPolicy s)
    /\ g_crashedDuringExceptionHandling s' = g_crashedDuringExceptionHandling s
    /\ asyncSafety
         (g_currentPolicy (final ((kscm_clearAsyncSafetyState ;; notifyException r) s)))
       = asyncSafety r.
Proof.
  intros s r.
  apply (kscm_clearAsyncSafetyState_then_handle example_ksid_nth example_context r s).
  reflexivity.
Defined.

Lemma kscm_regenerateEventIDs_then_handle_witness :
  let s := example_exhausted in
  exists context' s',
    (kscm_regenerateEventIDs example_ksid_nth ;;
     handleException example_ksid_nth example_context) s
    = Returned context' s'
    /\ eventID context' = example_ksid_nth (ksid_calls s)
    /\ g_eventIds s' 1 = example_ksid_nth (S (ksid_calls s))
    /\ ksid_calls s' = S (S (ksid_calls s))
    /\ g_eventIdIdx s' = 1
    /\ g_monitorsLock s' = false.
Proof.
  intros s.
  apply (kscm_regenerateEventIDs_then_handle example_ksid_nth example_context s);
    reflexivity.
Defined.

Lemma kscm_activateMonitors_calls_witness :
  let s := example_registered in
  exists anyMonitorActive s',
    kscm_activateMonitors example_ksid_nth 1 2 true true s = Returned anyMonitorActive s'
    /\ calls s' =
         calls s
         ++ map (fun m => CallSetEnabled m (isEnabled (monitors s' m))) (apis (g_monitors s'))
         ++ map CallNotifyPostSystemEnable (if true then enabledMonitors s' else [])
    /\ ksid_calls s' = 4 + ksid_calls s
    /\ g_eventIds s' 0 = example_ksid_nth (2 + ksid_calls s)
    /\ g_eventIds s' 1 = example_ksid_nth (3 + ksid_calls s)
    /\ g_eventIdIdx s' = 0
    /\ g_monitorsLock s' = false
    /\ (forall m, m ∉ apis (g_monitors s') -> monitors s' m = monitors s m).
Proof.
  intros s. apply (kscm_activateMonitors_calls example_ksid_nth 1 2 true true s).
  reflexivity.
Defined.

Lemma kscm_activateMonitors_after_disableAll_witness :
  let s := example_armed in
  exists anyMonitorActive s1 s2,
    (kscm_disableAllMonitors ;; kscm_activateMonitors example_ksid_nth 1 2 false true) s
    = Returned anyMonitorActive s1
    /\ kscm_activateMonitors example_ksid_nth 1 2 false true s
       = Returned anyMonitorActive s2
    /\ apis (g_monitors s1) = apis (g_monitors s2)
    /\ (forall m, isEnabled (monitors s1 m) = isEnabled (monitors s2 m)).
Proof.
  intros s. apply (kscm_activateMonitors_after_disableAll example_ksid_nth 1 2 false true s).
  - reflexivity.
  - intros H. discriminate H.
Defined.

Lemma handleException_async_never_generates_witness :
  let s := example_exhausted in
  exists context' s',
    handleException example_ksid_nth example_context s = Returned context' s'
    /\ ksid_calls s' = ksid_calls s
    /\ g_eventIds s' = g_eventIds s
    /\ (eventID context' = eventID example_context
        \/ (g_eventIdIdx s < g_eventIdCount
            /\ eventID context' = g_eventIds s (g_eventIdIdx s))).
Proof.
  intros s. apply (handleException_async_never_generates example_ksid_nth example_context s).
  reflexivity.
Defined.

Lemma crash_and_recrash_take_both_identifiers_witness :
  let s := example_registered in
  let r := {| isFatal := true; asyncSafety := true |} in
  exists c1' c2' s',
    (b1 <- notifyException r ;; c1' <- handleException example_ksid_nth example_context ;;
     b2 <- notifyException r ;; c2' <- handleException example_ksid_nth example_context ;;
     ret (b1, c1', b2, c2')) s
    = Returned (false, c1', true, c2') s'
    /\ eventID c1' = g_eventIds s 0
    /\ eventID c2' = g_eventIds s 1
    /\ crashedDuringCrashHandling c1' = crashedDuringCrashHandling example_context
    /\ crashedDuringCrashHandling c2' = true
    /\ requiresAsyncSafety c1' = true /\ requiresAsyncSafety c2' = true
    /\ ksid_calls s' = ksid_calls s
    /\ g_eventIdIdx s' = g_eventIdCount
    /\ g_monitorsLock s' = false
    /\ (forall m, m ∈ apis (g_monitors s') -> isEnabled (monitors s' m) = false).
Proof.
  intros s.
  apply (crash_and_recrash_take_both_identifiers example_ksid_nth
           example_context example_context s); reflexivity.
Defined.
